(** * Bodhi focus mode: durations, urgency classification, sessions, digest

    A shallow embedding of the decision logic of the focus-mode assistant:
    the duration parser and formatter, the session life cycle and the
    batch summary of [lib/focus], the urgency classifier with its keyword
    fallback, the signature check and the handlers of the [/focus]
    command.

    Conventions of the embedding.
    - A JavaScript string is the [string] of the bytes of its UTF-8
      form.  White space is the white space of the language, each
      character as its bytes.  [toLowerCase] folds the letters A to Z,
      which is all that the words the program compares with can come
      from.  [length] and [substring] count bytes, as they do on ASCII
      text; the statement about the text of a summary says which texts it
      covers.
    - JavaScript numbers that hold counts and millisecond amounts are
      integers in [Z].  Where the program parses or multiplies, the
      result is rounded to the nearest double ([to_double]); division,
      remainder and printing are modelled below 2^53, where they are
      exact, and the statements about them carry that bound.
    - Time stamps (ISO strings in the program) are [Z] milliseconds.
    - Calls that leave the process (the data store, the clock, the
      classification oracle, the direct-message API) are answered by an
      environment that the definitions take as an argument; a store call
      that fails changes nothing and hands back no data.
    - Writes to the console are not modelled. *)

From Stdlib Require Import ZArith Lia Bool List Arith.
From Stdlib Require Import Strings.String Strings.Ascii.
From Stdlib Require Import Numbers.DecimalString Numbers.DecimalZ.
From Stdlib Require Import Sorting.Sorted Sorting.Permutation.
Import ListNotations.

Set Warnings "-register-all".

Open Scope string_scope.
Open Scope Z_scope.

(** ** JavaScript strings *)

Module Js.

Definition is_digit (c : ascii) : bool :=
  let n := nat_of_ascii c in (48 <=? n)%nat && (n <=? 57)%nat.

Definition is_upper (c : ascii) : bool :=
  let n := nat_of_ascii c in (65 <=? n)%nat && (n <=? 90)%nat.

Definition lower_char (c : ascii) : ascii :=
  if is_upper c then ascii_of_nat (nat_of_ascii c + 32) else c.

(** [String.prototype.toLowerCase] *)
Fixpoint toLowerCase (s : string) : string :=
  match s with
  | EmptyString => EmptyString
  | String c r => String (lower_char c) (toLowerCase r)
  end.

(** Does [s] begin with [p]? *)
Fixpoint starts_with (p s : string) : bool :=
  match p, s with
  | EmptyString, _ => true
  | String a p', String b s' => Ascii.eqb a b && starts_with p' s'
  | String _ _, EmptyString => false
  end.

(** [String.prototype.includes]: [k] occurs in [s] at some position. *)
Fixpoint includes (s k : string) : bool :=
  starts_with k s ||
  match s with
  | EmptyString => false
  | String _ r => includes r k
  end.

(** [s.substring(0, n)], on ASCII text, where a byte is a character. *)
Fixpoint take (n : nat) (s : string) : string :=
  match n, s with
  | O, _ => EmptyString
  | _, EmptyString => EmptyString
  | S n', String c r => String c (take n' r)
  end.

(** [Array.prototype.join] *)
Fixpoint join (sep : string) (l : list string) : string :=
  match l with
  | [] => EmptyString
  | [x] => x
  | x :: r => x ++ sep ++ join sep r
  end.

Definition digit_val (c : ascii) : Z := Z.of_nat (nat_of_ascii c) - 48.

Fixpoint parseInt_from (acc : Z) (s : string) : Z :=
  match s with
  | EmptyString => acc
  | String c r => parseInt_from (acc * 10 + digit_val c) r
  end.

(** The integer a string of decimal digits denotes. *)
Definition decimal (s : string) : Z := parseInt_from 0 s.

(** Infinity, as the program meets it: a number above every finite
    double, which it only multiplies by positive constants, adds to and
    compares. *)
Definition infinity : Z := 2 ^ 1024.

(** The double nearest to an integer, ties to the even mantissa: the
    integers below 2^53 are doubles; above, the 53 leading bits are kept
    and the rest is rounded; from 2^1024 on the result is Infinity. *)
Definition to_double (z : Z) : Z :=
  let a := Z.abs z in
  if a <? 2 ^ 53 then z
  else
    let e := Z.log2 a - 52 in
    let q := a / 2 ^ e in
    let r := a mod 2 ^ e in
    let half := 2 ^ (e - 1) in
    let q' := if (half <? r) || ((r =? half) && Z.odd q) then q + 1 else q in
    let v := q' * 2 ^ e in
    Z.sgn z * (if infinity <=? v then infinity else v).

(** [a * b] and [a + b] on doubles that hold integers. *)
Definition mul (a b : Z) : Z := to_double (a * b).

Definition add (a b : Z) : Z := to_double (a + b).

(** [parseInt(s, 10)] on a string of decimal digits: the double nearest
    to the integer it denotes. *)
Definition parseInt (s : string) : Z := to_double (decimal s).

(** Every character is an ASCII character. *)
Definition ascii_only (s : string) : bool :=
  forallb (fun c => (nat_of_ascii c <? 128)%nat) (list_ascii_of_string s).

(** The decimal rendering that a template literal gives an integer
    below 10^21 in size, as every count and every amount below 2^53
    is. *)
Definition show (z : Z) : string := NilEmpty.string_of_int (Z.to_int z).

Definition nonempty (s : string) : bool :=
  match s with EmptyString => false | String _ _ => true end.

Definition all_digits (s : string) : bool :=
  forallb is_digit (list_ascii_of_string s).

(** The string with its spaces taken out. *)
Fixpoint without_spaces (s : string) : string :=
  match s with
  | EmptyString => EmptyString
  | String c r =>
      if Ascii.eqb c " " then without_spaces r
      else String c (without_spaces r)
  end.

(** The line feed, written [\n] in the program. *)
Definition nl : string := String (ascii_of_nat 10) EmptyString.

(** The double quote character. *)
Definition dq : string := String (ascii_of_nat 34) EmptyString.

End Js.

(** ** Durations *)

Module Duration.
Import Js.

(** The longest prefix of digits and what follows it: the greedy [\d+]. *)
Fixpoint span_digits (s : string) : string * string :=
  match s with
  | EmptyString => (EmptyString, EmptyString)
  | String c r =>
      if is_digit c
      then let (d, rest) := span_digits r in (String c d, rest)
      else (EmptyString, s)
  end.

(** One optional group [(?:(\d+)u)?] tried at the head of [s]: the captured
    digits (or nothing, when the group is skipped) and the rest. *)
Definition opt_group (u : ascii) (s : string) : option string * string :=
  match span_digits s with
  | (String c d, String v rest) =>
      if Ascii.eqb v u then (Some (String c d), rest) else (None, s)
  | _ => (None, s)
  end.

(** [s.match(/^(?:(\d+)h)?(?:(\d+)m)?$/)]: the two captures, or no match. *)
Definition match_duration (s : string) : option (option string * option string) :=
  let (g1, r1) := opt_group "h" s in
  let (g2, r2) := opt_group "m" r1 in
  match r2 with
  | EmptyString => Some (g1, g2)
  | String _ _ => None
  end.

(** Truthiness of a capture: undefined and the empty string are falsy. *)
Definition truthy (g : option string) : bool :=
  match g with
  | Some s => nonempty s
  | None => false
  end.

(** [g || d] *)
Definition or_default (g : option string) (d : string) : string :=
  match g with
  | Some s => if nonempty s then s else d
  | None => d
  end.

Definition parseDuration (duration : string) : option Z :=
  match match_duration (toLowerCase duration) with
  | None => None
  | Some (g1, g2) =>
      if negb (truthy g1) && negb (truthy g2) then None
      else
        let hours := parseInt (or_default g1 "0") in
        let minutes := parseInt (or_default g2 "0") in
        Some (mul (mul (add (mul hours 60) minutes) 60) 1000)
  end.

(** [Math.floor] of a quotient of integers below 2^53 in size is the
    quotient rounded down. *)
Definition formatDuration (ms : Z) : string :=
  let minutes := ms / 60000 in
  let hours := minutes / 60 in
  let remainingMinutes := Z.rem minutes 60 in
  if (hours >? 0) && (remainingMinutes >? 0)
  then show hours ++ "h " ++ show remainingMinutes ++ "m"
  else if hours >? 0 then show hours ++ "h"
  else show minutes ++ "m".

(** *** The shape of a duration, in the words of the specification *)

(** An integer: one or more decimal digits. *)
Definition is_integer (s : string) : bool := nonempty s && all_digits s.

(** An optional part: an integer followed at once by its unit letter. *)
Definition part (g : option string) (u : string) : string :=
  match g with
  | Some d => d ++ u
  | None => EmptyString
  end.

Definition part_ok (g : option string) : Prop :=
  match g with
  | Some d => is_integer d = true
  | None => True
  end.

Definition value (g : option string) : Z :=
  match g with
  | Some d => decimal d
  | None => 0
  end.

(** What the program computes from the hours and the minutes: every
    step on doubles. *)
Definition computed (hours minutes : Z) : Z :=
  mul (mul (add (mul (to_double hours) 60) (to_double minutes)) 60) 1000.

(** [s] is an hour part followed by a minute part, either one optional,
    letters in either case, and nothing else. *)
Definition shaped (s : string) (h m : option string) : Prop :=
  part_ok h /\ part_ok m /\ toLowerCase s = part h "h" ++ part m "m".

(** A well-formed duration: shaped, with at least one part present. *)
Definition well_formed (s : string) : Prop :=
  exists h m, shaped s h m /\ (h <> None \/ m <> None).

(** The normal rendering of a number of whole minutes: hours and minutes
    when both are nonzero, hours alone when only they are, minutes
    otherwise. *)
Definition normalized (total : Z) : string :=
  let h := total / 60 in
  let m := total mod 60 in
  if negb (h =? 0) && negb (m =? 0) then show h ++ "h " ++ show m ++ "m"
  else if negb (h =? 0) then show h ++ "h"
  else show m ++ "m".

End Duration.


(** ** JavaScript values, completions and string replacement *)

Module Value.
Import Js.

(** The values that [JSON.parse] can give, with the properties an array
    may be given afterwards, and [undefined]. *)
Inductive jsval : Type :=
| VUndefined
| VNull
| VBool (b : bool)
| VNum (z : Z)
| VStr (s : string)
| VArr (elems : list jsval) (props : list (string * jsval))
| VObj (props : list (string * jsval)).

Inductive error : Type :=
| TypeError (what : string)
| SyntaxError (what : string)
| Error (message : string)
| Rejected (reason : string).

(** How a statement ends: with a value, or with a thrown error. *)
Inductive completion (A : Type) : Type :=
| Normal (a : A)
| Throw (e : error).
Arguments Normal {A} a.
Arguments Throw {A} e.

Definition bind {A B} (c : completion A) (k : A -> completion B) : completion B :=
  match c with
  | Normal a => k a
  | Throw e => Throw e
  end.

(** [try { body } catch { handler }] *)
Definition try_catch {A} (body : completion A) (handler : error -> completion A)
  : completion A :=
  match body with
  | Normal a => Normal a
  | Throw e => handler e
  end.

Fixpoint lookup (k : string) (l : list (string * jsval)) : option jsval :=
  match l with
  | [] => None
  | (k', v) :: r => if String.eqb k k' then Some v else lookup k r
  end.

(** Assignment to a data property: an existing key keeps its place, a new
    key goes last. *)
Fixpoint assign (k : string) (v : jsval) (l : list (string * jsval))
  : list (string * jsval) :=
  match l with
  | [] => [(k, v)]
  | (k', v') :: r =>
      if String.eqb k k' then (k, v) :: r else (k', v') :: assign k v r
  end.

(** A canonical array index: decimal digits without a leading zero. *)
Definition is_index (k : string) : bool :=
  match k with
  | EmptyString => false
  | String c r =>
      all_digits k && (negb (Ascii.eqb c "0") || negb (nonempty r))
      && (parseInt k <=? 4294967294)
  end.

Definition opt_val (o : option jsval) : jsval :=
  match o with
  | Some v => v
  | None => VUndefined
  end.

(** [v.k] for a key that the prototypes do not define. *)
Definition get (v : jsval) (k : string) : completion jsval :=
  match v with
  | VUndefined => Throw (TypeError "Cannot read properties of undefined")
  | VNull => Throw (TypeError "Cannot read properties of null")
  | VBool _ | VNum _ => Normal VUndefined
  | VStr s =>
      if String.eqb k "length" then Normal (VNum (Z.of_nat (String.length s)))
      else if is_index k then
        match String.get (Z.to_nat (parseInt k)) s with
        | Some c => Normal (VStr (String c EmptyString))
        | None => Normal VUndefined
        end
      else Normal VUndefined
  | VArr elems props =>
      if String.eqb k "length" then Normal (VNum (Z.of_nat (List.length elems)))
      else if is_index k then Normal (nth (Z.to_nat (parseInt k)) elems VUndefined)
      else Normal (opt_val (lookup k props))
  | VObj props => Normal (opt_val (lookup k props))
  end.

(** [v.k = x] in strict code (every module is strict), for a key that is
    neither an index nor [length]. *)
Definition set (v : jsval) (k : string) (x : jsval) : completion jsval :=
  match v with
  | VUndefined => Throw (TypeError "Cannot set properties of undefined")
  | VNull => Throw (TypeError "Cannot set properties of null")
  | VBool _ | VNum _ | VStr _ => Throw (TypeError "Cannot create property")
  | VArr elems props => Normal (VArr elems (assign k x props))
  | VObj props => Normal (VObj (assign k x props))
  end.

(** [v === 'lit'] *)
Definition is_string (v : jsval) (lit : string) : bool :=
  match v with
  | VStr s => String.eqb s lit
  | _ => false
  end.

(** Where [pat] first occurs in [s]: what precedes it and what follows. *)
Fixpoint drop (n : nat) (s : string) : string :=
  match n, s with
  | O, _ => s
  | S _, EmptyString => EmptyString
  | S n', String _ r => drop n' r
  end.

Fixpoint find (pat s : string) : option (string * string) :=
  if starts_with pat s then Some (EmptyString, drop (String.length pat) s)
  else
    match s with
    | EmptyString => None
    | String c r =>
        match find pat r with
        | Some (pre, post) => Some (String c pre, post)
        | None => None
        end
    end.

(** The replacement text with its dollar patterns filled in; a string
    pattern has no captures, so the numbered patterns stay as written. *)
Fixpoint expand (rep matched pre post : string) : string :=
  match rep with
  | EmptyString => EmptyString
  | String a tl =>
      if Ascii.eqb a "$" then
        match tl with
        | String c r =>
            if Ascii.eqb c "$" then String "$" (expand r matched pre post)
            else if Ascii.eqb c "&" then matched ++ expand r matched pre post
            else if Ascii.eqb c "`" then pre ++ expand r matched pre post
            else if Ascii.eqb c "'" then post ++ expand r matched pre post
            else String a (expand tl matched pre post)
        | EmptyString => String a EmptyString
        end
      else String a (expand tl matched pre post)
  end.

(** [s.replace(pat, rep)] with a string pattern: the first occurrence only. *)
Definition replace (s pat rep : string) : string :=
  match find pat s with
  | Some (pre, post) => pre ++ expand rep pat pre post ++ post
  | None => s
  end.

End Value.

(** ** The urgency classifier *)

Module Classifier.
Import Js Value.

Record ContentBlock := { type : string; text : string }.

Record Request := { model : string; max_tokens : Z; content : string }.

(** What the process finds outside itself: the configured key, the
    oracle's answer to a request (the blocks of its response, or a
    rejection), and [JSON.parse]. *)
Record Env := {
  ANTHROPIC_API_KEY : option string;
  messages_create : Request -> completion (list ContentBlock);
  JSON_parse : string -> completion jsval
}.

Definition prompt_lines : list string :=
  [ "You are an AI assistant helping to classify the urgency of Slack messages for a knowledge worker in focus mode.";
    EmptyString;
    "Classify the following message into one of these urgency levels:";
    "- URGENT: Requires immediate attention. Examples: production outages, security incidents, time-sensitive deadlines within the hour, direct emergencies";
    "- HIGH: Important but can wait 30-60 minutes. Examples: blocking issues for teammates, important client requests, meeting reminders";
    "- MEDIUM: Should be addressed within 2-4 hours. Examples: code review requests, non-blocking questions, project updates";
    "- LOW: Can wait until focus session ends. Examples: general announcements, social messages, non-urgent FYIs, newsletters";
    EmptyString;
    "Consider these factors:";
    "1. Keywords suggesting urgency (urgent, ASAP, emergency, down, broken, deadline)";
    "2. The sender's apparent intent";
    "3. Whether it seems to require immediate action vs. information sharing";
    "4. Time-sensitive language";
    EmptyString;
    "Message context:";
    "- Channel: {channel_name}";
    "- Sender: {sender_name}";
    "- Message: {message_text}";
    EmptyString;
    "Respond in this exact JSON format:";
    "{";
    "  " ++ dq ++ "urgency" ++ dq ++ ": " ++ dq ++ "low" ++ dq ++ " | " ++ dq ++ "medium" ++ dq ++ " | " ++ dq ++ "high" ++ dq ++ " | " ++ dq ++ "urgent" ++ dq ++ ",";
    "    " ++ dq ++ "reason" ++ dq ++ ": " ++ dq ++ "Brief explanation of why this urgency level" ++ dq ++ ",";
    "      " ++ dq ++ "shouldInterrupt" ++ dq ++ ": true | false";
    "      }";
    EmptyString;
    "      Only shouldInterrupt should be true for URGENT messages. Respond with only the JSON, no other text." ].

Definition CLASSIFICATION_PROMPT : string := join nl prompt_lines.

Definition urgentKeywords : list string :=
  ["urgent"; "emergency"; "asap"; "down"; "outage"; "critical";
   "immediately"; "911"; "help now"].

(** A [ClassificationResult] written as an object literal. *)
Definition result (urgency reason : string) (shouldInterrupt : bool) : jsval :=
  VObj [("urgency", VStr urgency); ("reason", VStr reason);
        ("shouldInterrupt", VBool shouldInterrupt)].

(** [!process.env.ANTHROPIC_API_KEY] *)
Definition no_key (env : Env) : bool :=
  match ANTHROPIC_API_KEY env with
  | Some k => negb (nonempty k)
  | None => true
  end.

Definition hasUrgentKeyword (messageText : string) : bool :=
  let lowerMessage := toLowerCase messageText in
  existsb (fun keyword => includes lowerMessage keyword) urgentKeywords.

(** The template with the three fields filled in. *)
Definition request (messageText channelName senderName : string) : Request :=
  let prompt :=
    replace (replace (replace CLASSIFICATION_PROMPT
      "{channel_name}" channelName)
      "{sender_name}" senderName)
      "{message_text}" messageText in
  {| model := "claude-3-5-haiku-20241022"; max_tokens := 256;
     content := prompt |}.

(** The body of the [try] block. *)
Definition ask_oracle (env : Env) (messageText channelName senderName : string)
  : completion jsval :=
  bind (messages_create env (request messageText channelName senderName))
    (fun response =>
  match response with
  | [] => Throw (TypeError "Cannot read properties of undefined")
  | content :: _ =>
      if negb (String.eqb (type content) "text")
      then Throw (Error "Unexpected response type")
      else
        bind (JSON_parse env (text content)) (fun result =>
        bind (get result "urgency") (fun urgency =>
        bind (set result "shouldInterrupt" (VBool (is_string urgency "urgent")))
          (fun result' => Normal result')))
  end).

Definition classifyMessage (env : Env) (messageText channelName senderName : string)
  : completion jsval :=
  if no_key env then
    if hasUrgentKeyword messageText
    then Normal (result "urgent" "Contains urgent keywords" true)
    else Normal (result "low" "Default classification (no AI key configured)" false)
  else
    try_catch (ask_oracle env messageText channelName senderName) (fun error =>
      if hasUrgentKeyword messageText
      then Normal (result "urgent" "Contains urgent keywords (AI classification failed)" true)
      else Normal (result "medium" "Default classification (AI classification failed)" false)).

(** *** The words of the specification *)

(** The lowercased text contains one of the fixed keywords. *)
Definition contains_keyword (messageText : string) : Prop :=
  exists keyword pre post,
    In keyword urgentKeywords /\
    toLowerCase messageText = pre ++ keyword ++ post.

(** The oracle call fails: it throws, its first block is not text, or the
    text is not JSON. *)
Definition oracle_call_fails (env : Env)
    (messageText channelName senderName : string) : Prop :=
  let answer := messages_create env (request messageText channelName senderName) in
  (exists e, answer = Throw e)
  \/ (exists b rest, answer = Normal (b :: rest) /\ type b <> "text")
  \/ (exists b rest e, answer = Normal (b :: rest) /\ type b = "text" /\
        JSON_parse env (text b) = Throw e).

End Classifier.

(** ** The store, the clock and the session life cycle *)

Module Focus.
Import Js Value Duration.

Record FocusSession := {
  id : string;
  user_id : string;
  started_at : Z;
  ends_at : Z;
  is_active : bool;
  created_at : Z
}.

Record HeldItem := {
  item_id : string;
  session_id : string;
  channel_id : string;
  channel_name : string;
  sender_id : string;
  sender_name : string;
  message_text : string;
  message_ts : string;
  urgency : string;
  classification_reason : string;
  received_at : Z
}.

(** A call that leaves the process. *)
Inductive call : Type :=
| Now
| SelectActive (userId : string) (now : Z)
| UpdateInactive (sessionId : string)
| SelectHeld (sessionId : string)
| InsertSession (userId : string) (startedAt endsAt : Z)
| InsertHeld (sessionId messageTs : string)
| SendDM (userId text : string).

(** The two tables, the direct messages delivered, and the calls made so
    far, oldest first. *)
Record World := {
  focus_sessions : list FocusSession;
  held_items : list HeldItem;
  delivered : list (string * string);
  trace : list call
}.

(** The answers from outside, by the position of the call in the trace:
    what the clock shows, whether the call fails, and what the database
    fills in for the columns an insert leaves out. *)
Record Env := {
  clock : nat -> Z;
  fails : nat -> bool;
  fresh_id : nat -> string;
  db_now : nat -> Z;
  toLocaleTimeString : Z -> string
}.

Definition M (A : Type) : Type := World -> completion A * World.

Definition ret {A} (a : A) : M A := fun w => (Normal a, w).

Definition throw {A} (e : error) : M A := fun w => (Throw e, w).

Definition mbind {A B} (c : M A) (k : A -> M B) : M B :=
  fun w =>
    match c w with
    | (Normal a, w') => k a w'
    | (Throw e, w') => (Throw e, w')
    end.

Notation "x <- c ;; k" := (mbind c (fun x => k))
  (at level 61, c at next level, right associativity).

Definition world : M World := fun w => (Normal w, w).

(** Make a call: it joins the trace, and its position is returned. *)
Definition perform (c : call) : M nat :=
  fun w =>
    (Normal (List.length (trace w)),
     {| focus_sessions := focus_sessions w; held_items := held_items w;
        delivered := delivered w; trace := trace w ++ [c] |}).

Definition set_sessions (l : list FocusSession) : M unit :=
  fun w =>
    (Normal tt,
     {| focus_sessions := l; held_items := held_items w;
        delivered := delivered w; trace := trace w |}).

Definition set_held (l : list HeldItem) : M unit :=
  fun w =>
    (Normal tt,
     {| focus_sessions := focus_sessions w; held_items := l;
        delivered := delivered w; trace := trace w |}).

Definition set_delivered (l : list (string * string)) : M unit :=
  fun w =>
    (Normal tt,
     {| focus_sessions := focus_sessions w; held_items := held_items w;
        delivered := l; trace := trace w |}).

(** [order('started_at', descending).limit(1)]: the row started last, the
    earlier row of the table among equals. *)
Fixpoint latest (l : list FocusSession) : option FocusSession :=
  match l with
  | [] => None
  | s :: r =>
      match latest r with
      | Some t => if started_at s <? started_at t then Some t else Some s
      | None => Some s
      end
  end.

(** The rows the query for the active session selects. *)
Definition active_for (userId : string) (now : Z) (s : FocusSession) : bool :=
  String.eqb (user_id s) userId && is_active s && (ends_at s >? now).

Definition visible (userId : string) (now : Z) (l : list FocusSession)
  : option FocusSession :=
  latest (filter (active_for userId now) l).

(** [update({ is_active: false }).eq('id', sessionId)] *)
Definition deactivate (sessionId : string) (l : list FocusSession)
  : list FocusSession :=
  map (fun s =>
         if String.eqb (id s) sessionId
         then {| id := id s; user_id := user_id s; started_at := started_at s;
                 ends_at := ends_at s; is_active := false;
                 created_at := created_at s |}
         else s) l.

(** [order('received_at', ascending)], rows of equal time in table order. *)
Fixpoint insert_by_time (x : HeldItem) (l : list HeldItem) : list HeldItem :=
  match l with
  | [] => [x]
  | y :: r =>
      if received_at y <? received_at x
      then y :: insert_by_time x r
      else x :: l
  end.

Fixpoint by_received (l : list HeldItem) : list HeldItem :=
  match l with
  | [] => []
  | x :: r => insert_by_time x (by_received r)
  end.

Definition held_of (sessionId : string) (l : list HeldItem) : list HeldItem :=
  by_received (filter (fun h => String.eqb (session_id h) sessionId) l).

(** The time stamps a [Date] holds: those at most 8.64e15 ms from the
    epoch.  Of another, [toISOString] throws a RangeError. *)
Definition valid_date (t : Z) : bool := Z.abs t <=? 8640000000000000.

Section WithEnv.

Variable env : Env.

(** [new Date()] and [Date.now()] *)
Definition Date_now : M Z :=
  k <- perform Now ;;
  ret (clock env k).

Definition getActiveFocusSession (userId : string) : M (option FocusSession) :=
  now <- Date_now ;;
  k <- perform (SelectActive userId now) ;;
  w <- world ;;
  if fails env k then ret None
  else ret (visible userId now (focus_sessions w)).

Definition endFocusSession (userId : string) : M (list HeldItem) :=
  session <- getActiveFocusSession userId ;;
  match session with
  | None => ret []
  | Some session =>
      k <- perform (UpdateInactive (id session)) ;;
      w <- world ;;
      _ <- (if fails env k then ret tt
            else set_sessions (deactivate (id session) (focus_sessions w))) ;;
      k' <- perform (SelectHeld (id session)) ;;
      w' <- world ;;
      if fails env k' then ret []
      else ret (held_of (id session) (held_items w'))
  end.

(** [startFocusSession] for an end time that is a [valid_date], as it
    is for every duration that [handleFocusOn] lets through; of another
    end time [toISOString] throws, once the session before has been
    ended and before the insert, and the statements about
    [startFocusSession] leave that case out. *)
Definition startFocusSession (userId : string) (durationMs : Z)
  : M (option FocusSession) :=
  now <- Date_now ;;
  let endsAt := now + durationMs in
  _ <- endFocusSession userId ;;
  k <- perform (InsertSession userId now endsAt) ;;
  if fails env k then ret None
  else
    let data :=
      {| id := fresh_id env k; user_id := userId; started_at := now;
         ends_at := endsAt; is_active := true; created_at := db_now env k |} in
    w <- world ;;
    _ <- set_sessions (focus_sessions w ++ [data]) ;;
    ret (Some data).

Definition holdMessage (sessionId channelId channelName senderId senderName
                        messageText messageTs urgency reason : string) : M unit :=
  k <- perform (InsertHeld sessionId messageTs) ;;
  if fails env k then ret tt
  else
    w <- world ;;
    set_held (held_items w ++
      [{| item_id := fresh_id env k; session_id := sessionId;
          channel_id := channelId; channel_name := channelName;
          sender_id := senderId; sender_name := senderName;
          message_text := messageText; message_ts := messageTs;
          urgency := urgency; classification_reason := reason;
          received_at := db_now env k |}]).

(** [sendDM]: the message is delivered, or the call rejects. *)
Definition sendDM (userId text : string) : M unit :=
  k <- perform (SendDM userId text) ;;
  if fails env k then throw (Rejected "Error sending DM")
  else
    w <- world ;;
    set_delivered (delivered w ++ [(userId, text)]).

(** *** The batch summary *)

Definition getUrgencyEmoji (urgency : string) : string :=
  if String.eqb urgency "urgent" then "🔴"
  else if String.eqb urgency "high" then "🟠"
  else if String.eqb urgency "medium" then "🟡"
  else "🟢".

(** The names every plain object inherits from [Object.prototype]; each
    of them reads as a function or an object, never as an array. *)
Definition object_prototype_keys : list string :=
  ["constructor"; "__defineGetter__"; "__defineSetter__"; "hasOwnProperty";
   "__lookupGetter__"; "__lookupSetter__"; "isPrototypeOf";
   "propertyIsEnumerable"; "toString"; "valueOf"; "__proto__";
   "toLocaleString"].

(** [byChannel]: the own properties of the object, in the order they were
    created. *)
Definition groups : Type := list (string * list HeldItem).

(** What [byChannel[key]] reads. *)
Inductive slot : Type :=
| Own (items : list HeldItem)
| Inherited
| Absent.

Fixpoint own (key : string) (o : groups) : option (list HeldItem) :=
  match o with
  | [] => None
  | (k, v) :: r => if String.eqb key k then Some v else own key r
  end.

Definition read (o : groups) (key : string) : slot :=
  match own key o with
  | Some items => Own items
  | None =>
      if existsb (String.eqb key) object_prototype_keys then Inherited
      else Absent
  end.

Fixpoint write (key : string) (v : list HeldItem) (o : groups) : groups :=
  match o with
  | [] => [(key, v)]
  | (k, v') :: r =>
      if String.eqb key k then (k, v) :: r else (k, v') :: write key v r
  end.

(** [item.channel_name || item.channel_id] *)
Definition channel_key (item : HeldItem) : string :=
  if nonempty (channel_name item) then channel_name item
  else channel_id item.

(** One turn of the grouping loop. *)
Definition group_step (byChannel : groups) (item : HeldItem)
  : completion groups :=
  let key := channel_key item in
  let byChannel :=
    match read byChannel key with
    | Absent => write key [] byChannel
    | _ => byChannel
    end in
  match read byChannel key with
  | Own items => Normal (write key (items ++ [item]) byChannel)
  | Inherited => Throw (TypeError "byChannel[key].push is not a function")
  | Absent => Throw (TypeError "Cannot read properties of undefined")
  end.

Fixpoint group_loop (byChannel : groups) (heldItems : list HeldItem)
  : completion groups :=
  match heldItems with
  | [] => Normal byChannel
  | item :: rest =>
      match group_step byChannel item with
      | Normal byChannel' => group_loop byChannel' rest
      | Throw e => Throw e
      end
  end.

Fixpoint insert_index (e : string * list HeldItem) (l : groups) : groups :=
  match l with
  | [] => [e]
  | y :: r =>
      if parseInt (fst y) <? parseInt (fst e)
      then y :: insert_index e r
      else e :: l
  end.

(** [Object.entries]: the index-like keys by value, then the other keys
    in the order they were created. *)
Definition entries (o : groups) : groups :=
  (fold_right insert_index [] (filter (fun e => is_index (fst e)) o)
   ++ filter (fun e => negb (is_index (fst e))) o)%list.

(** The line of an item.  [length] and [substring] count UTF-16 units;
    on ASCII text, and on any text of at most 80 bytes, the bytes counted
    here give the same preview. *)
Definition item_line (item : HeldItem) : string :=
  let preview :=
    if (80 <? String.length (message_text item))%nat
    then take 80 (message_text item) ++ "..."
    else message_text item in
  "  " ++ getUrgencyEmoji (urgency item) ++ " *" ++ sender_name item
  ++ "*: " ++ preview.

Definition len {A} (l : list A) : Z := Z.of_nat (List.length l).

Definition more_line (items : list HeldItem) : list string :=
  if len items >? 5
  then ["  _...and " ++ show (len items - 5) ++ " more_"]
  else [].

Definition channel_lines (e : string * list HeldItem) : list string :=
  let (channel, items) := e in
  ("*#" ++ channel ++ "* (" ++ show (len items) ++ "):")
  :: (map item_line (firstn 5 items) ++ more_line items ++ [EmptyString])%list.

Definition no_messages_text : string :=
  "🎉 *Focus session complete!*" ++ nl ++ nl
  ++ "No messages were held during your session.".

Definition header_lines (heldItems : list HeldItem) : list string :=
  ["🎉 *Focus session complete!*"; EmptyString;
   "📬 *" ++ show (len heldItems) ++ " message"
   ++ (if len heldItems =? 1 then EmptyString else "s") ++ " held:*";
   EmptyString].

Definition summary_lines (heldItems : list HeldItem) (byChannel : groups)
  : list string :=
  (header_lines heldItems ++ flat_map channel_lines (entries byChannel))%list.

Definition sendBatchSummary (userId : string) (heldItems : list HeldItem)
  : M unit :=
  match heldItems with
  | [] => sendDM userId no_messages_text
  | _ :: _ =>
      match group_loop [] heldItems with
      | Throw e => throw e
      | Normal byChannel =>
          sendDM userId (join nl (summary_lines heldItems byChannel))
      end
  end.

End WithEnv.

End Focus.

(** ** The [/focus on] and [/focus off] commands *)

Module Command.
Import Js Value Duration Focus.

Record Response := { response_type : string; text : string }.

Definition ephemeral (text : string) : M Response :=
  ret {| response_type := "ephemeral"; text := text |}.

Definition maxDuration : Z := 8 * 60 * 60 * 1000.

(** [!durationMs]: no match, or a duration of zero. *)
Definition falsy (durationMs : option Z) : bool :=
  match durationMs with
  | Some n => n =? 0
  | None => true
  end.

Definition already_active_text (remaining : Z) : string :=
  "⚠️ You already have an active focus session with "
  ++ formatDuration remaining ++ " remaining." ++ nl ++ nl
  ++ "Use `/focus off` to end it early, or `/focus status` to check details.".

Definition invalid_format_text (durationStr : string) : string :=
  "❌ Invalid duration format: " ++ dq ++ durationStr ++ dq ++ nl ++ nl
  ++ "Use formats like: `2h`, `30m`, `1h30m`".

Definition too_long_text : string :=
  "⚠️ Maximum focus duration is 8 hours. Try `/focus on 8h` instead.".

Definition start_failed_text : string :=
  "❌ Failed to start focus session. Please try again.".

Definition activated_text (durationMs : Z) (endTimeStr : string) : string :=
  "🎯 *Focus mode activated!*" ++ nl ++ nl
  ++ "⏱️ Duration: " ++ formatDuration durationMs ++ nl
  ++ "🔔 Ends at: " ++ endTimeStr ++ nl ++ nl
  ++ "_Non-urgent messages will be held and delivered as a summary when your session ends. Urgent messages will still reach you immediately._"
  ++ nl ++ nl
  ++ "Use `/focus off` to end early or `/focus status` to check time remaining.".

Section WithEnv.

Variable env : Env.

Definition handleFocusOn (userId userName : string) (duration : option string)
  : M Response :=
  existingSession <- getActiveFocusSession env userId ;;
  match existingSession with
  | Some existingSession =>
      now <- Date_now env ;;
      let remaining := ends_at existingSession - now in
      ephemeral (already_active_text remaining)
  | None =>
      let durationStr := or_default duration "2h" in
      let durationMs := parseDuration durationStr in
      if falsy durationMs then ephemeral (invalid_format_text durationStr)
      else
        let durationMs := match durationMs with Some n => n | None => 0 end in
        if durationMs >? maxDuration then ephemeral too_long_text
        else
          session <- startFocusSession env userId durationMs ;;
          match session with
          | None => ephemeral start_failed_text
          | Some session =>
              let endTimeStr := toLocaleTimeString env (ends_at session) in
              ephemeral (activated_text durationMs endTimeStr)
          end
  end.

(** What the query for the active session answers in [w]: nothing when
    the call fails. *)
Definition found (userId : string) (w : World) : option FocusSession :=
  let n := List.length (trace w) in
  if fails env (S n) then None
  else visible userId (clock env n) (focus_sessions w).

(** The world once that query has been made. *)
Definition queried (userId : string) (w : World) : World :=
  Build_World (focus_sessions w) (held_items w) (delivered w)
    (trace w ++ [Now; SelectActive userId (clock env (List.length (trace w)))]).

End WithEnv.

End Command.

(** ** The rest of the command surface *)

Module Surface.
Import Js Value Duration Focus Command.

(** The string of the given bytes. *)
Definition utf8 (bytes : list nat) : string :=
  string_of_list_ascii (map ascii_of_nat bytes).

(** White space as [trim], [parseInt] and the class [\s] see it: the
    tab, the line feed, the vertical tab, the form feed, the carriage
    return and the space, then U+00A0, U+1680, U+2000 to U+200A, U+2028,
    U+2029, U+202F, U+205F, U+3000 and U+FEFF, each as the bytes of its
    UTF-8 form. *)
Definition white_space : list string :=
  map utf8
    ([[9]; [10]; [11]; [12]; [13]; [32];
     [194; 160];
     [225; 154; 128];
     [226; 128; 128]; [226; 128; 129]; [226; 128; 130]; [226; 128; 131];
     [226; 128; 132]; [226; 128; 133]; [226; 128; 134]; [226; 128; 135];
     [226; 128; 136]; [226; 128; 137]; [226; 128; 138];
     [226; 128; 168]; [226; 128; 169]; [226; 128; 175];
     [226; 129; 159];
     [227; 128; 128];
     [239; 187; 191]])%nat.

(** The rest of [s] behind [p], when [s] begins with [p]. *)
Fixpoint after (p s : string) : option string :=
  match p, s with
  | EmptyString, _ => Some s
  | String a p', String b s' => if Ascii.eqb a b then after p' s' else None
  | String _ _, EmptyString => None
  end.

(** The rest of [s] behind the white-space character at its head, when
    there is one. *)
Definition after_space (s : string) : option string :=
  fold_right
    (fun p found => match after p s with Some r => Some r | None => found end)
    None white_space.

(** [n] bounds the number of characters to pass. *)
Fixpoint trim_start_within (n : nat) (s : string) : string :=
  match n, after_space s with
  | S n', Some r => trim_start_within n' r
  | _, _ => s
  end.

Definition trim_start (s : string) : string :=
  trim_start_within (String.length s) s.

(** Nothing but white space. *)
Definition blank (s : string) : bool :=
  match trim_start s with
  | EmptyString => true
  | String _ _ => false
  end.

Fixpoint trim_end (s : string) : string :=
  match s with
  | EmptyString => EmptyString
  | String c r => if blank s then EmptyString else String c (trim_end r)
  end.

(** [String.prototype.trim] *)
Definition trim (s : string) : string := trim_end (trim_start s).

(** [s.split(/\s+/)], with [gap] set while a run of white space is being
    passed: every run ends one piece and starts the next, so the result
    has one piece more than the string has runs.  [n] bounds the number
    of steps, one for every character and one for the end. *)
Fixpoint pieces (n : nat) (s : string) (gap : bool) : list string :=
  match n with
  | O => [EmptyString]
  | S n' =>
      match after_space s with
      | Some r =>
          if gap then pieces n' r true else EmptyString :: pieces n' r true
      | None =>
          match s with
          | EmptyString => [EmptyString]
          | String c r =>
              match pieces n' r false with
              | t :: ts => String c t :: ts
              | [] => [String c EmptyString]
              end
          end
      end
  end.

Definition split_spaces (s : string) : list string :=
  pieces (S (String.length s)) s false.

(** The value of a digit in the radix, when it is one. *)
Definition digit_in (radix : Z) (c : ascii) : option Z :=
  let n := Z.of_nat (nat_of_ascii c) in
  let v :=
    if (48 <=? n) && (n <=? 57) then Some (n - 48)
    else if (97 <=? n) && (n <=? 122) then Some (n - 87)
    else if (65 <=? n) && (n <=? 90) then Some (n - 55)
    else None in
  match v with
  | Some d => if d <? radix then Some d else None
  | None => None
  end.

(** The number a longest prefix of digits denotes; nothing, when there is
    no digit. *)
Fixpoint digits_prefix (radix : Z) (acc : option Z) (s : string) : option Z :=
  match s with
  | EmptyString => acc
  | String c r =>
      match digit_in radix c with
      | Some d =>
          digits_prefix radix
            (Some (match acc with Some a => a | None => 0 end * radix + d)) r
      | None => acc
      end
  end.

(** [parseInt(s)] without a radix: leading white space, a sign, a
    hexadecimal prefix, then the digits up to the first character that is
    none; [None] stands for NaN. *)
Definition parseInt_noradix (s : string) : option Z :=
  let s := trim_start s in
  let (sign, s) :=
    match s with
    | String c r =>
        if Ascii.eqb c "-" then (-1, r)
        else if Ascii.eqb c "+" then (1, r)
        else (1, s)
    | EmptyString => (1, s)
    end in
  let (radix, s) :=
    match s with
    | String c (String x r) =>
        if Ascii.eqb c "0" && (Ascii.eqb x "x" || Ascii.eqb x "X")
        then (16, r) else (10, s)
    | _ => (10, s)
    end in
  match digits_prefix radix None s with
  | Some v => Some (to_double (sign * v))
  | None => None
  end.

(** What the platform supplies: the signing secret, the HMAC-SHA256 of a
    text under a key as hexadecimal digits, and the value of a field of a
    form-encoded body. *)
Record Platform := {
  slackSigningSecret : string;
  hmac_sha256_hex : string -> string -> string;
  form_get : string -> string -> option string
}.

Record Request := {
  body : string;
  x_slack_signature : option string;
  x_slack_request_timestamp : option string
}.

Inductive Payload : Type :=
| Failure (error : string)
| Reply (r : Response).

Record HttpResponse := { status : Z; payload : Payload }.

Definition no_session_off_text : string :=
  "ℹ️ You don't have an active focus session." ++ nl ++ nl
  ++ "Use `/focus on 2h` to start one.".

Definition ended_text (held : Z) : string :=
  "✅ *Focus session ended!*" ++ nl ++ nl
  ++ (if held >? 0
      then "📬 You have " ++ show held ++ " held message"
           ++ (if held =? 1 then EmptyString else "s")
           ++ ". Check your DMs for a summary!"
      else "🎉 No messages were held during your session.").

Definition no_session_status_text : string :=
  "ℹ️ No active focus session." ++ nl ++ nl
  ++ "Use `/focus on 2h` to start one.".

Definition status_text (remaining : Z) (endTimeStr : string) : string :=
  "🎯 *Focus mode active*" ++ nl ++ nl
  ++ "⏱️ Time remaining: " ++ formatDuration remaining ++ nl
  ++ "🔔 Ends at: " ++ endTimeStr ++ nl ++ nl
  ++ "Use `/focus off` to end early.".

Definition help_lines : list string :=
  [ "*🎯 Bodhi - Focus Mode Commands*";
    EmptyString;
    "          `/focus on [duration]` — Start focus mode (default: 2h)";
    "            Examples: `/focus on 2h`, `/focus on 30m`, `/focus on 1h30m`";
    EmptyString;
    "            `/focus off` — End focus mode and receive held messages";
    EmptyString;
    "            `/focus status` — Check time remaining";
    EmptyString;
    "            `/focus help` — Show this help message";
    EmptyString;
    "            _During focus mode, non-urgent messages are held and delivered as a summary when your session ends. Urgent messages will still reach you immediately._" ].

Definition help_text : string := join nl help_lines.

Definition went_wrong_text : string :=
  "❌ Something went wrong. Please try again.".

(** A promise that is started and not awaited, with a handler that logs
    its rejection: its calls are made, its outcome is dropped. *)
Definition detached {A} (c : M A) : M unit :=
  fun w => let (_, w') := c w in (Normal tt, w').

Section WithEnv.

Variable env : Env.
Variable platform : Platform.

Definition verifySlackRequest (signature timestamp body : string) : M bool :=
  now <- Date_now env ;;
  let currentTime := now / 1000 in
  let stale :=
    match parseInt_noradix timestamp with
    | Some t => Z.abs (currentTime - t) >? 300
    | None => false
    end in
  if stale then ret false
  else
    let sigBasestring := "v0:" ++ timestamp ++ ":" ++ body in
    let mySignature :=
      "v0=" ++ hmac_sha256_hex platform (slackSigningSecret platform)
                 sigBasestring in
    if negb (String.length mySignature =? String.length signature)%nat
    then throw (Error "Input buffers must have the same byte length")
    else ret (String.eqb mySignature signature).

Definition handleFocusOff (userId : string) : M Response :=
  session <- getActiveFocusSession env userId ;;
  match session with
  | None => ephemeral no_session_off_text
  | Some _ =>
      heldItems <- endFocusSession env userId ;;
      _ <- detached (sendBatchSummary env userId heldItems) ;;
      ephemeral (ended_text (len heldItems))
  end.

Definition handleFocusStatus (userId : string) : M Response :=
  session <- getActiveFocusSession env userId ;;
  match session with
  | None => ephemeral no_session_status_text
  | Some session =>
      now <- Date_now env ;;
      let remaining := ends_at session - now in
      let endTimeStr := toLocaleTimeString env (ends_at session) in
      ephemeral (status_text remaining endTimeStr)
  end.

Definition handleHelp : M Response := ephemeral help_text.

(** The [switch] on the subcommand. *)
Definition dispatch (text userId userName : string) : M Response :=
  match split_spaces text with
  | [] => throw (TypeError "Cannot read properties of undefined")
  | subcommand :: args =>
      let word := toLowerCase subcommand in
      if String.eqb word "on"
      then handleFocusOn env userId userName (hd_error args)
      else if String.eqb word "off" then handleFocusOff userId
      else if String.eqb word "status" then handleFocusStatus userId
      else if String.eqb word EmptyString || String.eqb word "help"
      then handleHelp
      else if negb (falsy (parseDuration subcommand))
      then handleFocusOn env userId userName (Some subcommand)
      else handleHelp
  end.

Definition POST (request : Request) : M HttpResponse :=
  let body := body request in
  let signature := or_default (x_slack_signature request) EmptyString in
  let timestamp := or_default (x_slack_request_timestamp request) EmptyString in
  verified <- verifySlackRequest signature timestamp body ;;
  if negb verified
  then ret {| status := 401; payload := Failure "Invalid signature" |}
  else
    let command := form_get platform body "command" in
    let text :=
      or_default (option_map trim (form_get platform body "text")) EmptyString in
    let userId := or_default (form_get platform body "user_id") EmptyString in
    let userName := or_default (form_get platform body "user_name") EmptyString in
    if negb (match command with
             | Some c => String.eqb c "/focus"
             | None => false
             end)
    then ret {| status := 400; payload := Failure "Unknown command" |}
    else
      fun w =>
        match dispatch text userId userName w with
        | (Normal r, w') => (Normal {| status := 200; payload := Reply r |}, w')
        | (Throw _, w') =>
            (Normal {| status := 200;
                       payload := Reply {| response_type := "ephemeral";
                                           Command.text := went_wrong_text |} |},
             w')
        end.

End WithEnv.

End Surface.

(** ** The parts of the prompt *)

Module Template.
Import Js Classifier.

Definition before_channel : string :=
  join nl (firstn 15 prompt_lines) ++ nl ++ "- Channel: ".

Definition before_sender : string := nl ++ "- Sender: ".

Definition before_message : string := nl ++ "- Message: ".

Definition after_message : string := nl ++ join nl (skipn 18 prompt_lines).

(** No opening brace, so no placeholder can begin in the text. *)
Fixpoint no_brace (s : string) : bool :=
  match s with
  | EmptyString => true
  | String c r => negb (Ascii.eqb c "{") && no_brace r
  end.

(** No dollar sign, so no replacement pattern is in the text. *)
Fixpoint no_dollar (s : string) : bool :=
  match s with
  | EmptyString => true
  | String c r => negb (Ascii.eqb c "$") && no_dollar r
  end.

End Template.

(** ** Orders and groups, in the words of the summary *)

Module Order.
Import Js Focus.

(** Received no later. *)
Definition earlier (a b : HeldItem) : Prop := received_at a <= received_at b.

(** The items of a channel, in the order given. *)
Definition of_channel (key : string) (items : list HeldItem) : list HeldItem :=
  filter (fun item => String.eqb (channel_key item) key) items.

(** The keys of a list in the order of their first appearance, those in
    [seen] left out. *)
Fixpoint first_seen (seen keys : list string) : list string :=
  match keys with
  | [] => []
  | k :: r =>
      if existsb (String.eqb k) seen then first_seen seen r
      else k :: first_seen (k :: seen) r
  end.

(** A key that every plain object inherits. *)
Definition inherited (key : string) : bool :=
  existsb (String.eqb key) object_prototype_keys.

End Order.

(** ** The signature check, in words *)

Module Signing.
Import Js Focus Surface.

(** The signature the request must carry. *)
Definition expected (platform : Platform) (timestamp body : string) : string :=
  "v0=" ++ hmac_sha256_hex platform (slackSigningSecret platform)
             ("v0:" ++ timestamp ++ ":" ++ body).

(** The time stamp reads as a number more than five minutes away from the
    clock, in seconds. *)
Definition stale (now : Z) (timestamp : string) : bool :=
  match parseInt_noradix timestamp with
  | Some t => Z.abs (now / 1000 - t) >? 300
  | None => false
  end.

(** The world after one reading of the clock. *)
Definition ticked (w : World) : World :=
  Build_World (focus_sessions w) (held_items w) (delivered w)
    (trace w ++ [Now]).

(** The header values and form fields as [POST] reads them. *)
Definition signature_of (request : Request) : string :=
  Duration.or_default (x_slack_signature request) EmptyString.

Definition timestamp_of (request : Request) : string :=
  Duration.or_default (x_slack_request_timestamp request) EmptyString.

Definition text_of (platform : Platform) (request : Request) : string :=
  Duration.or_default
    (option_map trim (form_get platform (body request) "text")) EmptyString.

Definition user_of (platform : Platform) (request : Request) : string :=
  Duration.or_default (form_get platform (body request) "user_id") EmptyString.

Definition name_of (platform : Platform) (request : Request) : string :=
  Duration.or_default (form_get platform (body request) "user_name")
    EmptyString.

(** The request is fresh and carries the expected signature. *)
Definition genuine (env : Env) (platform : Platform) (request : Request)
    (w : World) : Prop :=
  stale (clock env (List.length (trace w))) (timestamp_of request) = false
  /\ signature_of request =
       expected platform (timestamp_of request) (body request).

(** The answer of [POST] to a subcommand that ended normally or threw. *)
Definition answered (out : Value.completion Command.Response * World)
  : Value.completion HttpResponse * World :=
  match out with
  | (Value.Normal r, w') =>
      (Value.Normal {| status := 200; payload := Reply r |}, w')
  | (Value.Throw _, w') =>
      (Value.Normal
         {| status := 200;
            payload := Reply {| Command.response_type := "ephemeral";
                                Command.text := went_wrong_text |} |}, w')
  end.

End Signing.

(** ** Sample environments *)

Module Examples.
Import Value.

(** No key is configured; the oracle is never reached. *)
Definition unconfigured : Classifier.Env :=
  {| Classifier.ANTHROPIC_API_KEY := None;
     Classifier.messages_create := fun _ => Throw (Rejected "unreachable");
     Classifier.JSON_parse := fun _ => Throw (SyntaxError "unreachable") |}.

(** A key is configured and the request times out. *)
Definition timing_out : Classifier.Env :=
  {| Classifier.ANTHROPIC_API_KEY := Some "sk-test";
     Classifier.messages_create := fun _ => Throw (Rejected "timeout");
     Classifier.JSON_parse := fun _ => Throw (SyntaxError "unreachable") |}.

(** A key is configured and the oracle answers low urgency with the
    interrupt flag raised all the same. *)
Definition drifting_answer : list (string * jsval) :=
  [("urgency", VStr "low"); ("reason", VStr "chatter");
   ("shouldInterrupt", VBool true)].

Definition drifting : Classifier.Env :=
  {| Classifier.ANTHROPIC_API_KEY := Some "sk-test";
     Classifier.messages_create := fun _ =>
       Normal [{| Classifier.type := "text"; Classifier.text := "{...}" |}];
     Classifier.JSON_parse := fun _ => Normal (VObj drifting_answer) |}.

(** A store and a clock that never fail; the clock stands at one second. *)
Definition calm : Focus.Env :=
  {| Focus.clock := fun _ => 1000;
     Focus.fails := fun _ => false;
     Focus.fresh_id := fun k => "row-" ++ Js.show (Z.of_nat k);
     Focus.db_now := fun _ => 1000;
     Focus.toLocaleTimeString := fun _ => "3:00 PM" |}.

(** The same, except that the fourth call fails. *)
Definition fourth_call_fails : Focus.Env :=
  {| Focus.clock := fun _ => 1000;
     Focus.fails := fun k => Nat.eqb k 3;
     Focus.fresh_id := fun k => "row-" ++ Js.show (Z.of_nat k);
     Focus.db_now := fun _ => 1000;
     Focus.toLocaleTimeString := fun _ => "3:00 PM" |}.

Definition deep_work : Focus.FocusSession :=
  {| Focus.id := "s1"; Focus.user_id := "U1"; Focus.started_at := 0;
     Focus.ends_at := 7200000; Focus.is_active := true;
     Focus.created_at := 0 |}.

Definition held (channelName messageText : string) (receivedAt : Z)
  : Focus.HeldItem :=
  {| Focus.item_id := "h-" ++ Js.show receivedAt; Focus.session_id := "s1";
     Focus.channel_id := "C42"; Focus.channel_name := channelName;
     Focus.sender_id := "U2"; Focus.sender_name := "bob";
     Focus.message_text := messageText; Focus.message_ts := "1700000000.0001";
     Focus.urgency := "low"; Focus.classification_reason := "chatter";
     Focus.received_at := receivedAt |}.

(** One active session, with one held item and with none. *)
Definition busy : Focus.World :=
  {| Focus.focus_sessions := [deep_work];
     Focus.held_items := [held "general" "lunch?" 500];
     Focus.delivered := []; Focus.trace := [] |}.

Definition quiet : Focus.World :=
  {| Focus.focus_sessions := [deep_work]; Focus.held_items := [];
     Focus.delivered := []; Focus.trace := [] |}.

Definition idle : Focus.World :=
  {| Focus.focus_sessions := []; Focus.held_items := [];
     Focus.delivered := []; Focus.trace := [] |}.

(** Seven held items of one channel. *)
Definition seven (channelName : string) : list Focus.HeldItem :=
  map (fun n => held channelName ("message " ++ Js.show n) n)
    [1; 2; 3; 4; 5; 6; 7].

End Examples.

(** ** More sample data *)

Module Samples.
Import Value.

(** A session that ended before the clock of [Examples.calm], its row
    still marked active. *)
Definition short_work : Focus.FocusSession :=
  {| Focus.id := "s0"; Focus.user_id := "U1"; Focus.started_at := 0;
     Focus.ends_at := 900; Focus.is_active := true; Focus.created_at := 0 |}.

Definition lapsed : Focus.World :=
  {| Focus.focus_sessions := [short_work];
     Focus.held_items := [Examples.held "general" "lunch?" 500];
     Focus.delivered := []; Focus.trace := [] |}.

(** One active session with two held items stored out of order, and an
    item of another session. *)
Definition stray : Focus.HeldItem :=
  {| Focus.item_id := "h-x"; Focus.session_id := "s9";
     Focus.channel_id := "C42"; Focus.channel_name := "general";
     Focus.sender_id := "U2"; Focus.sender_name := "bob";
     Focus.message_text := "elsewhere"; Focus.message_ts := "1700000000.0002";
     Focus.urgency := "low"; Focus.classification_reason := "chatter";
     Focus.received_at := 100 |}.

Definition crowded : Focus.World :=
  {| Focus.focus_sessions := [Examples.deep_work];
     Focus.held_items :=
       [Examples.held "general" "second" 900; stray;
        Examples.held "random" "first" 300];
     Focus.delivered := []; Focus.trace := [] |}.

(** Held items of two channels, the second one named by a number. *)
Definition mixed : list Focus.HeldItem :=
  [Examples.held "general" "one" 1; Examples.held "2024" "two" 2;
   Examples.held "general" "three" 3].

(** Held items of two channels with ordinary names. *)
Definition two_channels : list Focus.HeldItem :=
  [Examples.held "general" "one" 1; Examples.held "random" "two" 2;
   Examples.held "general" "three" 3].

(** A platform whose digest is a fixed text, and whose form fields are
    the command, the body as the text, and the user. *)
Definition desk : Surface.Platform :=
  {| Surface.slackSigningSecret := "secret";
     Surface.hmac_sha256_hex := fun _ _ => "00ff";
     Surface.form_get := fun body name =>
       if String.eqb name "command" then Some "/focus"
       else if String.eqb name "text" then Some body
       else if String.eqb name "user_id" then Some "U1"
       else if String.eqb name "user_name" then Some "ann"
       else None |}.

Definition signed (text : string) : Surface.Request :=
  {| Surface.body := text;
     Surface.x_slack_signature := Some "v0=00ff";
     Surface.x_slack_request_timestamp := Some "1" |}.

Definition unsigned (text : string) : Surface.Request :=
  {| Surface.body := text;
     Surface.x_slack_signature := None;
     Surface.x_slack_request_timestamp := None |}.

(** A key is configured and the oracle answers with a bare JSON string,
    or with a JSON array. *)
Definition text_block : Classifier.ContentBlock :=
  {| Classifier.type := "text"; Classifier.text := "..." |}.

Definition scalar_reply : Classifier.Env :=
  {| Classifier.ANTHROPIC_API_KEY := Some "sk-test";
     Classifier.messages_create := fun _ => Normal [text_block];
     Classifier.JSON_parse := fun _ => Normal (VStr "urgent") |}.

Definition list_reply : Classifier.Env :=
  {| Classifier.ANTHROPIC_API_KEY := Some "sk-test";
     Classifier.messages_create := fun _ => Normal [text_block];
     Classifier.JSON_parse := fun _ => Normal (VArr [VStr "urgent"] []) |}.

End Samples.

(** * Properties *)

(** ** Strings *)

Section StringFacts.
Import Js.

Lemma append_empty_r (s : string) : s ++ EmptyString = s.
Proof. induction s as [|c s IH]; simpl; [reflexivity | now rewrite IH]. Qed.

Lemma append_assoc (a b c : string) : (a ++ b) ++ c = a ++ (b ++ c).
Proof. induction a as [|x a IH]; simpl; [reflexivity | now rewrite IH]. Qed.

Lemma toLowerCase_app (a b : string) :
  toLowerCase (a ++ b) = toLowerCase a ++ toLowerCase b.
Proof. induction a as [|x a IH]; simpl; [reflexivity | now rewrite IH]. Qed.

Lemma toLowerCase_empty (s : string) :
  toLowerCase s = EmptyString -> s = EmptyString.
Proof. destruct s; simpl; [reflexivity | discriminate]. Qed.

Lemma starts_with_app (k post : string) : starts_with k (k ++ post) = true.
Proof.
  induction k as [|c k IH]; simpl; [reflexivity|].
  now rewrite Ascii.eqb_refl, IH.
Qed.

Lemma starts_with_split (k s : string) :
  starts_with k s = true -> exists post, s = k ++ post.
Proof.
  revert s; induction k as [|c k IH]; intros s H.
  - now exists s.
  - destruct s as [|d s]; simpl in H; [discriminate|].
    apply andb_true_iff in H as [Hc Hk].
    apply Ascii.eqb_eq in Hc; subst d.
    destruct (IH _ Hk) as [post ->]. now exists post.
Qed.

Lemma includes_head (s k : string) :
  starts_with k s = true -> includes s k = true.
Proof. intros H. destruct s; simpl; now rewrite H. Qed.

(** [includes] is the occurrence of the keyword anywhere in the string. *)
Lemma includes_iff (s k : string) :
  includes s k = true <-> exists pre post, s = pre ++ k ++ post.
Proof.
  split.
  - induction s as [|c s IH]; simpl; intros H.
    + rewrite orb_false_r in H.
      destruct (starts_with_split _ _ H) as [post E].
      now exists EmptyString, post.
    + apply orb_true_iff in H as [H|H].
      * destruct (starts_with_split _ _ H) as [post E].
        now exists EmptyString, post.
      * destruct (IH H) as (pre & post & ->).
        now exists (String c pre), post.
  - intros (pre & post & ->).
    induction pre as [|c pre IH]; simpl.
    + apply includes_head, starts_with_app.
    + rewrite IH. apply orb_true_r.
Qed.

End StringFacts.

(** ** Durations *)

Section DurationFacts.
Import Js Duration.

Lemma span_digits_spec (s d r : string) :
  span_digits s = (d, r) ->
  s = d ++ r /\ all_digits d = true /\
  match r with String c _ => is_digit c = false | EmptyString => True end.
Proof.
  revert d r; induction s as [|c s IH]; simpl; intros d r H.
  - inversion H; subst; auto.
  - destruct (is_digit c) eqn:Ec.
    + destruct (span_digits s) as [d' r'] eqn:Es.
      inversion H; subst; clear H.
      destruct (IH _ _ eq_refl) as (-> & Hd & Hr).
      repeat split; auto.
      unfold all_digits in *; simpl. now rewrite Ec, Hd.
    + inversion H; subst; clear H. simpl. auto.
Qed.

Lemma span_digits_app (d r : string) :
  all_digits d = true ->
  match r with String c _ => is_digit c = false | EmptyString => True end ->
  span_digits (d ++ r) = (d, r).
Proof.
  intros Hd Hr; induction d as [|c d IH]; simpl.
  - destruct r as [|c r]; simpl; [reflexivity | now rewrite Hr].
  - unfold all_digits in Hd; simpl in Hd.
    apply andb_true_iff in Hd as [Hc Hd].
    rewrite Hc, (IH Hd). reflexivity.
Qed.

Lemma is_integer_inv (d : string) :
  is_integer d = true ->
  all_digits d = true /\ exists c d', d = String c d'.
Proof.
  unfold is_integer; intros H; apply andb_true_iff in H as [Hn Hd].
  split; [assumption|]. destruct d; [discriminate | eauto].
Qed.

(** A group whose unit letter [u] follows an integer is taken. *)
Lemma opt_group_taken (u : ascii) (d rest : string) :
  is_digit u = false -> is_integer d = true ->
  opt_group u (d ++ String u rest) = (Some d, rest).
Proof.
  intros Hu Hd. destruct (is_integer_inv _ Hd) as (Hall & c & d' & ->).
  unfold opt_group. rewrite span_digits_app by (simpl; assumption).
  now rewrite Ascii.eqb_refl.
Qed.

Lemma opt_group_inv (u : ascii) (s : string) (g : option string) (rest : string) :
  opt_group u s = (g, rest) ->
  match g with
  | Some d => is_integer d = true /\ s = d ++ String u rest
  | None => rest = s
  end.
Proof.
  unfold opt_group. destruct (span_digits s) as [d r] eqn:Es.
  destruct (span_digits_spec _ _ _ Es) as (-> & Hd & _).
  destruct d as [|c d]; [intros H; inversion H; reflexivity|].
  destruct r as [|v r]; [intros H; inversion H; reflexivity|].
  destruct (Ascii.eqb v u) eqn:Ev; intros H; inversion H; subst; clear H;
    [|reflexivity].
  apply Ascii.eqb_eq in Ev; subst v. split; [|reflexivity].
  unfold is_integer. now rewrite Hd.
Qed.

(** A group is skipped when what stands at the head is an integer followed
    by another letter, or no integer at all. *)
Lemma opt_group_skipped_other (u v : ascii) (d rest : string) :
  is_digit v = false -> v <> u -> all_digits d = true ->
  opt_group u (d ++ String v rest) = (None, d ++ String v rest).
Proof.
  intros Hv Hne Hd. unfold opt_group.
  rewrite span_digits_app by (simpl; assumption).
  destruct d; [reflexivity|].
  apply Ascii.eqb_neq in Hne. now rewrite Hne.
Qed.

Lemma opt_group_empty (u : ascii) : opt_group u EmptyString = (None, EmptyString).
Proof. reflexivity. Qed.

Lemma match_duration_complete (h m : option string) :
  part_ok h -> part_ok m ->
  match_duration (part h "h" ++ part m "m") = Some (h, m).
Proof.
  intros Hh Hm. unfold match_duration.
  destruct h as [dh|]; destruct m as [dm|]; simpl in *.
  - rewrite append_assoc. simpl.
    rewrite opt_group_taken by (reflexivity || assumption).
    rewrite opt_group_taken by (reflexivity || assumption).
    reflexivity.
  - rewrite append_empty_r.
    rewrite opt_group_taken by (reflexivity || assumption).
    reflexivity.
  - destruct (is_integer_inv _ Hm) as (Hall & _).
    rewrite opt_group_skipped_other by (reflexivity || discriminate || assumption).
    rewrite opt_group_taken by (reflexivity || assumption).
    reflexivity.
  - reflexivity.
Qed.

Lemma match_duration_sound (t : string) (h m : option string) :
  match_duration t = Some (h, m) ->
  part_ok h /\ part_ok m /\ t = part h "h" ++ part m "m".
Proof.
  unfold match_duration.
  destruct (opt_group "h" t) as [g1 r1] eqn:E1.
  destruct (opt_group "m" r1) as [g2 r2] eqn:E2.
  destruct r2; [|discriminate].
  intros H; inversion H; subst; clear H.
  apply opt_group_inv in E1. apply opt_group_inv in E2.
  destruct h as [dh|]; destruct m as [dm|]; simpl.
  - destruct E1 as (H1 & ->), E2 as (H2 & ->).
    repeat split; auto. now rewrite append_assoc.
  - destruct E1 as (H1 & ->). subst r1.
    repeat split; auto. now rewrite append_empty_r.
  - destruct E2 as (H2 & ->). subst t. repeat split; auto.
  - subst. repeat split; auto.
Qed.

Lemma truthy_part (g : option string) :
  part_ok g -> truthy g = match g with Some _ => true | None => false end.
Proof.
  destruct g as [d|]; simpl; [|reflexivity].
  intros H. now destruct (is_integer_inv _ H) as (_ & c & d' & ->).
Qed.

Lemma or_default_part (g : option string) :
  part_ok g -> parseInt (or_default g "0") = to_double (value g).
Proof.
  destruct g as [d|]; cbn [or_default value]; [|reflexivity].
  intros H. now destruct (is_integer_inv _ H) as (_ & c & d' & ->).
Qed.

(** What [parseDuration] gives on a shaped string. *)
Lemma parseDuration_shaped (s : string) (h m : option string) :
  shaped s h m ->
  parseDuration s =
    match h, m with
    | None, None => None
    | _, _ => Some (computed (value h) (value m))
    end.
Proof.
  intros (Hh & Hm & E). unfold parseDuration.
  rewrite E, match_duration_complete by assumption.
  rewrite (truthy_part _ Hh), (truthy_part _ Hm).
  rewrite (or_default_part _ Hh), (or_default_part _ Hm).
  unfold computed. destruct h, m; cbn [negb andb]; cbv zeta; reflexivity.
Qed.

Lemma parseDuration_some_shaped (s : string) (ms : Z) :
  parseDuration s = Some ms -> exists h m, shaped s h m.
Proof.
  unfold parseDuration.
  destruct (match_duration (toLowerCase s)) as [[g1 g2]|] eqn:E; [|discriminate].
  intros _. exists g1, g2. apply match_duration_sound in E. exact E.
Qed.

Lemma parseDuration_none_cases (s : string) :
  parseDuration s = None ->
  shaped s None None \/ ~ (exists h m, shaped s h m).
Proof.
  intros H.
  destruct (match_duration (toLowerCase s)) as [[g1 g2]|] eqn:E.
  - left. pose proof (match_duration_sound _ _ _ E) as Hs.
    rewrite (parseDuration_shaped s g1 g2 Hs) in H.
    destruct g1, g2; try discriminate. exact Hs.
  - right. intros (h & m & Hh & Hm & Et).
    rewrite Et, match_duration_complete in E by assumption. discriminate.
Qed.

Lemma digit_val_range (c : ascii) : is_digit c = true -> 0 <= digit_val c <= 9.
Proof.
  unfold is_digit, digit_val. intros H.
  apply andb_true_iff in H as [H1 H2].
  apply Nat.leb_le in H1, H2. lia.
Qed.

Lemma parseInt_from_nonneg (s : string) (acc : Z) :
  all_digits s = true -> 0 <= acc -> 0 <= parseInt_from acc s.
Proof.
  revert acc; induction s as [|c s IH]; simpl; intros acc Hd Hacc; [assumption|].
  unfold all_digits in Hd; simpl in Hd. apply andb_true_iff in Hd as [Hc Hd].
  apply IH; [exact Hd|]. pose proof (digit_val_range _ Hc). lia.
Qed.

Lemma value_nonneg (g : option string) : part_ok g -> 0 <= value g.
Proof.
  destruct g as [d|]; simpl; [|lia].
  intros H. destruct (is_integer_inv _ H) as (Hall & _).
  apply parseInt_from_nonneg; [assumption | lia].
Qed.

(** *** Rounding to a double *)

(** Below 2^53 every integer is a double. *)
Lemma to_double_small (z : Z) : Z.abs z < 2 ^ 53 -> to_double z = z.
Proof. intros H. unfold to_double. apply Z.ltb_lt in H. now rewrite H. Qed.

(** From 2^53 on, rounding stays at or above 2^53. *)
Lemma to_double_big (z : Z) : 2 ^ 53 <= z -> 2 ^ 53 <= to_double z.
Proof.
  intros H. unfold to_double.
  assert (P53 : 2 ^ 53 = 9007199254740992) by reflexivity.
  assert (Hz : 0 < z) by lia.
  rewrite (Z.abs_eq z) by lia.
  destruct (Z.ltb_spec z (2 ^ 53)) as [E|_]; [lia|]. cbv zeta.
  assert (Hl : 53 <= Z.log2 z).
  { rewrite <- (Z.log2_pow2 53) by lia. now apply Z.log2_le_mono. }
  set (e := Z.log2 z - 52).
  assert (He : 1 <= e) by (unfold e; lia).
  assert (Hp : 2 <= 2 ^ e).
  { change 2 with (2 ^ 1) at 1. apply Z.pow_le_mono_r; lia. }
  assert (Hq : 2 ^ 52 <= z / 2 ^ e).
  { apply Z.div_le_lower_bound; [lia|].
    rewrite Z.mul_comm, <- Z.pow_add_r by lia.
    replace (52 + e) with (Z.log2 z) by (unfold e; lia).
    apply Z.log2_spec. lia. }
  set (q := z / 2 ^ e) in *.
  set (q' := if (2 ^ (e - 1) <? z mod 2 ^ e)
                || ((z mod 2 ^ e =? 2 ^ (e - 1)) && Z.odd q)
             then q + 1 else q).
  assert (Hq' : q <= q') by (unfold q'; destruct (_ || _); lia).
  assert (P52 : 2 ^ 52 = 4503599627370496) by reflexivity.
  assert (Hv : 2 ^ 53 <= q' * 2 ^ e) by nia.
  rewrite (Z.sgn_pos z) by lia.
  destruct (Z.leb_spec infinity (q' * 2 ^ e)) as [_|_]; [|lia].
  unfold infinity. rewrite Z.mul_1_l.
  apply Z.pow_le_mono_r; lia.
Qed.

Lemma to_double_nonneg (z : Z) : 0 <= z -> 0 <= to_double z.
Proof.
  intros H. assert (P53 : 2 ^ 53 = 9007199254740992) by reflexivity.
  destruct (Z.lt_ge_cases z (2 ^ 53)) as [E|E].
  - rewrite to_double_small by (rewrite Z.abs_eq; lia). exact H.
  - pose proof (to_double_big z E). lia.
Qed.

(** A result below 2^53 was not rounded. *)
Lemma to_double_lt_inv (z : Z) :
  0 <= z -> to_double z < 2 ^ 53 -> to_double z = z /\ z < 2 ^ 53.
Proof.
  intros H Hlt. assert (P53 : 2 ^ 53 = 9007199254740992) by reflexivity.
  destruct (Z.lt_ge_cases z (2 ^ 53)) as [E|E].
  - split; [|exact E]. apply to_double_small. rewrite Z.abs_eq; lia.
  - pose proof (to_double_big z E). lia.
Qed.

(** Below 2^53 the program computes the exact number of milliseconds. *)
Lemma computed_exact (h m : Z) :
  0 <= h -> 0 <= m -> (h * 60 + m) * 60000 < 2 ^ 53 ->
  computed h m = (h * 60 + m) * 60000.
Proof.
  intros Hh Hm Hlt. assert (P53 : 2 ^ 53 = 9007199254740992) by reflexivity.
  unfold computed, mul, add.
  rewrite (to_double_small h) by (rewrite Z.abs_eq; lia).
  rewrite (to_double_small m) by (rewrite Z.abs_eq; lia).
  rewrite (to_double_small (h * 60)) by (rewrite Z.abs_eq; lia).
  rewrite (to_double_small (h * 60 + m)) by (rewrite Z.abs_eq; lia).
  rewrite (to_double_small ((h * 60 + m) * 60)) by (rewrite Z.abs_eq; lia).
  rewrite (to_double_small ((h * 60 + m) * 60 * 1000)) by (rewrite Z.abs_eq; lia).
  lia.
Qed.

(** And a result below 2^53 is the exact number. *)
Lemma computed_small_inv (h m : Z) :
  0 <= h -> 0 <= m -> computed h m < 2 ^ 53 ->
  computed h m = (h * 60 + m) * 60000.
Proof.
  intros Hh Hm. assert (P53 : 2 ^ 53 = 9007199254740992) by reflexivity.
  unfold computed, mul, add.
  pose proof (to_double_nonneg h Hh) as Na.
  set (a := to_double h) in *.
  pose proof (to_double_nonneg (a * 60) ltac:(lia)) as Nb.
  set (b := to_double (a * 60)) in *.
  pose proof (to_double_nonneg m Hm) as Nc.
  set (c := to_double m) in *.
  pose proof (to_double_nonneg (b + c) ltac:(lia)) as Nd.
  set (d := to_double (b + c)) in *.
  pose proof (to_double_nonneg (d * 60) ltac:(lia)) as Ne.
  set (e := to_double (d * 60)) in *.
  intros Hlt.
  destruct (to_double_lt_inv (e * 1000) ltac:(lia) Hlt) as [Ef Lf].
  rewrite Ef.
  destruct (to_double_lt_inv (d * 60) ltac:(lia) ltac:(fold e; lia)) as [Ee Le].
  fold e in Ee.
  destruct (to_double_lt_inv (b + c) ltac:(lia) ltac:(fold d; lia)) as [Ed Ld].
  fold d in Ed.
  destruct (to_double_lt_inv m Hm ltac:(fold c; lia)) as [Ec Lc].
  fold c in Ec.
  destruct (to_double_lt_inv (a * 60) ltac:(lia) ltac:(fold b; lia)) as [Eb Lb].
  fold b in Eb.
  destruct (to_double_lt_inv h Hh ltac:(fold a; lia)) as [Ea La].
  fold a in Ea.
  lia.
Qed.

Lemma computed_nonneg (h m : Z) : 0 <= h -> 0 <= m -> 0 <= computed h m.
Proof.
  intros Hh Hm. unfold computed, mul, add.
  pose proof (to_double_nonneg h Hh).
  pose proof (to_double_nonneg m Hm).
  pose proof (to_double_nonneg (to_double h * 60) ltac:(lia)).
  pose proof (to_double_nonneg (to_double (to_double h * 60) + to_double m)
                ltac:(lia)).
  apply to_double_nonneg.
  pose proof (to_double_nonneg
                (to_double (to_double (to_double h * 60) + to_double m) * 60)
                ltac:(lia)).
  lia.
Qed.

(** On a whole number of minutes that is not negative, [formatDuration]
    gives the normal rendering. *)
Lemma formatDuration_minutes (total : Z) :
  0 <= total -> formatDuration (total * 60000) = normalized total.
Proof.
  intros H. unfold formatDuration, normalized.
  rewrite Z.div_mul by lia.
  rewrite Z.rem_mod_nonneg by lia.
  assert (0 <= total / 60) by (apply Z.div_pos; lia).
  assert (0 <= total mod 60 < 60) by (apply Z.mod_pos_bound; lia).
  assert (Em : total / 60 = 0 -> total mod 60 = total).
  { intros E. pose proof (Z.div_mod total 60 ltac:(lia)). lia. }
  destruct (total / 60 >? 0) eqn:E1; destruct (total / 60 =? 0) eqn:E2;
    destruct (total mod 60 >? 0) eqn:E3; destruct (total mod 60 =? 0) eqn:E4;
    simpl; try reflexivity; try lia.
  - apply Z.eqb_eq in E2. now rewrite (Em E2).
  - apply Z.eqb_eq in E2. now rewrite (Em E2).
Qed.

(** *** Decimal numerals read back *)

Lemma parseInt_from_uint_acc (d : Decimal.uint) (acc : positive) :
  parseInt_from (Zpos acc) (NilEmpty.string_of_uint d) =
    Zpos (Pos.of_uint_acc d acc).
Proof.
  revert acc; induction d; intros acc;
    cbn [NilEmpty.string_of_uint parseInt_from Pos.of_uint_acc];
    [reflexivity | ..];
    rewrite <- IHd; f_equal;
    match goal with
    | |- context [digit_val ?c] =>
        let v := eval compute in (digit_val c) in change (digit_val c) with v
    end; lia.
Qed.

Lemma decimal_string_of_uint (d : Decimal.uint) :
  decimal (NilEmpty.string_of_uint d) = Z.of_uint d.
Proof.
  unfold decimal, Z.of_uint.
  induction d; cbn [NilEmpty.string_of_uint parseInt_from Pos.of_uint];
    [reflexivity | exact IHd | ..];
    (etransitivity; [|apply parseInt_from_uint_acc]); reflexivity.
Qed.

Lemma all_digits_string_of_uint (d : Decimal.uint) :
  all_digits (NilEmpty.string_of_uint d) = true.
Proof. induction d; [reflexivity | ..]; exact IHd. Qed.

(** The digits a template prints denote the number printed. *)
Lemma decimal_show (z : Z) : 0 <= z -> decimal (show z) = z.
Proof.
  intros H. unfold show.
  destruct (Z.to_int z) as [d|d] eqn:E.
  - cbn [NilEmpty.string_of_int]. rewrite decimal_string_of_uint.
    change (Z.of_uint d) with (Z.of_int (Decimal.Pos d)).
    rewrite <- E. apply DecimalZ.of_to.
  - destruct z; try discriminate. lia.
Qed.

Lemma show_is_integer (z : Z) : 0 <= z -> is_integer (show z) = true.
Proof.
  intros H. unfold is_integer. apply andb_true_iff.
  unfold show. destruct z as [|p|p]; [split; reflexivity | | lia].
  cbn [Z.to_int NilEmpty.string_of_int].
  split; [|apply all_digits_string_of_uint].
  destruct (NilEmpty.string_of_uint (Pos.to_uint p)) eqn:E; [|reflexivity].
  pose proof (decimal_show (Zpos p) ltac:(lia)) as P.
  unfold show in P. cbn [Z.to_int NilEmpty.string_of_int] in P.
  rewrite E in P. discriminate P.
Qed.

Lemma without_spaces_app (a b : string) :
  without_spaces (a ++ b) = without_spaces a ++ without_spaces b.
Proof.
  induction a as [|c a IH]; simpl; [reflexivity|].
  destruct (Ascii.eqb c " "); simpl; now rewrite IH.
Qed.

Lemma digit_plain (c : ascii) :
  is_digit c = true -> Ascii.eqb c " " = false /\ lower_char c = c.
Proof.
  unfold is_digit, lower_char, is_upper. intros H.
  apply andb_true_iff in H as [H1 H2]. apply Nat.leb_le in H1, H2. split.
  - apply Ascii.eqb_neq. intros ->.
    change (nat_of_ascii " ") with 32%nat in H1. lia.
  - destruct (65 <=? nat_of_ascii c)%nat eqn:E; [|reflexivity].
    apply Nat.leb_le in E. lia.
Qed.

Lemma digits_plain (s : string) :
  all_digits s = true -> without_spaces s = s /\ toLowerCase s = s.
Proof.
  unfold all_digits. induction s as [|c s IH]; simpl; [auto|].
  intros H. apply andb_true_iff in H as [Hc Hs].
  destruct (digit_plain _ Hc) as [-> ->]. destruct (IH Hs) as [-> ->]. auto.
Qed.

Lemma show_plain (z : Z) :
  0 <= z -> without_spaces (show z) = show z /\ toLowerCase (show z) = show z.
Proof.
  intros H. apply digits_plain. pose proof (show_is_integer z H) as I.
  unfold is_integer in I. now apply andb_true_iff in I.
Qed.

(** The normal rendering, its space apart, parses to the minutes it
    renders. *)
Lemma parseDuration_normalized (total : Z) :
  0 <= total -> total * 60000 < 2 ^ 53 ->
  parseDuration (without_spaces (normalized total)) = Some (total * 60000).
Proof.
  intros H Hlt. assert (P53 : 2 ^ 53 = 9007199254740992) by reflexivity.
  unfold normalized.
  assert (Hh : 0 <= total / 60) by (apply Z.div_pos; lia).
  assert (Hm : 0 <= total mod 60 < 60) by (apply Z.mod_pos_bound; lia).
  pose proof (Z.div_mod total 60 ltac:(lia)) as Ed.
  destruct (show_plain _ Hh) as [Wh Lh].
  destruct (show_plain (total mod 60) ltac:(lia)) as [Wm Lm].
  destruct (total / 60 =? 0) eqn:E1; destruct (total mod 60 =? 0) eqn:E2;
    cbn [negb andb]; rewrite ?without_spaces_app, ?Wh, ?Wm.
  - apply Z.eqb_eq in E1, E2.
    rewrite (parseDuration_shaped _ None (Some (show (total mod 60)))).
    + cbn [value]. rewrite decimal_show by lia.
      rewrite computed_exact by lia. f_equal. lia.
    + repeat split; [apply show_is_integer; lia|].
      rewrite toLowerCase_app, Lm. reflexivity.
  - apply Z.eqb_eq in E1.
    rewrite (parseDuration_shaped _ None (Some (show (total mod 60)))).
    + cbn [value]. rewrite decimal_show by lia.
      rewrite computed_exact by lia. f_equal. lia.
    + repeat split; [apply show_is_integer; lia|].
      rewrite toLowerCase_app, Lm. reflexivity.
  - apply Z.eqb_eq in E2.
    rewrite (parseDuration_shaped _ (Some (show (total / 60))) None).
    + cbn [value]. rewrite decimal_show by lia.
      rewrite computed_exact by lia. f_equal. lia.
    + repeat split; [apply show_is_integer; lia|].
      rewrite toLowerCase_app, Lh. cbn [part]. now rewrite append_empty_r.
  - rewrite (parseDuration_shaped _ (Some (show (total / 60)))
               (Some (show (total mod 60)))).
    + cbn [value]. rewrite !decimal_show by lia.
      rewrite computed_exact by lia. f_equal. lia.
    + repeat split; try (apply show_is_integer; lia).
      cbn [without_spaces part]. change (Ascii.eqb "h" " ") with false.
      change (Ascii.eqb " " " ") with true. change (Ascii.eqb "m" " ") with false.
      cbn iota. rewrite !toLowerCase_app, Lh, Lm, append_assoc. reflexivity.
Qed.

End DurationFacts.

(** C5, as the program has it.  [parseDuration] returns no match exactly
    when the string is empty, has neither an hour part nor a minute part,
    or has a character beyond an integer-and-h part followed by an
    integer-and-m part (letters in either case).  In every other case it
    returns what double arithmetic makes of
    (hours * 60 + minutes) * 60 * 1000, and that is the number of
    milliseconds itself whenever the number, or the result, is below
    2^53. *)
Theorem parseDuration_no_match_exactly (s : string) :
  (Duration.parseDuration s = None <->
     s = EmptyString \/ Duration.shaped s None None \/
     ~ (exists h m, Duration.shaped s h m))
  /\ (forall h m, Duration.shaped s h m -> h <> None \/ m <> None ->
      let exact := (Duration.value h * 60 + Duration.value m) * 60000 in
      let ms := Duration.computed (Duration.value h) (Duration.value m) in
      Duration.parseDuration s = Some ms
      /\ (exact < 2 ^ 53 \/ ms < 2 ^ 53 -> ms = exact))
  /\ (forall ms, Duration.parseDuration s = Some ms ->
      exists h m, Duration.shaped s h m /\ (h <> None \/ m <> None) /\
        ms = Duration.computed (Duration.value h) (Duration.value m)).
Proof.
  split; [split|split].
  - intros H. right. now apply parseDuration_none_cases.
  - intros [-> | [H | H]].
    + reflexivity.
    + now rewrite (parseDuration_shaped _ _ _ H).
    + destruct (Duration.parseDuration s) as [ms|] eqn:E; [|reflexivity].
      exfalso. apply H. eapply parseDuration_some_shaped; eassumption.
  - intros h m Hs Hne exact ms. split.
    + rewrite (parseDuration_shaped _ _ _ Hs).
      destruct h, m; try reflexivity. destruct Hne as [Hne|Hne]; now elim Hne.
    + destruct Hs as (Hh & Hm & _).
      pose proof (value_nonneg _ Hh). pose proof (value_nonneg _ Hm).
      intros [Hlt|Hlt]; [now apply computed_exact | now apply computed_small_inv].
  - intros ms E.
    destruct (parseDuration_some_shaped _ _ E) as (h & m & Hs).
    exists h, m. split; [exact Hs|].
    rewrite (parseDuration_shaped _ _ _ Hs) in E.
    destruct h, m; try discriminate; inversion E;
      (split; [(left; discriminate) || (right; discriminate) | reflexivity]).
Qed.

Lemma parseDuration_no_match_exactly_witness :
  Duration.parseDuration "1H30m" = Some 5400000.
Proof.
  destruct (proj1 (proj2 (parseDuration_no_match_exactly "1H30m"))
              (Some "1") (Some "30")) as [E _].
  - repeat split; reflexivity.
  - left; discriminate.
  - exact E.
Defined.

(** C5 as the specification words it fails where doubles round: the
    string 9007199254740993m is one minute part, of 2^53 + 1 minutes;
    (hours * 60 + minutes) * 60000 is 540431955284459580000, and
    [parseDuration] returns 540431955284459520000, since [parseInt]
    already gives 2^53. *)
Lemma parseDuration_rounds_large_numbers :
  Duration.shaped "9007199254740993m" None (Some "9007199254740993")
  /\ (Duration.value None * 60 + Duration.value (Some "9007199254740993"))
     * 60000 = 540431955284459580000
  /\ Js.parseInt "9007199254740993" = 9007199254740992
  /\ Duration.parseDuration "9007199254740993m" = Some 540431955284459520000.
Proof. repeat split. Qed.

(** C6, as the program has it.  For every well-formed duration string
    (an optional hour part, an optional minute part, at least one
    present) whose total of milliseconds is below 2^53, [parseDuration]
    and then [formatDuration] give the normal rendering of the same total
    of whole minutes, as in 1h30m to 5400000 to 1h 30m, and that
    rendering, its space apart, parses to the same duration; the
    malformed strings (empty, 2x, h, 30) give no match. *)
Theorem parse_then_format_normalizes :
  (forall s h m, Duration.shaped s h m -> h <> None \/ m <> None ->
     (Duration.value h * 60 + Duration.value m) * 60000 < 2 ^ 53 ->
     exists ms, Duration.parseDuration s = Some ms /\
       ms = (Duration.value h * 60 + Duration.value m) * 60000 /\
       Duration.formatDuration ms =
         Duration.normalized (Duration.value h * 60 + Duration.value m) /\
       Duration.parseDuration (Js.without_spaces (Duration.formatDuration ms)) =
         Some ms)
  /\ (Duration.parseDuration "1h30m" = Some 5400000 /\
      Duration.formatDuration 5400000 = "1h 30m")
  /\ Duration.parseDuration EmptyString = None
  /\ Duration.parseDuration "2x" = None
  /\ Duration.parseDuration "h" = None
  /\ Duration.parseDuration "30" = None.
Proof.
  split; [|repeat split; reflexivity].
  intros s h m Hs Hne Hlt.
  pose proof Hs as (Hh & Hm & _).
  pose proof (value_nonneg _ Hh) as Vh. pose proof (value_nonneg _ Hm) as Vm.
  set (total := Duration.value h * 60 + Duration.value m) in *.
  assert (Ht : 0 <= total) by (unfold total; lia).
  exists (total * 60000). split; [|split; [reflexivity|]].
  - rewrite (parseDuration_shaped _ _ _ Hs).
    rewrite computed_exact by assumption. fold total.
    destruct h, m; try reflexivity. destruct Hne as [Hne|Hne]; now elim Hne.
  - rewrite formatDuration_minutes by exact Ht. split; [reflexivity|].
    now apply parseDuration_normalized.
Qed.

Lemma parse_then_format_normalizes_witness :
  exists ms, Duration.parseDuration "2H5m" = Some ms /\
    ms = 7500000 /\ Duration.formatDuration ms = "2h 5m" /\
    Duration.parseDuration (Js.without_spaces (Duration.formatDuration ms)) =
      Some ms.
Proof.
  apply (proj1 parse_then_format_normalizes "2H5m" (Some "2") (Some "5")).
  - repeat split; reflexivity.
  - left; discriminate.
  - reflexivity.
Defined.

(** C6 as the specification words it fails where doubles round: the
    well-formed strings 9007199254740992m and 9007199254740993m parse
    to the same number, so that what [formatDuration] prints for the
    second, 150119987579016h 32m, is the rendering of one minute less
    than the string gives. *)
Lemma large_totals_lose_a_minute :
  Duration.shaped "9007199254740993m" None (Some "9007199254740993")
  /\ Duration.parseDuration "9007199254740993m" =
       Duration.parseDuration "9007199254740992m"
  /\ Duration.parseDuration "9007199254740993m" = Some 540431955284459520000
  /\ Duration.formatDuration 540431955284459520000 = "150119987579016h 32m"
  /\ Duration.normalized
       (Duration.value None * 60 + Duration.value (Some "9007199254740993")) =
       "150119987579016h 33m".
Proof. repeat split. Qed.

(** ** The classifier *)

Section ClassifierFacts.
Import Js Value Classifier.

Lemma lookup_assign_same (k : string) (v : jsval) (l : list (string * jsval)) :
  lookup k (assign k v l) = Some v.
Proof.
  induction l as [|[k' v'] l IH]; simpl.
  - now rewrite String.eqb_refl.
  - destruct (String.eqb k k') eqn:E; simpl.
    + now rewrite String.eqb_refl.
    + now rewrite E.
Qed.

Lemma lookup_assign_other (k k' : string) (v : jsval) (l : list (string * jsval)) :
  k' <> k -> lookup k' (assign k v l) = lookup k' l.
Proof.
  intros Hne. induction l as [|[k0 v0] l IH]; simpl.
  - apply String.eqb_neq in Hne. now rewrite Hne.
  - destruct (String.eqb k k0) eqn:E; simpl.
    + apply String.eqb_eq in E; subst k0.
      apply String.eqb_neq in Hne. now rewrite Hne.
    + now rewrite IH.
Qed.

(** The keyword scan is the containment of some keyword. *)
Lemma hasUrgentKeyword_iff (messageText : string) :
  hasUrgentKeyword messageText = true <-> contains_keyword messageText.
Proof.
  unfold hasUrgentKeyword, contains_keyword. rewrite existsb_exists. split.
  - intros (k & Hin & Hk). apply includes_iff in Hk as (pre & post & E).
    now exists k, pre, post.
  - intros (k & pre & post & Hin & E). exists k. split; [assumption|].
    apply includes_iff. now exists pre, post.
Qed.

Lemma hasUrgentKeyword_false (messageText : string) :
  ~ contains_keyword messageText -> hasUrgentKeyword messageText = false.
Proof.
  intros H. destruct (hasUrgentKeyword messageText) eqn:E; [|reflexivity].
  elim H. now apply hasUrgentKeyword_iff.
Qed.

(** After the assignment the flag of a value is the recomputed one, and
    its urgency is the one it had. *)
Lemma set_flag_reads (v v' u : jsval) (b : bool) :
  get v "urgency" = Normal u ->
  set v "shouldInterrupt" (VBool b) = Normal v' ->
  get v' "urgency" = Normal u /\ get v' "shouldInterrupt" = Normal (VBool b).
Proof.
  destruct v; simpl; try discriminate; intros Hu Hs;
    inversion Hs; subst; clear Hs; simpl in *.
  - rewrite lookup_assign_same.
    rewrite lookup_assign_other by discriminate. now split.
  - rewrite lookup_assign_same.
    rewrite lookup_assign_other by discriminate. now split.
Qed.

Lemma ask_oracle_flag (env : Env) (m c s : string) (r : jsval) :
  ask_oracle env m c s = Normal r ->
  exists u, get r "urgency" = Normal u /\
    get r "shouldInterrupt" = Normal (VBool (is_string u "urgent")).
Proof.
  unfold ask_oracle.
  destruct (messages_create env (request m c s)) as [[|b rest]|e]; simpl;
    try discriminate.
  destruct (negb (String.eqb (type b) "text")); [discriminate|].
  destruct (JSON_parse env (text b)) as [v|e]; simpl; [|discriminate].
  destruct (get v "urgency") as [u|e] eqn:Eu; simpl; [|discriminate].
  destruct (set v "shouldInterrupt" (VBool (is_string u "urgent")))
    as [v'|e] eqn:Es; simpl; [|discriminate].
  intros H; inversion H; subst; clear H.
  exists u. eapply set_flag_reads; eassumption.
Qed.

Lemma oracle_call_fails_throws (env : Env) (m c s : string) :
  oracle_call_fails env m c s -> exists e, ask_oracle env m c s = Throw e.
Proof.
  unfold oracle_call_fails, ask_oracle.
  intros [(e & ->) | [(b & rest & -> & Hb) | (b & rest & e & -> & Hb & Hp)]];
    simpl.
  - eauto.
  - apply String.eqb_neq in Hb. rewrite Hb. simpl. eauto.
  - rewrite Hb, Hp. simpl. eauto.
Qed.

End ClassifierFacts.

(** C1. In every result of [classifyMessage] (from the oracle, from the
    fallback without a key, from the fallback after a failure) the flag
    shouldInterrupt equals (urgency === 'urgent'); whatever flag the JSON
    of the oracle carries is overwritten with the recomputed one. *)
Theorem shouldInterrupt_recomputed (env : Classifier.Env) (m c s : string) :
  (exists r u,
     Classifier.classifyMessage env m c s = Value.Normal r /\
     Value.get r "urgency" = Value.Normal u /\
     Value.get r "shouldInterrupt" =
       Value.Normal (Value.VBool (Value.is_string u "urgent")))
  /\ (forall b rest props,
        Classifier.no_key env = false ->
        Classifier.messages_create env (Classifier.request m c s) =
          Value.Normal (b :: rest) ->
        Classifier.type b = "text" ->
        Classifier.JSON_parse env (Classifier.text b) =
          Value.Normal (Value.VObj props) ->
        Classifier.classifyMessage env m c s =
          Value.Normal (Value.VObj
            (Value.assign "shouldInterrupt"
               (Value.VBool (Value.is_string
                  (Value.opt_val (Value.lookup "urgency" props)) "urgent"))
               props))).
Proof.
  split.
  - unfold Classifier.classifyMessage.
    destruct (Classifier.no_key env).
    + destruct (Classifier.hasUrgentKeyword m); eexists; eexists;
        (split; [reflexivity | split; reflexivity]).
    + destruct (Classifier.ask_oracle env m c s) as [r|e] eqn:E; simpl.
      * destruct (ask_oracle_flag _ _ _ _ _ E) as (u & Hu & Hf).
        exists r, u. auto.
      * destruct (Classifier.hasUrgentKeyword m); eexists; eexists;
          (split; [reflexivity | split; reflexivity]).
  - intros b rest props Hk Hc Ht Hp.
    unfold Classifier.classifyMessage, Classifier.ask_oracle.
    rewrite Hk, Hc. simpl. rewrite Ht, Hp. reflexivity.
Qed.

Lemma shouldInterrupt_recomputed_witness :
  Classifier.classifyMessage Examples.drifting "lunch?" "general" "ann" =
    Value.Normal (Value.VObj
      [("urgency", Value.VStr "low"); ("reason", Value.VStr "chatter");
       ("shouldInterrupt", Value.VBool false)]).
Proof.
  apply (proj2 (shouldInterrupt_recomputed Examples.drifting
                  "lunch?" "general" "ann")
           {| Classifier.type := "text"; Classifier.text := "{...}" |} []
           Examples.drifting_answer); reflexivity.
Defined.

(** C3, as the program has it: without a key, a message whose lowercased
    text contains one of the fixed keywords is classified urgent, with
    shouldInterrupt true and the reason Contains urgent keywords (with a
    capital C); a message that contains none is classified low with
    shouldInterrupt false. *)
Theorem unconfigured_keyword_fallback (env : Classifier.Env) (m c s : string) :
  Classifier.no_key env = true ->
  (Classifier.contains_keyword m ->
     Classifier.classifyMessage env m c s =
       Value.Normal (Classifier.result "urgent" "Contains urgent keywords" true))
  /\ (~ Classifier.contains_keyword m ->
     Classifier.classifyMessage env m c s =
       Value.Normal (Classifier.result "low"
         "Default classification (no AI key configured)" false)).
Proof.
  intros Hk. unfold Classifier.classifyMessage. rewrite Hk. split; intros H.
  - apply hasUrgentKeyword_iff in H. now rewrite H.
  - now rewrite (hasUrgentKeyword_false _ H).
Qed.

Lemma unconfigured_keyword_fallback_witness :
  Classifier.classifyMessage Examples.unconfigured
    "Need this ASAP" "general" "ann" =
    Value.Normal (Classifier.result "urgent" "Contains urgent keywords" true).
Proof.
  apply (proj1 (unconfigured_keyword_fallback Examples.unconfigured
                  "Need this ASAP" "general" "ann" eq_refl)).
  apply hasUrgentKeyword_iff. reflexivity.
Defined.

(** C3 as the specification words it fails: the reason is not the
    lowercase text. *)
Lemma unconfigured_reason_is_capitalised :
  Classifier.no_key Examples.unconfigured = true /\
  Classifier.hasUrgentKeyword "Need this ASAP" = true /\
  Classifier.classifyMessage Examples.unconfigured
    "Need this ASAP" "general" "ann" <>
    Value.Normal (Classifier.result "urgent" "contains urgent keywords" true).
Proof. repeat split. discriminate. Qed.

(** C4. However the oracle call fails (it throws, its first block is not
    text, its text is not JSON), [classifyMessage] ends normally, and
    when the message matches no keyword the result is medium urgency with
    shouldInterrupt false. *)
Theorem oracle_failure_is_contained (env : Classifier.Env) (m c s : string) :
  (exists r, Classifier.classifyMessage env m c s = Value.Normal r)
  /\ (Classifier.no_key env = false ->
      Classifier.oracle_call_fails env m c s ->
      ~ Classifier.contains_keyword m ->
      Classifier.classifyMessage env m c s =
        Value.Normal (Classifier.result "medium"
          "Default classification (AI classification failed)" false)).
Proof.
  split.
  - unfold Classifier.classifyMessage.
    destruct (Classifier.no_key env).
    + destruct (Classifier.hasUrgentKeyword m); eauto.
    + destruct (Classifier.ask_oracle env m c s); simpl; eauto.
      destruct (Classifier.hasUrgentKeyword m); eauto.
  - intros Hk Hf Hn. unfold Classifier.classifyMessage. rewrite Hk.
    destruct (oracle_call_fails_throws _ _ _ _ Hf) as (e & ->). simpl.
    now rewrite (hasUrgentKeyword_false _ Hn).
Qed.

Lemma oracle_failure_is_contained_witness :
  Classifier.classifyMessage Examples.timing_out "lunch?" "general" "ann" =
    Value.Normal (Classifier.result "medium"
      "Default classification (AI classification failed)" false).
Proof.
  apply (proj2 (oracle_failure_is_contained Examples.timing_out
                  "lunch?" "general" "ann")).
  - reflexivity.
  - left. exists (Value.Rejected "timeout"). reflexivity.
  - intros H. apply hasUrgentKeyword_iff in H. discriminate H.
Defined.

(** C9. The fallback tests containment, not whole words: a message whose
    lowercased text has a keyword anywhere, also inside a longer word such
    as download or countdown, is classified urgent with shouldInterrupt
    true, without a key and after a failed oracle call alike. *)
Theorem keyword_inside_a_word_is_urgent
    (env : Classifier.Env) (m c s keyword pre post : string) :
  In keyword Classifier.urgentKeywords ->
  Js.toLowerCase m = pre ++ keyword ++ post ->
  (Classifier.no_key env = true ->
     Classifier.classifyMessage env m c s =
       Value.Normal (Classifier.result "urgent" "Contains urgent keywords" true))
  /\ (Classifier.no_key env = false ->
      (exists e, Classifier.ask_oracle env m c s = Value.Throw e) ->
      Classifier.classifyMessage env m c s =
        Value.Normal (Classifier.result "urgent"
          "Contains urgent keywords (AI classification failed)" true)).
Proof.
  intros Hin E.
  assert (H : Classifier.hasUrgentKeyword m = true).
  { apply hasUrgentKeyword_iff. now exists keyword, pre, post. }
  unfold Classifier.classifyMessage. split.
  - intros Hk. now rewrite Hk, H.
  - intros Hk (e & He). now rewrite Hk, He; simpl; rewrite H.
Qed.

Lemma keyword_inside_a_word_is_urgent_witness :
  Classifier.classifyMessage Examples.unconfigured
    "Please download the Countdown deck" "general" "ann" =
    Value.Normal (Classifier.result "urgent" "Contains urgent keywords" true)
  /\ Classifier.classifyMessage Examples.timing_out
    "Please download the Countdown deck" "general" "ann" =
    Value.Normal (Classifier.result "urgent"
      "Contains urgent keywords (AI classification failed)" true).
Proof.
  split.
  - apply (proj1 (keyword_inside_a_word_is_urgent Examples.unconfigured
             "Please download the Countdown deck" "general" "ann"
             "down" "please " "load the countdown deck"
             ltac:(simpl; tauto) eq_refl)).
    reflexivity.
  - apply (proj2 (keyword_inside_a_word_is_urgent Examples.timing_out
             "Please download the Countdown deck" "general" "ann"
             "down" "please download the count" " deck"
             ltac:(simpl; tauto) eq_refl)).
    + reflexivity.
    + exists (Value.Rejected "timeout"). reflexivity.
Defined.

(** ** Sessions *)

Section SessionFacts.
Import Value Focus.

Variable env : Env.

Lemma length_snoc {A} (l : list A) (x : A) : List.length (l ++ [x]) = S (List.length l).
Proof. rewrite length_app. simpl. lia. Qed.

(** The query for the active session: two calls, and no change to the
    tables. *)
Lemma getActiveFocusSession_eq (userId : string) (w : World) :
  let n := List.length (trace w) in
  let now := clock env n in
  getActiveFocusSession env userId w =
    (Normal (if fails env (S n) then None
             else visible userId now (focus_sessions w)),
     Build_World (focus_sessions w) (held_items w) (delivered w)
       (trace w ++ [Now; SelectActive userId now])).
Proof.
  cbv [getActiveFocusSession Date_now mbind perform ret world]. simpl.
  rewrite length_snoc, <- app_assoc. simpl.
  destruct (fails env (S (List.length (trace w)))); reflexivity.
Qed.

(** [endFocusSession], call by call. *)
Lemma endFocusSession_eq (userId : string) (w : World) :
  let n := List.length (trace w) in
  let now := clock env n in
  endFocusSession env userId w =
    match (if fails env (S n) then None
           else visible userId now (focus_sessions w)) with
    | None =>
        (Normal [],
         Build_World (focus_sessions w) (held_items w) (delivered w)
           (trace w ++ [Now; SelectActive userId now]))
    | Some session =>
        (Normal (if fails env (S (S (S n))) then []
                 else held_of (id session) (held_items w)),
         Build_World
           (if fails env (S (S n)) then focus_sessions w
            else deactivate (id session) (focus_sessions w))
           (held_items w) (delivered w)
           (trace w ++ [Now; SelectActive userId now;
                        UpdateInactive (id session); SelectHeld (id session)]))
    end.
Proof.
  intros n now. unfold endFocusSession, mbind at 1.
  rewrite getActiveFocusSession_eq. fold n now.
  destruct (if fails env (S n) then None
            else visible userId now (focus_sessions w)) as [session|];
    [|reflexivity].
  cbv [mbind perform ret world set_sessions]. simpl.
  rewrite length_app. simpl. replace (List.length (trace w) + 2)%nat with (S (S n)) by (unfold n; lia).
  destruct (fails env (S (S n))); simpl;
    rewrite length_snoc, length_app; simpl;
    replace (List.length (trace w) + 2)%nat with (S (S n)) by (unfold n; lia);
    rewrite <- !app_assoc; simpl;
    destruct (fails env (S (S (S n)))); reflexivity.
Qed.

Lemma latest_In (l : list FocusSession) (s : FocusSession) :
  latest l = Some s -> In s l.
Proof.
  revert s; induction l as [|x l IH]; simpl; intros s H; [discriminate|].
  destruct (latest l) as [t|].
  - destruct (started_at x <? started_at t); inversion H; subst; auto.
  - inversion H; auto.
Qed.

(** The session the query returns is a row of the user that is active and
    has not ended. *)
Lemma visible_inv (userId : string) (now : Z) (l : list FocusSession)
    (s : FocusSession) :
  visible userId now l = Some s ->
  In s l /\ user_id s = userId /\ is_active s = true /\ now < ends_at s.
Proof.
  unfold visible. intros H. apply latest_In in H.
  apply filter_In in H as [Hin Ha]. unfold active_for in Ha.
  apply andb_true_iff in Ha as [Ha He]. apply andb_true_iff in Ha as [Hu Ha].
  apply String.eqb_eq in Hu. repeat split; auto. lia.
Qed.

(** After the update no active row bears the identifier. *)
Lemma deactivate_inactive (sessionId : string) (l : list FocusSession)
    (s : FocusSession) :
  In s (deactivate sessionId l) -> is_active s = true -> id s <> sessionId.
Proof.
  unfold deactivate. intros H Ha. apply in_map_iff in H as (x & E & _).
  destruct (String.eqb (id x) sessionId) eqn:Ex.
  - subst s. simpl in Ha. discriminate.
  - subst s. now apply String.eqb_neq.
Qed.

Lemma insert_by_time_In (x h : HeldItem) (l : list HeldItem) :
  In h (insert_by_time x l) -> h = x \/ In h l.
Proof.
  induction l as [|y l IH]; simpl.
  - intros [H|[]]; auto.
  - destruct (received_at y <? received_at x); simpl.
    + intros [H|H]; auto. destruct (IH H); auto.
    + intros [H|[H|H]]; auto.
Qed.

Lemma by_received_In (h : HeldItem) (l : list HeldItem) :
  In h (by_received l) -> In h l.
Proof.
  induction l as [|x l IH]; simpl; [auto|].
  intros H. apply insert_by_time_In in H as [H|H]; auto.
Qed.

Lemma held_of_session (sessionId : string) (l : list HeldItem) (h : HeldItem) :
  In h (held_of sessionId l) -> session_id h = sessionId /\ In h l.
Proof.
  unfold held_of. intros H. apply by_received_In in H.
  apply filter_In in H as [Hin E]. now apply String.eqb_eq in E.
Qed.

End SessionFacts.

(** The items [endFocusSession] returns belong to a session that was
    active in the table when it was called. *)
Lemma endFocusSession_items (env : Focus.Env) (userId : string)
    (w w' : Focus.World) (items : list Focus.HeldItem) (h : Focus.HeldItem) :
  Focus.endFocusSession env userId w = (Value.Normal items, w') ->
  In h items ->
  exists s, In s (Focus.focus_sessions w) /\ Focus.is_active s = true /\
    Focus.session_id h = Focus.id s.
Proof.
  rewrite endFocusSession_eq.
  destruct (Focus.fails env (S (List.length (Focus.trace w)))).
  - intros H; inversion H; subst. intros [].
  - destruct (Focus.visible userId _ (Focus.focus_sessions w)) as [s|] eqn:Ev.
    + intros H; inversion H; subst; clear H. intros Hin.
      destruct (Focus.fails env (S (S (S (List.length (Focus.trace w))))));
        [destruct Hin|].
      apply held_of_session in Hin as [E _].
      apply visible_inv in Ev as (Hs & _ & Ha & _). eauto.
    + intros H; inversion H; subst. intros [].
Qed.

(** [startFocusSession]: the clock, then [endFocusSession], then the
    insert. *)
Lemma startFocusSession_eq (env : Focus.Env) (userId : string)
    (durationMs : Z) (w : Focus.World) :
  let now := Focus.clock env (List.length (Focus.trace w)) in
  let endsAt := now + durationMs in
  Focus.startFocusSession env userId durationMs w =
    match Focus.endFocusSession env userId
            (Focus.Build_World (Focus.focus_sessions w) (Focus.held_items w)
               (Focus.delivered w) (Focus.trace w ++ [Focus.Now])) with
    | (Value.Normal _, w1) =>
        let k := List.length (Focus.trace w1) in
        let call := Focus.InsertSession userId now endsAt in
        if Focus.fails env k
        then (Value.Normal None,
              Focus.Build_World (Focus.focus_sessions w1) (Focus.held_items w1)
                (Focus.delivered w1) (Focus.trace w1 ++ [call]))
        else
          let data :=
            Focus.Build_FocusSession (Focus.fresh_id env k) userId now endsAt
              true (Focus.db_now env k) in
          (Value.Normal (Some data),
           Focus.Build_World (Focus.focus_sessions w1 ++ [data])
             (Focus.held_items w1) (Focus.delivered w1)
             (Focus.trace w1 ++ [call]))
    | (Value.Throw e, w1) => (Value.Throw e, w1)
    end.
Proof.
  cbv [Focus.startFocusSession Focus.Date_now]. unfold Focus.mbind at 1 2.
  cbv [Focus.perform Focus.ret]. unfold Focus.mbind at 1.
  destruct (Focus.endFocusSession env userId _) as [[items|e] w1];
    [|reflexivity].
  cbv [Focus.mbind Focus.perform Focus.ret Focus.world Focus.set_sessions].
  simpl. destruct (Focus.fails env (List.length (Focus.trace w1))); reflexivity.
Qed.

(** C2, as the program has it: with an active session [s] of the user in
    the store and an end time that is a valid date, [startFocusSession]
    first ends that session (the row is set inactive, then its held items
    are read) and only then inserts the new row; what it returns is the
    created session, or null when the insert fails, and the held items
    that were read are dropped. *)
Theorem start_ends_prior_session_first (env : Focus.Env) (userId : string)
    (durationMs : Z) (w : Focus.World) (s : Focus.FocusSession) :
  let n := List.length (Focus.trace w) in
  let now := Focus.clock env n in
  let now' := Focus.clock env (S n) in
  let k := (n + 5)%nat in
  let data :=
    Focus.Build_FocusSession (Focus.fresh_id env k) userId now
      (now + durationMs) true (Focus.db_now env k) in
  Focus.valid_date (now + durationMs) = true ->
  Focus.fails env (n + 2) = false ->
  Focus.visible userId now' (Focus.focus_sessions w) = Some s ->
  Focus.fails env (n + 3) = false ->
  exists w',
    Focus.startFocusSession env userId durationMs w =
      (Value.Normal (if Focus.fails env k then None else Some data), w')
    /\ Focus.trace w' =
         (Focus.trace w ++
          [Focus.Now; Focus.Now; Focus.SelectActive userId now';
           Focus.UpdateInactive (Focus.id s); Focus.SelectHeld (Focus.id s);
           Focus.InsertSession userId now (now + durationMs)])%list
    /\ Focus.focus_sessions w' =
         (Focus.deactivate (Focus.id s) (Focus.focus_sessions w) ++
          (if Focus.fails env k then [] else [data]))%list
    /\ Focus.held_items w' = Focus.held_items w.
Proof.
  intros n now now' k data _ Hsel Hvis Hupd.
  rewrite startFocusSession_eq, endFocusSession_eq. simpl.
  rewrite length_snoc. fold n.
  replace (S (S n)) with (n + 2)%nat by lia.
  replace (S (n + 2)) with (n + 3)%nat by lia.
  rewrite Hsel. fold now'. rewrite Hvis, Hupd. simpl.
  rewrite !length_app. simpl. fold n.
  replace (n + 1 + 4)%nat with k by (unfold k; lia).
  fold now data.
  destruct (Focus.fails env k); eexists; (split; [reflexivity|]); simpl;
    rewrite <- ?app_assoc; simpl; rewrite ?app_nil_r; auto.
Qed.

Lemma start_ends_prior_session_first_witness :
  exists w',
    Focus.startFocusSession Examples.calm "U1" 3600000 Examples.busy =
      (Value.Normal
         (Some (Focus.Build_FocusSession "row-5" "U1" 1000 3601000 true 1000)),
       w')
    /\ Focus.trace w' =
         [Focus.Now; Focus.Now; Focus.SelectActive "U1" 1000;
          Focus.UpdateInactive "s1"; Focus.SelectHeld "s1";
          Focus.InsertSession "U1" 1000 3601000]
    /\ Focus.focus_sessions w' =
         [Focus.Build_FocusSession "s1" "U1" 0 7200000 false 0;
          Focus.Build_FocusSession "row-5" "U1" 1000 3601000 true 1000]
    /\ Focus.held_items w' = [Examples.held "general" "lunch?" 500].
Proof.
  apply (start_ends_prior_session_first Examples.calm "U1" 3600000
           Examples.busy Examples.deep_work); reflexivity.
Defined.

(** C2 as the specification words it fails: [startFocusSession] returns
    the same value whether the prior session holds an item or none, while
    [endFocusSession] returns the item; and the item is not returned by an
    [endFocusSession] that follows either. *)
Lemma start_returns_no_held_items :
  fst (Focus.endFocusSession Examples.calm "U1" Examples.busy) =
    Value.Normal [Examples.held "general" "lunch?" 500]
  /\ fst (Focus.endFocusSession Examples.calm "U1" Examples.quiet) =
    Value.Normal []
  /\ fst (Focus.startFocusSession Examples.calm "U1" 3600000 Examples.busy) =
    fst (Focus.startFocusSession Examples.calm "U1" 3600000 Examples.quiet)
  /\ fst (Focus.startFocusSession Examples.calm "U1" 3600000 Examples.busy) =
    Value.Normal
      (Some (Focus.Build_FocusSession "row-5" "U1" 1000 3601000 true 1000))
  /\ fst (Focus.endFocusSession Examples.calm "U1"
           (snd (Focus.startFocusSession Examples.calm "U1" 3600000
                   Examples.busy))) =
    Value.Normal [].
Proof. repeat split. Qed.

(** C10. [endFocusSession] is not atomic.  With an active session [s]
    found and the update done, a failing read of the held items makes it
    return the empty list: the update was made before the read, the
    session stays inactive, the held items stay in the store, and no later
    [endFocusSession] returns an item of [s]. *)
Theorem end_deactivates_before_reading (env : Focus.Env) (userId : string)
    (w : Focus.World) (s : Focus.FocusSession) :
  let n := List.length (Focus.trace w) in
  let now := Focus.clock env n in
  Focus.fails env (n + 1) = false ->
  Focus.visible userId now (Focus.focus_sessions w) = Some s ->
  Focus.fails env (n + 2) = false ->
  Focus.fails env (n + 3) = true ->
  exists w',
    Focus.endFocusSession env userId w = (Value.Normal [], w')
    /\ Focus.trace w' =
         (Focus.trace w ++
          [Focus.Now; Focus.SelectActive userId now;
           Focus.UpdateInactive (Focus.id s); Focus.SelectHeld (Focus.id s)])%list
    /\ Focus.focus_sessions w' =
         Focus.deactivate (Focus.id s) (Focus.focus_sessions w)
    /\ Focus.held_items w' = Focus.held_items w
    /\ (forall env' userId' items w'' h,
          Focus.endFocusSession env' userId' w' = (Value.Normal items, w'') ->
          In h items -> Focus.session_id h <> Focus.id s).
Proof.
  intros n now Hsel Hvis Hupd Hread.
  rewrite endFocusSession_eq. fold n now.
  replace (S n) with (n + 1)%nat by lia.
  replace (S (n + 1)) with (n + 2)%nat by lia.
  replace (S (n + 2)) with (n + 3)%nat by lia.
  rewrite Hsel, Hvis, Hupd, Hread.
  eexists. split; [reflexivity|]. simpl. repeat split.
  intros env' userId' items w'' h Hend Hin E.
  destruct (endFocusSession_items _ _ _ _ _ _ Hend Hin) as (s' & Hs' & Ha & Eh).
  simpl in Hs'. apply (deactivate_inactive _ _ _ Hs' Ha). congruence.
Qed.

Lemma end_deactivates_before_reading_witness :
  exists w',
    Focus.endFocusSession Examples.fourth_call_fails "U1" Examples.busy =
      (Value.Normal [], w')
    /\ Focus.trace w' =
         [Focus.Now; Focus.SelectActive "U1" 1000;
          Focus.UpdateInactive "s1"; Focus.SelectHeld "s1"]
    /\ Focus.focus_sessions w' =
         [Focus.Build_FocusSession "s1" "U1" 0 7200000 false 0]
    /\ Focus.held_items w' = [Examples.held "general" "lunch?" 500]
    /\ (forall env' userId' items w'' h,
          Focus.endFocusSession env' userId' w' = (Value.Normal items, w'') ->
          In h items -> Focus.session_id h <> "s1").
Proof.
  apply (end_deactivates_before_reading Examples.fourth_call_fails "U1"
           Examples.busy Examples.deep_work); reflexivity.
Defined.

(** ** The [/focus on] command *)

Section CommandFacts.
Import Value Focus Command.

Variable env : Env.

(** [handleFocusOn], branch by branch. *)
Lemma handleFocusOn_eq (userId userName : string) (duration : option string)
    (w : World) :
  handleFocusOn env userId userName duration w =
    match found env userId w with
    | Some existingSession =>
        let now := clock env (List.length (trace w) + 2) in
        (Normal (Build_Response "ephemeral"
                   (already_active_text (ends_at existingSession - now))),
         Build_World (focus_sessions w) (held_items w) (delivered w)
           (trace (queried env userId w) ++ [Now]))
    | None =>
        let durationStr := Duration.or_default duration "2h" in
        match Duration.parseDuration durationStr with
        | None =>
            (Normal (Build_Response "ephemeral" (invalid_format_text durationStr)),
             queried env userId w)
        | Some durationMs =>
            if durationMs =? 0 then
              (Normal (Build_Response "ephemeral"
                         (invalid_format_text durationStr)),
               queried env userId w)
            else if durationMs >? maxDuration then
              (Normal (Build_Response "ephemeral" too_long_text),
               queried env userId w)
            else
              match startFocusSession env userId durationMs
                      (queried env userId w) with
              | (Normal None, w') =>
                  (Normal (Build_Response "ephemeral" start_failed_text), w')
              | (Normal (Some session), w') =>
                  (Normal (Build_Response "ephemeral"
                             (activated_text durationMs
                                (toLocaleTimeString env (ends_at session)))),
                   w')
              | (Throw e, w') => (Throw e, w')
              end
        end
    end.
Proof.
  unfold handleFocusOn, mbind at 1.
  rewrite getActiveFocusSession_eq. unfold found, queried.
  destruct (if fails env (S (List.length (trace w))) then None
            else visible userId _ (focus_sessions w)) as [s|].
  - cbv [mbind Date_now perform ret ephemeral].
    cbn [trace focus_sessions held_items delivered].
    rewrite length_app. reflexivity.
  - destruct (Duration.parseDuration (Duration.or_default duration "2h"))
      as [ms|]; cbn [falsy]; [|reflexivity].
    destruct (ms =? 0); [reflexivity|].
    destruct (ms >? maxDuration); [reflexivity|].
    unfold mbind.
    destruct (startFocusSession env userId ms _) as [[[r|]|e] w'];
      reflexivity.
Qed.




Lemma or_default_given (d : string) :
  Js.nonempty d = true -> Duration.or_default (Some d) "2h" = d.
Proof. simpl. now intros ->. Qed.

End CommandFacts.



(** ** The batch summary *)

Section SummaryFacts.
Import Value Focus.

Lemma group_loop_same_channel (key : string) (seen items : list HeldItem) :
  (forall item, In item items -> channel_key item = key) ->
  group_loop [(key, seen)] items = Normal [(key, (seen ++ items)%list)].
Proof.
  revert seen; induction items as [|item rest IH]; intros seen Hkey.
  - simpl. now rewrite app_nil_r.
  - assert (E : channel_key item = key) by (apply Hkey; left; reflexivity).
    cbn [group_loop]. unfold group_step, read. rewrite E.
    cbn [own write]. rewrite String.eqb_refl. cbn [own write].
    rewrite String.eqb_refl.
    rewrite IH by (intros i Hi; apply Hkey; right; exact Hi).
    now rewrite <- app_assoc.
Qed.

(** The items of one channel whose name no plain object inherits make one
    group. *)
Lemma group_loop_one_channel (key : string) (items : list HeldItem) :
  existsb (String.eqb key) object_prototype_keys = false ->
  items <> [] ->
  (forall item, In item items -> channel_key item = key) ->
  group_loop [] items = Normal [(key, items)].
Proof.
  intros Hplain Hne Hkey. destruct items as [|item rest]; [now elim Hne|].
  assert (E : channel_key item = key) by (apply Hkey; left; reflexivity).
  cbn [group_loop]. unfold group_step, read. rewrite E.
  cbn [own write]. rewrite Hplain. cbn [own write].
  rewrite String.eqb_refl. cbn [own write app].
  rewrite group_loop_same_channel by (intros i Hi; apply Hkey; right; exact Hi).
  reflexivity.
Qed.

Lemma entries_single (e : string * list HeldItem) : entries [e] = [e].
Proof.
  unfold entries. cbn [filter]. destruct (is_index (fst e)); reflexivity.
Qed.

(** Seven held items of one ordinary channel: the header, the channel
    line, five item lines, the line for the two that remain, and the
    closing empty line. *)
Lemma summary_of_seven_ordinary_channel (env : Env) (userId key : string)
    (items : list HeldItem) (w : World) :
  List.length items = 7%nat ->
  (forall item, In item items -> channel_key item = key) ->
  existsb (String.eqb key) object_prototype_keys = false ->
  sendBatchSummary env userId items w =
    sendDM env userId
      (Js.join Js.nl
         (header_lines items ++
          ("*#" ++ key ++ "* (7):")%string ::
          map item_line (firstn 5 items) ++
          ["  _...and 2 more_"; EmptyString])%list) w.
Proof.
  intros Hlen Hkey Hplain. unfold sendBatchSummary.
  destruct items as [|item rest] eqn:Ei; [discriminate|]. rewrite <- Ei in *.
  rewrite (group_loop_one_channel key) by (subst; auto; discriminate).
  unfold summary_lines. rewrite entries_single.
  cbn [flat_map]. rewrite app_nil_r.
  unfold channel_lines, more_line, len. rewrite Hlen.
  reflexivity.
Qed.

(** No held item: the fixed text is what is sent. *)
Lemma summary_of_nothing (env : Env) (userId : string) (w : World) :
  sendBatchSummary env userId [] w = sendDM env userId no_messages_text w.
Proof. reflexivity. Qed.

End SummaryFacts.

(** C8, where the program departs from it: seven held items of the
    channel named constructor.  The grouping object inherits a property
    of that name, the group is never created, and the summary ends in a
    TypeError before any text is composed or sent. *)
Theorem summary_of_seven_in_constructor_channel :
  Focus.sendBatchSummary Examples.calm "U1" (Examples.seven "constructor")
    Examples.idle =
    (Value.Throw (Value.TypeError "byChannel[key].push is not a function"),
     Examples.idle).
Proof. reflexivity. Qed.

(** * Further properties *)

(** ** Durations *)

Section MoreDurationFacts.
Import Js Duration.

Lemma toLowerCase_nonempty (s : string) :
  s <> EmptyString -> exists c r, toLowerCase s = String c r.
Proof. destruct s as [|c r]; [congruence|]. simpl. eauto. Qed.

Lemma formatDuration_floor (ms : Z) :
  formatDuration ms = formatDuration (ms / 60000 * 60000).
Proof. unfold formatDuration. now rewrite Z.div_mul by lia. Qed.

End MoreDurationFacts.

(** X1. A duration that [parseDuration] returns is never negative, and
    below 2^53 it is a whole number of minutes. *)
Theorem parseDuration_whole_minutes (s : string) (ms : Z) :
  Duration.parseDuration s = Some ms ->
  0 <= ms /\ (ms < 2 ^ 53 -> ms mod 60000 = 0).
Proof.
  intros E. destruct (parseDuration_some_shaped _ _ E) as (h & m & Hs).
  rewrite (parseDuration_shaped _ _ _ Hs) in E.
  destruct Hs as (Hh & Hm & _).
  pose proof (value_nonneg _ Hh) as Vh. pose proof (value_nonneg _ Hm) as Vm.
  assert (ms = Duration.computed (Duration.value h) (Duration.value m))
    by (destruct h, m; congruence).
  subst ms. split; [now apply computed_nonneg|].
  intros Hlt. rewrite computed_small_inv by assumption.
  apply Z.mod_mul; lia.
Qed.

Lemma parseDuration_whole_minutes_witness :
  0 <= 5400000 /\ (5400000 < 2 ^ 53 -> 5400000 mod 60000 = 0).
Proof. apply (parseDuration_whole_minutes "1h30m" 5400000). reflexivity. Defined.

(** X2. Nothing may follow the minute part: an integer, the letter m and
    any further text (an hour part, a space, a second minute part) is no
    match. *)
Theorem parseDuration_nothing_after_minutes (d rest : string) :
  Duration.is_integer d = true -> rest <> EmptyString ->
  Duration.parseDuration (d ++ "m" ++ rest) = None.
Proof.
  intros Hd Hr. unfold Duration.parseDuration.
  destruct (is_integer_inv _ Hd) as (Hall & _).
  destruct (digits_plain _ Hall) as [_ Hl].
  destruct (toLowerCase_nonempty _ Hr) as (c & r & Er).
  rewrite !toLowerCase_app, Hl, Er. cbn [Js.toLowerCase append].
  change (Js.lower_char "m") with "m"%char.
  unfold Duration.match_duration.
  rewrite opt_group_skipped_other by (reflexivity || discriminate || assumption).
  rewrite opt_group_taken by (reflexivity || assumption).
  reflexivity.
Qed.

Lemma parseDuration_nothing_after_minutes_witness :
  Duration.parseDuration "30m1h" = None.
Proof.
  apply (parseDuration_nothing_after_minutes "30" "1h");
    [reflexivity | discriminate].
Defined.

(** X3. A negative amount, above -2^53, is rendered as its minutes
    rounded down, followed by m: hours are never shown for it. *)
Theorem formatDuration_negative (ms : Z) :
  - 2 ^ 53 < ms < 0 ->
  Duration.formatDuration ms = Js.show (ms / 60000) ++ "m".
Proof.
  intros [_ H]. unfold Duration.formatDuration.
  assert (ms / 60000 < 0) by (apply Z.div_lt_upper_bound; lia).
  assert (ms / 60000 / 60 < 0) by (apply Z.div_lt_upper_bound; lia).
  destruct (ms / 60000 / 60 >? 0) eqn:E; [lia|]. reflexivity.
Qed.

Lemma formatDuration_negative_witness :
  Duration.formatDuration (-3600001) = "-61m".
Proof. apply (formatDuration_negative (-3600001)). split; reflexivity. Defined.

(** X4. For an amount from 0 to below 2^53, [formatDuration] drops what
    is less than a minute, and what it prints, its space apart, parses to
    the amount rounded down to the minute. *)
Theorem formatDuration_then_parse (ms : Z) :
  0 <= ms < 2 ^ 53 ->
  Duration.formatDuration ms = Duration.normalized (ms / 60000)
  /\ Duration.parseDuration (Js.without_spaces (Duration.formatDuration ms)) =
       Some (ms - ms mod 60000).
Proof.
  intros [H Hlt].
  assert (Hq : 0 <= ms / 60000) by (apply Z.div_pos; lia).
  pose proof (Z.div_mod ms 60000 ltac:(lia)) as Ed.
  pose proof (Z.mod_pos_bound ms 60000 ltac:(lia)) as Em.
  rewrite formatDuration_floor, formatDuration_minutes by assumption.
  split; [reflexivity|].
  rewrite parseDuration_normalized by (assumption || lia). f_equal. lia.
Qed.

Lemma formatDuration_then_parse_witness :
  Duration.formatDuration 5459999 = "1h 30m"
  /\ Duration.parseDuration (Js.without_spaces (Duration.formatDuration 5459999)) =
       Some 5400000.
Proof. apply (formatDuration_then_parse 5459999). split; [lia | reflexivity]. Defined.

(** ** The classifier *)

Section MoreClassifierFacts.
Import Js Value Classifier Template.

Lemma lower_char_idem (c : ascii) : lower_char (lower_char c) = lower_char c.
Proof.
  unfold lower_char. destruct (is_upper c) eqn:E; [|now rewrite E].
  unfold is_upper in *. apply andb_true_iff in E as [E1 E2].
  apply Nat.leb_le in E1, E2.
  rewrite nat_ascii_embedding by lia.
  destruct (65 <=? nat_of_ascii c + 32)%nat; [|reflexivity].
  destruct (nat_of_ascii c + 32 <=? 90)%nat eqn:E3; [|reflexivity].
  apply Nat.leb_le in E3. lia.
Qed.

Lemma toLowerCase_idem (s : string) : toLowerCase (toLowerCase s) = toLowerCase s.
Proof.
  induction s as [|c s IH]; simpl; [reflexivity|].
  now rewrite lower_char_idem, IH.
Qed.

Lemma no_brace_app (a b : string) :
  no_brace (a ++ b) = no_brace a && no_brace b.
Proof.
  induction a as [|c a IH]; simpl; [reflexivity|].
  now rewrite IH, andb_assoc.
Qed.

Lemma drop_app (a b : string) : drop (String.length a) (a ++ b) = b.
Proof. induction a as [|c a IH]; simpl; [now destruct b | exact IH]. Qed.

(** A pattern that opens with a brace is not found in a text without
    one, and the search goes on behind it. *)
Lemma find_skip (pat' a s : string) :
  no_brace a = true ->
  find (String "{" pat') (a ++ s) =
    match find (String "{" pat') s with
    | Some (pre, post) => Some (a ++ pre, post)
    | None => None
    end.
Proof.
  intros H. induction a as [|c a IH].
  - simpl append. now destruct (find (String "{" pat') s) as [[pre post]|].
  - simpl in H. apply andb_true_iff in H as [Hc Ha].
    specialize (IH Ha). cbn [append find starts_with].
    rewrite Ascii.eqb_sym. apply negb_true_iff in Hc. rewrite Hc.
    cbn [andb]. rewrite IH.
    now destruct (find (String "{" pat') s) as [[pre post]|].
Qed.

Lemma find_here (pat s : string) :
  find pat (pat ++ s) = Some (EmptyString, s).
Proof.
  destruct (pat ++ s) eqn:E; cbn [find]; rewrite <- E;
    now rewrite starts_with_app, drop_app.
Qed.

Lemma expand_plain (rep matched pre post : string) :
  no_dollar rep = true -> expand rep matched pre post = rep.
Proof.
  induction rep as [|c rep IH]; simpl; [reflexivity|].
  intros H. apply andb_true_iff in H as [Hc Hr].
  apply negb_true_iff in Hc. rewrite Hc. now rewrite IH.
Qed.

(** A placeholder behind a text without braces is replaced by a text
    without dollar signs as it stands. *)
Lemma replace_placeholder (a name rest rep : string) :
  no_brace a = true -> no_dollar rep = true ->
  replace (a ++ String "{" name ++ rest) (String "{" name) rep =
    a ++ rep ++ rest.
Proof.
  intros Ha Hr. unfold replace.
  rewrite find_skip by assumption.
  change (String "{" name ++ rest) with ((String "{" name) ++ rest).
  rewrite find_here, append_empty_r.
  now rewrite expand_plain.
Qed.

Lemma prompt_parts :
  CLASSIFICATION_PROMPT =
    before_channel ++ "{channel_name}" ++ before_sender ++ "{sender_name}"
    ++ before_message ++ "{message_text}" ++ after_message.
Proof. vm_compute. reflexivity. Qed.

End MoreClassifierFacts.

(** X5. An answer of the oracle that parses to null, a boolean, a number
    or a string is treated as a failure: the keyword fallback for a failed
    call decides. *)
Theorem scalar_answer_falls_back (env : Classifier.Env) (m c s : string)
    (b : Classifier.ContentBlock) (rest : list Classifier.ContentBlock)
    (v : Value.jsval) :
  Classifier.no_key env = false ->
  Classifier.messages_create env (Classifier.request m c s) =
    Value.Normal (b :: rest) ->
  Classifier.type b = "text" ->
  Classifier.JSON_parse env (Classifier.text b) = Value.Normal v ->
  match v with
  | Value.VObj _ | Value.VArr _ _ => False
  | _ => True
  end ->
  Classifier.classifyMessage env m c s =
    Value.Normal
      (if Classifier.hasUrgentKeyword m
       then Classifier.result "urgent"
              "Contains urgent keywords (AI classification failed)" true
       else Classifier.result "medium"
              "Default classification (AI classification failed)" false).
Proof.
  intros Hk Hc Ht Hp Hv.
  unfold Classifier.classifyMessage, Classifier.ask_oracle.
  rewrite Hk, Hc. simpl. rewrite Ht, Hp.
  destruct v; try contradiction; simpl;
    destruct (Classifier.hasUrgentKeyword m); reflexivity.
Qed.

(** X6. The answer of the oracle is not checked for its fields: an array,
    or an object without urgency, is returned as the result, with
    shouldInterrupt false and no urgency in it. *)
Theorem answer_without_urgency_is_returned (env : Classifier.Env)
    (m c s : string) (b : Classifier.ContentBlock)
    (rest : list Classifier.ContentBlock) (v : Value.jsval) :
  Classifier.no_key env = false ->
  Classifier.messages_create env (Classifier.request m c s) =
    Value.Normal (b :: rest) ->
  Classifier.type b = "text" ->
  Classifier.JSON_parse env (Classifier.text b) = Value.Normal v ->
  (exists elems, v = Value.VArr elems [])
  \/ (exists props, v = Value.VObj props /\
        Value.lookup "urgency" props = None) ->
  exists r,
    Classifier.classifyMessage env m c s = Value.Normal r
    /\ Value.get r "urgency" = Value.Normal Value.VUndefined
    /\ Value.get r "shouldInterrupt" = Value.Normal (Value.VBool false).
Proof.
  intros Hk Hc Ht Hp Hv.
  unfold Classifier.classifyMessage, Classifier.ask_oracle.
  rewrite Hk, Hc. simpl. rewrite Ht, Hp.
  destruct Hv as [(elems & ->) | (props & -> & Hu)].
  - eexists. split; [reflexivity|]. split; reflexivity.
  - cbn [negb Value.bind Value.get Value.try_catch]. rewrite Hu.
    cbn [Value.opt_val Value.bind Value.is_string Value.set Value.try_catch].
    eexists. split; [reflexivity|]. cbn [Value.get].
    rewrite lookup_assign_same.
    rewrite lookup_assign_other by discriminate. rewrite Hu.
    split; reflexivity.
Qed.

(** X7. The keyword scan does not depend on the case of the letters, and
    text put before or after a message that matches does not undo the
    match. *)
Theorem keyword_scan_is_stable (m before after : string) :
  Classifier.hasUrgentKeyword (Js.toLowerCase m) =
    Classifier.hasUrgentKeyword m
  /\ (Classifier.hasUrgentKeyword m = true ->
      Classifier.hasUrgentKeyword (before ++ m ++ after) = true).
Proof.
  split.
  - unfold Classifier.hasUrgentKeyword. now rewrite toLowerCase_idem.
  - intros H. apply hasUrgentKeyword_iff in H as (k & pre & post & Hin & E).
    apply hasUrgentKeyword_iff.
    exists k, (Js.toLowerCase before ++ pre), (post ++ Js.toLowerCase after).
    split; [assumption|].
    rewrite !toLowerCase_app, E, !append_assoc. reflexivity.
Qed.

Lemma keyword_scan_is_stable_witness :
  Classifier.hasUrgentKeyword ("re: " ++ "Site is DOWN" ++ " (fwd)") = true.
Proof.
  apply (proj2 (keyword_scan_is_stable "Site is DOWN" "re: " " (fwd)")).
  reflexivity.
Defined.

(** X8. When the channel name and the sender name hold no opening brace
    and none of the three texts holds a dollar sign, the prompt sent to
    the oracle is the template with the three texts in the places of the
    placeholders, as they stand. *)
Theorem prompt_carries_the_fields (m c s : string) :
  Template.no_brace c = true -> Template.no_brace s = true ->
  Template.no_dollar c = true -> Template.no_dollar s = true ->
  Template.no_dollar m = true ->
  Classifier.content (Classifier.request m c s) =
    Template.before_channel ++ c ++ Template.before_sender ++ s
    ++ Template.before_message ++ m ++ Template.after_message.
Proof.
  intros Bc Bs Dc Ds Dm. unfold Classifier.request. cbn [Classifier.content].
  rewrite prompt_parts.
  rewrite (replace_placeholder Template.before_channel "channel_name}")
    by (assumption || reflexivity).
  set (tail2 := Template.before_message ++ "{message_text}"
                ++ Template.after_message).
  replace (Template.before_channel ++ c ++ Template.before_sender
           ++ "{sender_name}" ++ tail2)
    with ((Template.before_channel ++ c ++ Template.before_sender)
          ++ "{sender_name}" ++ tail2)
    by (now rewrite !append_assoc).
  rewrite (replace_placeholder _ "sender_name}");
    [| rewrite !no_brace_app, Bc; reflexivity | assumption].
  subst tail2.
  replace ((Template.before_channel ++ c ++ Template.before_sender) ++ s
           ++ Template.before_message ++ "{message_text}"
           ++ Template.after_message)
    with ((Template.before_channel ++ c ++ Template.before_sender ++ s
           ++ Template.before_message)
          ++ "{message_text}" ++ Template.after_message)
    by (now rewrite !append_assoc).
  rewrite (replace_placeholder _ "message_text}");
    [| rewrite !no_brace_app, Bc, Bs; reflexivity | assumption].
  now rewrite !append_assoc.
Qed.

Lemma prompt_carries_the_fields_witness :
  Classifier.content (Classifier.request "lunch?" "general" "ann") =
    Template.before_channel ++ "general" ++ Template.before_sender ++ "ann"
    ++ Template.before_message ++ "lunch?" ++ Template.after_message.
Proof.
  apply (prompt_carries_the_fields "lunch?" "general" "ann"); reflexivity.
Defined.

(** ** Sessions *)

Section MoreSessionFacts.
Import Value Focus.

Lemma latest_max (l : list FocusSession) (s : FocusSession) :
  latest l = Some s ->
  forall x, In x l -> started_at x <= started_at s.
Proof.
  revert s; induction l as [|y l IH]; simpl; intros s H x Hx; [destruct Hx|].
  destruct (latest l) as [t|] eqn:El.
  - destruct (started_at y <? started_at t) eqn:E;
      inversion H; subst; clear H; destruct Hx as [->|Hx].
    + apply Z.ltb_lt in E. lia.
    + now apply IH.
    + lia.
    + apply Z.ltb_ge in E. specialize (IH _ eq_refl _ Hx). lia.
  - inversion H; subst; clear H. destruct Hx as [->|Hx]; [lia|].
    destruct l; [destruct Hx|]. simpl in El.
    destruct (latest l); [destruct (_ <? _)|]; discriminate.
Qed.

Lemma latest_none (l : list FocusSession) : latest l = None -> l = [].
Proof.
  destruct l as [|y l]; [reflexivity|]. simpl.
  destruct (latest l); [destruct (_ <? _)|]; discriminate.
Qed.

Lemma filter_none {A} (f : A -> bool) (l : list A) :
  (forall x, In x l -> f x = false) -> filter f l = [].
Proof.
  induction l as [|x l IH]; intros H; [reflexivity|]. simpl.
  rewrite (H x) by (left; reflexivity). apply IH. intros y Hy. apply H. now right.
Qed.

Lemma active_for_iff (userId : string) (now : Z) (s : FocusSession) :
  active_for userId now s = true <->
  user_id s = userId /\ is_active s = true /\ now < ends_at s.
Proof.
  unfold active_for. rewrite !andb_true_iff, String.eqb_eq, Z.gtb_lt. tauto.
Qed.

(** A row that qualifies later qualified before. *)
Lemma active_for_earlier (userId : string) (now now' : Z) (s : FocusSession) :
  now <= now' -> active_for userId now' s = true ->
  active_for userId now s = true.
Proof. rewrite !active_for_iff. intuition lia. Qed.

Lemma visible_none (userId : string) (now : Z) (l : list FocusSession) :
  visible userId now l = None <->
  (forall s, In s l -> active_for userId now s = false).
Proof.
  unfold visible. split.
  - intros H s Hs. apply latest_none in H.
    destruct (active_for userId now s) eqn:E; [|reflexivity].
    assert (In s (filter (active_for userId now) l))
      by (apply filter_In; auto).
    rewrite H in *. contradiction.
  - intros H. now rewrite filter_none.
Qed.

Lemma insert_by_time_perm (x : HeldItem) (l : list HeldItem) :
  Permutation (insert_by_time x l) (x :: l).
Proof.
  induction l as [|y l IH]; simpl; [reflexivity|].
  destruct (received_at y <? received_at x); [|reflexivity].
  rewrite IH. apply perm_swap.
Qed.

Lemma by_received_perm (l : list HeldItem) : Permutation (by_received l) l.
Proof.
  induction l as [|x l IH]; simpl; [reflexivity|].
  rewrite insert_by_time_perm. now constructor.
Qed.

Lemma insert_by_time_sorted (x : HeldItem) (l : list HeldItem) :
  StronglySorted Order.earlier l -> StronglySorted Order.earlier (insert_by_time x l).
Proof.
  induction 1 as [|y l Hs IH Hy]; simpl.
  - repeat constructor.
  - destruct (received_at y <? received_at x) eqn:E.
    + constructor; [exact IH|].
      rewrite Forall_forall in *. intros z Hz.
      apply insert_by_time_In in Hz as [->|Hz]; [|now apply Hy].
      apply Z.ltb_lt in E. unfold Order.earlier. lia.
    + apply Z.ltb_ge in E. constructor; [now constructor|].
      constructor; [exact E|].
      rewrite Forall_forall in *. intros z Hz. specialize (Hy z Hz).
      unfold Order.earlier in *. lia.
Qed.

Lemma by_received_sorted (l : list HeldItem) :
  StronglySorted Order.earlier (by_received l).
Proof.
  induction l as [|x l IH]; simpl; [constructor|].
  now apply insert_by_time_sorted.
Qed.

End MoreSessionFacts.

(** X9. [getActiveFocusSession] changes neither table; a session it
    returns is a row of the user that is active and ends after the time
    of the query, and no such row was started later; when the query
    answers and returns none, no row of the user is active and
    unended. *)
Theorem getActive_returns_the_latest_unexpired (env : Focus.Env)
    (userId : string) (w : Focus.World) :
  let now := Focus.clock env (List.length (Focus.trace w)) in
  exists session w',
    Focus.getActiveFocusSession env userId w = (Value.Normal session, w')
    /\ Focus.focus_sessions w' = Focus.focus_sessions w
    /\ Focus.held_items w' = Focus.held_items w
    /\ match session with
       | Some s =>
           In s (Focus.focus_sessions w) /\ Focus.user_id s = userId /\
           Focus.is_active s = true /\ now < Focus.ends_at s /\
           (forall s', In s' (Focus.focus_sessions w) ->
              Focus.user_id s' = userId -> Focus.is_active s' = true ->
              now < Focus.ends_at s' ->
              Focus.started_at s' <= Focus.started_at s)
       | None =>
           Focus.fails env (S (List.length (Focus.trace w))) = false ->
           forall s', In s' (Focus.focus_sessions w) ->
             Focus.user_id s' = userId -> Focus.is_active s' = true ->
             Focus.ends_at s' <= now
       end.
Proof.
  intros now. rewrite getActiveFocusSession_eq. fold now.
  do 2 eexists. split; [reflexivity|]. cbn [Focus.focus_sessions Focus.held_items].
  split; [reflexivity|]. split; [reflexivity|].
  destruct (Focus.fails env _); [discriminate|].
  destruct (Focus.visible userId now (Focus.focus_sessions w)) as [s|] eqn:E.
  - pose proof (visible_inv _ _ _ _ E) as (Hin & Hu & Ha & He).
    repeat split; auto. intros s' Hs' Hu' Ha' He'.
    unfold Focus.visible in E. apply (latest_max _ _ E).
    apply filter_In. split; [assumption|]. apply active_for_iff. auto.
  - intros _ s' Hs' Hu' Ha'.
    pose proof (proj1 (visible_none _ _ _) E s' Hs') as F.
    destruct (Z.le_gt_cases (Focus.ends_at s') now) as [|Hgt]; [assumption|].
    assert (Focus.active_for userId now s' = true)
      by (apply active_for_iff; repeat split; auto; lia).
    congruence.
Qed.

(** X10. When every row of the user is inactive or has ended by the time
    of the query, also with held items waiting for it, [endFocusSession]
    returns the empty list and writes nothing: the two calls of the query
    are all it makes. *)
Theorem end_without_live_session (env : Focus.Env) (userId : string)
    (w : Focus.World) :
  let now := Focus.clock env (List.length (Focus.trace w)) in
  (forall s, In s (Focus.focus_sessions w) -> Focus.user_id s = userId ->
     Focus.is_active s = true -> Focus.ends_at s <= now) ->
  Focus.endFocusSession env userId w =
    (Value.Normal [],
     Focus.Build_World (Focus.focus_sessions w) (Focus.held_items w)
       (Focus.delivered w)
       (Focus.trace w ++ [Focus.Now; Focus.SelectActive userId now])).
Proof.
  intros now H. rewrite endFocusSession_eq. fold now.
  assert (E : Focus.visible userId now (Focus.focus_sessions w) = None).
  { apply visible_none. intros s Hs.
    destruct (Focus.active_for userId now s) eqn:F; [|reflexivity].
    apply active_for_iff in F as (Hu & Ha & He).
    specialize (H s Hs Hu Ha). lia. }
  rewrite E. destruct (Focus.fails env _); reflexivity.
Qed.

Lemma end_without_live_session_witness :
  Focus.endFocusSession Examples.calm "U1" Samples.lapsed =
    (Value.Normal [],
     Focus.Build_World [Samples.short_work]
       [Examples.held "general" "lunch?" 500] []
       [Focus.Now; Focus.SelectActive "U1" 1000]).
Proof.
  apply (end_without_live_session Examples.calm "U1" Samples.lapsed).
  intros s [<-|[]] _ _. simpl. lia.
Defined.

(** X11. With the active session found and the read of the held items
    answered, [endFocusSession] returns exactly the held items of that
    session, each once, ordered by the time they were received. *)
Theorem end_returns_the_items_in_order (env : Focus.Env) (userId : string)
    (w : Focus.World) (s : Focus.FocusSession) :
  let n := List.length (Focus.trace w) in
  Focus.fails env (n + 1) = false ->
  Focus.visible userId (Focus.clock env n) (Focus.focus_sessions w) = Some s ->
  Focus.fails env (n + 3) = false ->
  exists items w',
    Focus.endFocusSession env userId w = (Value.Normal items, w')
    /\ StronglySorted Order.earlier items
    /\ Permutation items
         (filter (fun h => String.eqb (Focus.session_id h) (Focus.id s))
            (Focus.held_items w)).
Proof.
  intros n Hsel Hvis Hread. rewrite endFocusSession_eq. fold n.
  replace (S n) with (n + 1)%nat by lia.
  replace (S (n + 1)) with (n + 2)%nat by lia.
  replace (S (n + 2)) with (n + 3)%nat by lia.
  rewrite Hsel, Hvis, Hread. do 2 eexists. split; [reflexivity|].
  unfold Focus.held_of. split; [apply by_received_sorted | apply by_received_perm].
Qed.

Lemma end_returns_the_items_in_order_witness :
  exists items w',
    Focus.endFocusSession Examples.calm "U1" Samples.crowded =
      (Value.Normal items, w')
    /\ StronglySorted Order.earlier items
    /\ Permutation items
         [Examples.held "general" "second" 900;
          Examples.held "random" "first" 300].
Proof.
  apply (end_returns_the_items_in_order Examples.calm "U1" Samples.crowded
           Examples.deep_work); reflexivity.
Defined.

Lemma getActive_returns_the_latest_unexpired_witness :
  exists session w',
    Focus.getActiveFocusSession Examples.calm "U1" Examples.busy =
      (Value.Normal session, w')
    /\ Focus.focus_sessions w' = [Examples.deep_work]
    /\ Focus.held_items w' = [Examples.held "general" "lunch?" 500]
    /\ match session with
       | Some s =>
           In s [Examples.deep_work] /\ Focus.user_id s = "U1" /\
           Focus.is_active s = true /\ 1000 < Focus.ends_at s /\
           (forall s', In s' [Examples.deep_work] ->
              Focus.user_id s' = "U1" -> Focus.is_active s' = true ->
              1000 < Focus.ends_at s' ->
              Focus.started_at s' <= Focus.started_at s)
       | None =>
           false = false ->
           forall s', In s' [Examples.deep_work] ->
             Focus.user_id s' = "U1" -> Focus.is_active s' = true ->
             Focus.ends_at s' <= 1000
       end.
Proof.
  exact (getActive_returns_the_latest_unexpired Examples.calm "U1" Examples.busy).
Defined.

Section SingleActiveFacts.
Import Value Focus.

(** Of the rows that were there, none qualifies once the session found
    has been set inactive, if it was the only one that qualified. *)
Lemma deactivate_clears (userId : string) (now now' : Z)
    (l : list FocusSession) (s : FocusSession) :
  (List.length (filter (active_for userId now) l) <= 1)%nat ->
  visible userId now l = Some s ->
  now <= now' ->
  filter (active_for userId now') (deactivate (id s) l) = [].
Proof.
  intros Hone Hvis Hle. apply filter_none. intros x Hx.
  destruct (active_for userId now' x) eqn:E; [|reflexivity]. exfalso.
  unfold deactivate in Hx. apply in_map_iff in Hx as (y & Ey & Hy).
  destruct (String.eqb (id y) (id s)) eqn:Eid.
  - subst x. apply active_for_iff in E as (_ & Ha & _). discriminate.
  - subst x. apply (active_for_earlier _ _ _ _ Hle) in E.
    assert (Hy' : In y (filter (active_for userId now) l))
      by (apply filter_In; auto).
    assert (Hs' : In s (filter (active_for userId now) l))
      by (apply latest_In; exact Hvis).
    destruct (filter (active_for userId now) l) as [|a [|b r]];
      [destruct Hy' | | simpl in Hone; lia].
    destruct Hy' as [<-|[]]. destruct Hs' as [<-|[]].
    rewrite String.eqb_refl in Eid. discriminate.
Qed.

Lemma visible_none_clears (userId : string) (now now' : Z)
    (l : list FocusSession) :
  visible userId now l = None -> now <= now' ->
  filter (active_for userId now') l = [].
Proof.
  intros Hvis Hle. apply filter_none. intros x Hx.
  destruct (active_for userId now' x) eqn:E; [|reflexivity].
  apply (active_for_earlier _ _ _ _ Hle) in E.
  rewrite (proj1 (visible_none _ _ _) Hvis x Hx) in E. discriminate.
Qed.

End SingleActiveFacts.

(** X12. When no store call fails, the end time is a valid date and at
    most one row of the user is active and unended at the time of the
    query, then after [startFocusSession] the created session is the
    only row of the user that is active and unended, at every time from
    the query on until it ends, and afterwards there is none. *)
Theorem start_keeps_one_live_session (env : Focus.Env) (userId : string)
    (durationMs : Z) (w : Focus.World) :
  let n := List.length (Focus.trace w) in
  let asked := Focus.clock env (S n) in
  Focus.valid_date (Focus.clock env n + durationMs) = true ->
  (forall k, Focus.fails env k = false) ->
  (List.length (filter (Focus.active_for userId asked)
                  (Focus.focus_sessions w)) <= 1)%nat ->
  exists data w',
    Focus.startFocusSession env userId durationMs w =
      (Value.Normal (Some data), w')
    /\ Focus.user_id data = userId
    /\ Focus.ends_at data = Focus.clock env n + durationMs
    /\ forall later, asked <= later ->
         filter (Focus.active_for userId later) (Focus.focus_sessions w') =
           if Focus.ends_at data >? later then [data] else [].
Proof.
  intros n asked _ Hok Hone.
  rewrite startFocusSession_eq, endFocusSession_eq.
  cbn [Focus.trace Focus.focus_sessions Focus.held_items Focus.delivered].
  rewrite length_snoc. fold n asked. rewrite !Hok.
  destruct (Focus.visible userId asked (Focus.focus_sessions w)) as [s|] eqn:Ev;
    cbv zeta; cbn [Focus.trace Focus.focus_sessions]; rewrite Hok;
    do 2 eexists; (split; [reflexivity|]);
    (split; [reflexivity|]); (split; [reflexivity|]);
    intros later Hle; cbn [Focus.focus_sessions]; rewrite filter_app.
  - rewrite (deactivate_clears _ _ _ _ _ Hone Ev Hle).
    cbn [filter app]. unfold Focus.active_for.
    cbn [Focus.user_id Focus.is_active Focus.ends_at].
    rewrite String.eqb_refl. reflexivity.
  - rewrite (visible_none_clears _ _ _ _ Ev Hle).
    cbn [filter app]. unfold Focus.active_for.
    cbn [Focus.user_id Focus.is_active Focus.ends_at].
    rewrite String.eqb_refl. reflexivity.
Qed.

Lemma start_keeps_one_live_session_witness :
  exists data w',
    Focus.startFocusSession Examples.calm "U1" 3600000 Examples.busy =
      (Value.Normal (Some data), w')
    /\ Focus.user_id data = "U1"
    /\ Focus.ends_at data = 1000 + 3600000
    /\ forall later, 1000 <= later ->
         filter (Focus.active_for "U1" later) (Focus.focus_sessions w') =
           if Focus.ends_at data >? later then [data] else [].
Proof.
  apply (start_keeps_one_live_session Examples.calm "U1" 3600000 Examples.busy).
  - reflexivity.
  - reflexivity.
  - simpl. lia.
Defined.

(** X13. A message held for the session that is active is among the
    items the next [endFocusSession] of the user returns, together with
    every item held for that session before (the insert, the query and
    the read being answered). *)
Theorem held_message_comes_back (env : Focus.Env) (userId : string)
    (w : Focus.World) (s : Focus.FocusSession)
    (channelId channelName senderId senderName messageText messageTs
     urgency reason : string) :
  let n := List.length (Focus.trace w) in
  let item :=
    Focus.Build_HeldItem (Focus.fresh_id env n) (Focus.id s) channelId
      channelName senderId senderName messageText messageTs urgency reason
      (Focus.db_now env n) in
  Focus.fails env n = false ->
  Focus.fails env (n + 2) = false ->
  Focus.visible userId (Focus.clock env (n + 1)) (Focus.focus_sessions w) =
    Some s ->
  Focus.fails env (n + 4) = false ->
  exists w1 items w2,
    Focus.holdMessage env (Focus.id s) channelId channelName senderId
      senderName messageText messageTs urgency reason w = (Value.Normal tt, w1)
    /\ Focus.endFocusSession env userId w1 = (Value.Normal items, w2)
    /\ In item items
    /\ (forall h, In h (Focus.held_items w) ->
          Focus.session_id h = Focus.id s -> In h items).
Proof.
  intros n item Hins Hsel Hvis Hread.
  exists (Focus.Build_World (Focus.focus_sessions w)
            (Focus.held_items w ++ [item]) (Focus.delivered w)
            (Focus.trace w ++ [Focus.InsertHeld (Focus.id s) messageTs])).
  assert (Eh : Focus.holdMessage env (Focus.id s) channelId channelName
                 senderId senderName messageText messageTs urgency reason w =
               (Value.Normal tt,
                Focus.Build_World (Focus.focus_sessions w)
                  (Focus.held_items w ++ [item]) (Focus.delivered w)
                  (Focus.trace w ++
                   [Focus.InsertHeld (Focus.id s) messageTs]))).
  { cbv [Focus.holdMessage Focus.mbind Focus.perform Focus.ret Focus.world
         Focus.set_held].
    cbn [Focus.trace Focus.focus_sessions Focus.held_items Focus.delivered].
    fold n. rewrite Hins. reflexivity. }
  rewrite Eh. rewrite endFocusSession_eq.
  cbn [Focus.trace Focus.focus_sessions Focus.held_items Focus.delivered].
  rewrite length_snoc. fold n.
  replace (S (S n)) with (n + 2)%nat by lia.
  replace (S n) with (n + 1)%nat by lia.
  replace (S (n + 2)) with (n + 3)%nat by lia.
  replace (S (n + 3)) with (n + 4)%nat by lia.
  rewrite Hsel, Hvis, Hread. do 2 eexists. split; [reflexivity|].
  split; [reflexivity|].
  assert (P := by_received_perm
                 (filter (fun h => String.eqb (Focus.session_id h) (Focus.id s))
                    (Focus.held_items w ++ [item]))).
  unfold Focus.held_of. split.
  - apply (Permutation_in _ (Permutation_sym P)).
    apply filter_In. split; [apply in_or_app; right; left; reflexivity|].
    apply String.eqb_refl.
  - intros h Hh Eid. apply (Permutation_in _ (Permutation_sym P)).
    apply filter_In. split; [apply in_or_app; now left|].
    now apply String.eqb_eq.
Qed.

Lemma held_message_comes_back_witness :
  exists w1 items w2,
    Focus.holdMessage Examples.calm "s1" "C7" "random" "U3" "eve"
      "any news?" "1700000001.0001" "medium" "question" Examples.busy =
      (Value.Normal tt, w1)
    /\ Focus.endFocusSession Examples.calm "U1" w1 = (Value.Normal items, w2)
    /\ In (Focus.Build_HeldItem "row-0" "s1" "C7" "random" "U3" "eve"
             "any news?" "1700000001.0001" "medium" "question" 1000) items
    /\ (forall h, In h [Examples.held "general" "lunch?" 500] ->
          Focus.session_id h = "s1" -> In h items).
Proof.
  apply (held_message_comes_back Examples.calm "U1" Examples.busy
           Examples.deep_work); reflexivity.
Defined.

(** ** The batch summary *)

Section GroupingFacts.
Import Value Focus Order.

Lemma own_write_same (k : string) (v : list HeldItem) (g : groups) :
  own k (write k v g) = Some v.
Proof.
  induction g as [|[k' v'] g IH]; simpl.
  - now rewrite String.eqb_refl.
  - destruct (String.eqb k k') eqn:E; simpl; rewrite E; auto.
Qed.

Lemma write_write (k : string) (v v' : list HeldItem) (g : groups) :
  write k v' (write k v g) = write k v' g.
Proof.
  induction g as [|[k0 v0] g IH]; simpl.
  - now rewrite String.eqb_refl.
  - destruct (String.eqb k k0) eqn:E; simpl; rewrite E; [reflexivity|].
    now rewrite IH.
Qed.

Lemma write_absent (k : string) (v : list HeldItem) (g : groups) :
  own k g = None -> write k v g = (g ++ [(k, v)])%list.
Proof.
  induction g as [|[k0 v0] g IH]; simpl; [reflexivity|].
  destruct (String.eqb k k0); [discriminate|]. intros H. now rewrite IH.
Qed.

Lemma own_absent (k : string) (g : groups) :
  own k g = None <-> existsb (String.eqb k) (map fst g) = false.
Proof.
  induction g as [|[k0 v0] g IH]; simpl; [tauto|].
  destruct (String.eqb k k0); simpl; [split; discriminate | exact IH].
Qed.

(** With unique keys, the write changes the one entry of the key. *)
Lemma write_present (k : string) (v v0 : list HeldItem) (g : groups) :
  NoDup (map fst g) -> own k g = Some v0 ->
  write k v g = map (fun e => if String.eqb (fst e) k then (k, v) else e) g.
Proof.
  induction g as [|[k0 w0] g IH]; simpl; [discriminate|].
  intros Hnd H. inversion Hnd as [|? ? Hnot Hnd']; subst.
  rewrite (String.eqb_sym k0 k).
  destruct (String.eqb k k0) eqn:E.
  - apply String.eqb_eq in E; subst k0. f_equal.
    rewrite <- (map_id g) at 1. apply map_ext_in. intros [k1 w1] H1.
    simpl. destruct (String.eqb k1 k) eqn:E1; [|reflexivity].
    apply String.eqb_eq in E1; subst k1. elim Hnot.
    change k with (fst (k, w1)). now apply in_map.
  - f_equal. now apply IH.
Qed.

(** One turn of the loop for a key that is not inherited: the item goes
    to the end of the group of its key, which is created when absent. *)
Lemma group_step_plain (g : groups) (item : HeldItem) :
  inherited (channel_key item) = false ->
  group_step g item =
    Normal (write (channel_key item)
              (match own (channel_key item) g with
               | Some v => v ++ [item]
               | None => [item]
               end)%list g).
Proof.
  intros Hp. unfold group_step, read.
  destruct (own (channel_key item) g) as [v|] eqn:E.
  - now rewrite E.
  - unfold inherited in Hp. rewrite Hp, own_write_same, write_write.
    reflexivity.
Qed.

Lemma first_seen_ext (seen seen' keys : list string) :
  (forall k, existsb (String.eqb k) seen = existsb (String.eqb k) seen') ->
  first_seen seen keys = first_seen seen' keys.
Proof.
  revert seen seen'; induction keys as [|k r IH]; intros seen seen' H;
    [reflexivity|]. simpl. rewrite <- (H k).
  destruct (existsb (String.eqb k) seen); [now apply IH|].
  f_equal. apply IH. intros k'. simpl. now rewrite H.
Qed.

Lemma first_seen_fresh (seen keys : list string) (k : string) :
  In k (first_seen seen keys) ->
  existsb (String.eqb k) seen = false /\ In k keys.
Proof.
  revert seen; induction keys as [|k0 r IH]; intros seen H; [destruct H|].
  simpl in H. destruct (existsb (String.eqb k0) seen) eqn:E.
  - destruct (IH _ H). auto using in_cons.
  - destruct H as [->|H]; [split; [assumption | now left]|].
    destruct (IH _ H) as [F Hin]. simpl in F.
    apply orb_false_iff in F as [_ F]. auto using in_cons.
Qed.

Lemma first_seen_complete (seen keys : list string) (k : string) :
  In k keys -> existsb (String.eqb k) seen = false ->
  In k (first_seen seen keys).
Proof.
  revert seen; induction keys as [|k0 r IH]; intros seen H F; [destruct H|].
  simpl. destruct (String.eqb k k0) eqn:E.
  - apply String.eqb_eq in E; subst k0. rewrite F. now left.
  - destruct H as [->|H]; [now rewrite String.eqb_refl in E|].
    destruct (existsb (String.eqb k0) seen); [now apply IH|].
    right. apply IH; [assumption|]. simpl. now rewrite E.
Qed.

Lemma of_channel_cons_same (item : HeldItem) (items : list HeldItem) :
  of_channel (channel_key item) (item :: items) =
    item :: of_channel (channel_key item) items.
Proof. unfold of_channel. simpl. now rewrite String.eqb_refl. Qed.

Lemma of_channel_cons_other (k : string) (item : HeldItem)
    (items : list HeldItem) :
  String.eqb k (channel_key item) = false ->
  of_channel k (item :: items) = of_channel k items.
Proof.
  intros E. unfold of_channel. simpl. now rewrite String.eqb_sym, E.
Qed.

(** The loop from any groups with unique keys: every group gets the items
    of its key behind what it had, and the keys not yet there are added
    in the order of their first appearance. *)
Lemma group_loop_from (items : list HeldItem) (g : groups) :
  NoDup (map fst g) ->
  (forall item, In item items -> inherited (channel_key item) = false) ->
  group_loop g items =
    Normal (map (fun e => (fst e, snd e ++ of_channel (fst e) items)) g
            ++ map (fun k => (k, of_channel k items))
                 (first_seen (map fst g) (map channel_key items)))%list.
Proof.
  revert g; induction items as [|item rest IH]; intros g Hnd Hp.
  - simpl. rewrite app_nil_r. f_equal. rewrite <- (map_id g) at 1.
    apply map_ext. intros [k v]. simpl. now rewrite app_nil_r.
  - assert (Hi : inherited (channel_key item) = false)
      by (apply Hp; now left).
    assert (Hr : forall i, In i rest -> inherited (channel_key i) = false)
      by (intros i Hin; apply Hp; now right).
    cbn [group_loop]. rewrite (group_step_plain _ _ Hi).
    set (k := channel_key item) in *.
    destruct (own k g) as [v|] eqn:E.
    + rewrite (write_present _ _ _ _ Hnd E).
      assert (Ek : existsb (String.eqb k) (map fst g) = true).
      { destruct (existsb (String.eqb k) (map fst g)) eqn:F; [reflexivity|].
        apply own_absent in F. congruence. }
      assert (Ekeys : map fst (map (fun e : string * list HeldItem =>
                         if String.eqb (fst e) k then (k, (v ++ [item])%list)
                         else e) g) = map fst g).
      { rewrite map_map. apply map_ext. intros [k1 v1]. simpl.
        destruct (String.eqb k1 k) eqn:E1; [|reflexivity].
        simpl. apply String.eqb_eq in E1. now subst. }
      rewrite IH by (rewrite ?Ekeys; assumption).
      rewrite Ekeys. cbn [map first_seen]. fold k. rewrite Ek.
      f_equal. f_equal.
      * rewrite map_map. apply map_ext_in. intros [k1 v1] Hin. cbn [fst snd].
        destruct (String.eqb k1 k) eqn:E1.
        -- apply String.eqb_eq in E1; subst k1. cbn [fst snd].
           assert (v1 = v).
           { clear - Hnd Hin E. induction g as [|[k2 v2] g IHg];
               [destruct Hin|]. simpl in *.
             inversion Hnd as [|? ? Hnot Hnd']; subst.
             destruct (String.eqb k k2) eqn:E2.
             - apply String.eqb_eq in E2; subst k2.
               destruct Hin as [H|H]; [congruence|].
               elim Hnot. change k with (fst (k, v1)). now apply in_map.
             - destruct Hin as [H|H];
                 [inversion H; subst; now rewrite String.eqb_refl in E2|].
               now apply IHg. }
           subst v1. unfold k. rewrite of_channel_cons_same.
           now rewrite <- app_assoc.
        -- cbn [fst snd]. now rewrite of_channel_cons_other.
      * apply map_ext_in. intros k1 Hin.
        apply first_seen_fresh in Hin as [F _].
        rewrite of_channel_cons_other; [reflexivity|].
        change (String.eqb k1 k = false).
        destruct (String.eqb k1 k) eqn:E1; [|reflexivity].
        apply String.eqb_eq in E1; subst k1. congruence.
    + rewrite (write_absent _ _ _ E).
      assert (Ek : existsb (String.eqb k) (map fst g) = false)
        by (now apply own_absent).
      assert (Hnd' : NoDup (map fst (g ++ [(k, [item])]))).
      { rewrite map_app. simpl. apply NoDup_app; [assumption | repeat constructor; auto |].
        intros x Hx [Hxk|[]].
        assert (existsb (String.eqb x) (map fst g) = true)
          by (apply existsb_exists; exists x; split;
              [assumption | apply String.eqb_refl]).
        rewrite <- Hxk in *. congruence. }
      rewrite IH by assumption.
      rewrite !map_app. cbn [map fst snd first_seen]. fold k. rewrite Ek.
      rewrite <- app_assoc. cbn [app map]. f_equal. f_equal.
      * apply map_ext_in. intros [k1 v1] Hin. cbn [fst snd].
        rewrite of_channel_cons_other; [reflexivity|].
        change (String.eqb k1 k = false).
        destruct (String.eqb k1 k) eqn:E1; [|reflexivity].
        apply String.eqb_eq in E1; subst k1.
        assert (existsb (String.eqb k) (map fst g) = true).
        { apply existsb_exists. exists k. split; [|apply String.eqb_refl].
          change k with (fst (k, v1)). now apply in_map. }
        congruence.
      * f_equal.
        -- unfold k. now rewrite of_channel_cons_same.
        -- rewrite (first_seen_ext (map fst g ++ [k]) (k :: map fst g)).
           2: { intros k'. rewrite existsb_app. simpl.
                now rewrite orb_false_r, orb_comm. }
           apply map_ext_in. intros k1 Hin.
           apply first_seen_fresh in Hin as [F _]. simpl in F.
           apply orb_false_iff in F as [F _].
           now rewrite of_channel_cons_other.
Qed.

(** From no groups: one group for every key, in the order the keys come
    first, each holding the items of its key in the order given. *)
Lemma group_loop_groups (items : list HeldItem) :
  (forall item, In item items -> inherited (channel_key item) = false) ->
  group_loop [] items =
    Normal (map (fun k => (k, of_channel k items))
              (first_seen [] (map channel_key items))).
Proof.
  intros H. rewrite group_loop_from by (assumption || constructor).
  reflexivity.
Qed.

Lemma write_keys (k k' : string) (v : list HeldItem) (g : groups) :
  In k' (map fst (write k v g)) -> k' = k \/ In k' (map fst g).
Proof.
  induction g as [|[k0 v0] g IH]; simpl.
  - intros [H|[]]; auto.
  - destruct (String.eqb k k0) eqn:E; simpl.
    + apply String.eqb_eq in E; subst k0. tauto.
    + intros [H|H]; [auto|]. destruct (IH H); auto.
Qed.

(** An item whose key is inherited stops the loop, whatever came
    before it. *)
Lemma group_loop_throws (items : list HeldItem) (g : groups) :
  (forall k, In k (map fst g) -> inherited k = false) ->
  (exists item, In item items /\ inherited (channel_key item) = true) ->
  group_loop g items =
    Throw (TypeError "byChannel[key].push is not a function").
Proof.
  revert g; induction items as [|item rest IH]; intros g Hg (bad & Hin & Hbad);
    [destruct Hin|].
  cbn [group_loop].
  destruct (inherited (channel_key item)) eqn:Ei.
  - unfold group_step, read.
    assert (E : own (channel_key item) g = None).
    { apply own_absent.
      destruct (existsb (String.eqb (channel_key item)) (map fst g)) eqn:F;
        [|reflexivity].
      apply existsb_exists in F as (k & Hk & Ek).
      apply String.eqb_eq in Ek; subst k. rewrite (Hg _ Hk) in Ei.
      discriminate. }
    unfold inherited in Ei. rewrite E, Ei. cbv beta zeta iota.
    rewrite ?E, ?Ei. reflexivity.
  - rewrite (group_step_plain _ _ Ei). apply IH.
    + intros k Hk. apply write_keys in Hk as [->|Hk]; auto.
    + destruct Hin as [->|Hin]; [congruence|]. eauto.
Qed.

Lemma sendDM_eq (env : Env) (userId text : string) (w : World) :
  let k := List.length (trace w) in
  sendDM env userId text w =
    ((if fails env k then Throw (Rejected "Error sending DM") else Normal tt),
     Build_World (focus_sessions w) (held_items w)
       (if fails env k then delivered w
        else delivered w ++ [(userId, text)])%list
       (trace w ++ [SendDM userId text])).
Proof.
  cbv [sendDM mbind perform ret throw world set_delivered].
  cbn [trace focus_sessions held_items delivered].
  destruct (fails env (List.length (trace w))); reflexivity.
Qed.

Lemma entries_plain (g : groups) :
  (forall e, In e g -> is_index (fst e) = false) -> entries g = g.
Proof.
  intros H. unfold entries.
  rewrite filter_none by assumption. simpl.
  induction g as [|e g IH]; [reflexivity|]. simpl.
  rewrite (H e) by now left. simpl. f_equal. apply IH.
  intros x Hx. apply H. now right.
Qed.

Lemma insert_index_In (e : string * list HeldItem) (l : groups) :
  In e (insert_index e l).
Proof.
  induction l as [|y l IH]; simpl; [now left|].
  destruct (_ <? _); simpl; auto.
Qed.

Lemma insert_index_keeps (e x : string * list HeldItem) (l : groups) :
  In x l -> In x (insert_index e l).
Proof.
  induction l as [|y l IH]; simpl; [tauto|].
  intros [->|H]; destruct (_ <? _); simpl; auto.
Qed.

Lemma sorted_index_In (x : string * list HeldItem) (l : groups) :
  In x l -> In x (fold_right insert_index [] l).
Proof.
  induction l as [|y l IH]; simpl; [tauto|].
  intros [->|H]; [apply insert_index_In | apply insert_index_keeps; auto].
Qed.

End GroupingFacts.

Section SummaryShape.
Import Value Focus Order.

Lemma flat_map_map {A B C} (f : B -> list C) (g : A -> B) (l : list A) :
  flat_map f (map g l) = flat_map (fun x => f (g x)) l.
Proof. induction l as [|x l IH]; simpl; [reflexivity | now rewrite IH]. Qed.

End SummaryShape.

(** X14. For held items whose channel keys are ordinary names (not
    inherited by a plain object, not written like an array index) and
    whose messages are ASCII text or have at most 80 bytes, the summary
    sent has the header and then, for every channel in the order the
    channels first appear, the lines of that channel, made of its items
    in the order given. *)
Theorem summary_groups_by_channel (env : Focus.Env) (userId : string)
    (items : list Focus.HeldItem) (w : Focus.World) :
  items <> [] ->
  (forall item, In item items ->
     Order.inherited (Focus.channel_key item) = false /\
     Value.is_index (Focus.channel_key item) = false) ->
  (forall item, In item items ->
     Js.ascii_only (Focus.message_text item) = true \/
     (String.length (Focus.message_text item) <= 80)%nat) ->
  Focus.sendBatchSummary env userId items w =
    Focus.sendDM env userId
      (Js.join Js.nl
         (Focus.header_lines items ++
          flat_map
            (fun key => Focus.channel_lines (key, Order.of_channel key items))
            (Order.first_seen [] (map Focus.channel_key items)))%list) w.
Proof.
  intros Hne H _. unfold Focus.sendBatchSummary.
  destruct items as [|item rest] eqn:Ei; [congruence|]. rewrite <- Ei in *.
  rewrite group_loop_groups by (intros i Hi; now apply H).
  unfold Focus.summary_lines. rewrite entries_plain.
  - now rewrite flat_map_map.
  - intros e He. apply in_map_iff in He as (k & <- & Hk).
    apply first_seen_fresh in Hk as [_ Hk].
    apply in_map_iff in Hk as (i & <- & Hi). cbn [fst]. now apply H.
Qed.

Lemma summary_groups_by_channel_witness :
  Focus.sendBatchSummary Examples.calm "U1" Samples.two_channels Examples.idle =
    Focus.sendDM Examples.calm "U1"
      (Js.join Js.nl
         (Focus.header_lines Samples.two_channels ++
          Focus.channel_lines
            ("general",
             [Examples.held "general" "one" 1;
              Examples.held "general" "three" 3]) ++
          Focus.channel_lines ("random", [Examples.held "random" "two" 2]))%list)
      Examples.idle.
Proof.
  apply (summary_groups_by_channel Examples.calm "U1" Samples.two_channels
           Examples.idle).
  - discriminate.
  - intros item [<-|[<-|[<-|[]]]]; split; reflexivity.
  - intros item [<-|[<-|[<-|[]]]]; left; reflexivity.
Defined.

(** X15. [sendBatchSummary] ends in the TypeError of a missing push,
    with nothing sent, exactly when some held item has a channel key
    that a plain object inherits (constructor, toString, valueOf,
    __proto__ and the like). *)
Theorem summary_throws_exactly_on_inherited_keys (env : Focus.Env)
    (userId : string) (items : list Focus.HeldItem) (w : Focus.World) :
  (exists item, In item items /\
     Order.inherited (Focus.channel_key item) = true)
  <->
  Focus.sendBatchSummary env userId items w =
    (Value.Throw (Value.TypeError "byChannel[key].push is not a function"), w).
Proof.
  split.
  - intros H. unfold Focus.sendBatchSummary.
    destruct items as [|item rest] eqn:Ei;
      [destruct H as (i & [] & _)|]. rewrite <- Ei in *.
    rewrite group_loop_throws; [reflexivity | intros k [] | exact H].
  - intros E.
    destruct (existsb (fun i => Order.inherited (Focus.channel_key i)) items)
      eqn:F.
    + apply existsb_exists in F. exact F.
    + exfalso.
      assert (Hp : forall i, In i items ->
                Order.inherited (Focus.channel_key i) = false).
      { intros i Hi.
        destruct (Order.inherited (Focus.channel_key i)) eqn:G; [|reflexivity].
        assert (existsb (fun i => Order.inherited (Focus.channel_key i)) items
                = true) by (apply existsb_exists; eauto).
        congruence. }
      unfold Focus.sendBatchSummary in E.
      destruct items as [|item rest] eqn:Ei.
      * rewrite sendDM_eq in E. destruct (Focus.fails env _); discriminate.
      * rewrite <- Ei in *. rewrite group_loop_groups in E by assumption.
        rewrite sendDM_eq in E. destruct (Focus.fails env _); discriminate.
Qed.

Lemma summary_throws_exactly_on_inherited_keys_witness :
  Focus.sendBatchSummary Examples.calm "U1"
    [Examples.held "general" "one" 1; Examples.held "tostring" "two" 2;
     Examples.held "toString" "three" 3] Examples.idle =
    (Value.Throw (Value.TypeError "byChannel[key].push is not a function"),
     Examples.idle).
Proof.
  apply (proj1 (summary_throws_exactly_on_inherited_keys Examples.calm "U1"
                  [Examples.held "general" "one" 1;
                   Examples.held "tostring" "two" 2;
                   Examples.held "toString" "three" 3] Examples.idle)).
  exists (Examples.held "toString" "three" 3). split; [|reflexivity].
  right. right. left. reflexivity.
Defined.

(** X16. A channel whose key is written like an array index is listed
    before every channel whose key is not, also when it appeared later
    among the held items. *)
Theorem numbered_channels_come_first (items : list Focus.HeldItem)
    (first later : Focus.HeldItem) :
  (forall item, In item items ->
     Order.inherited (Focus.channel_key item) = false) ->
  In first items -> In later items ->
  Value.is_index (Focus.channel_key first) = false ->
  Value.is_index (Focus.channel_key later) = true ->
  exists byChannel a b c,
    Focus.group_loop [] items = Value.Normal byChannel
    /\ Focus.entries byChannel =
         (a ++ (Focus.channel_key later,
                Order.of_channel (Focus.channel_key later) items)
            :: b ++ (Focus.channel_key first,
                     Order.of_channel (Focus.channel_key first) items)
            :: c)%list.
Proof.
  intros Hp H1 H2 I1 I2. rewrite group_loop_groups by assumption.
  set (g := map (fun k => (k, Order.of_channel k items))
              (Order.first_seen [] (map Focus.channel_key items))).
  assert (G : forall i, In i items ->
            In (Focus.channel_key i,
                Order.of_channel (Focus.channel_key i) items) g).
  { intros i Hi. unfold g.
    apply (in_map (fun k => (k, Order.of_channel k items))).
    apply first_seen_complete; [now apply in_map | reflexivity]. }
  assert (S2 : In (Focus.channel_key later,
                   Order.of_channel (Focus.channel_key later) items)
                 (fold_right Focus.insert_index []
                    (filter (fun e => Value.is_index (fst e)) g))).
  { apply sorted_index_In, filter_In. split; [now apply G | exact I2]. }
  assert (S1 : In (Focus.channel_key first,
                   Order.of_channel (Focus.channel_key first) items)
                 (filter (fun e => negb (Value.is_index (fst e))) g)).
  { apply filter_In. split; [now apply G|]. cbn [fst]. now rewrite I1. }
  apply in_split in S2 as (a & b & E2). apply in_split in S1 as (c & d & E1).
  exists g, a, (b ++ c)%list, d. split; [reflexivity|].
  unfold Focus.entries. rewrite E2, E1.
  rewrite <- !app_assoc. reflexivity.
Qed.

Lemma numbered_channels_come_first_witness :
  exists byChannel a b c,
    Focus.group_loop [] Samples.mixed = Value.Normal byChannel
    /\ Focus.entries byChannel =
         (a ++ ("2024", [Examples.held "2024" "two" 2])
            :: b ++ ("general",
                     [Examples.held "general" "one" 1;
                      Examples.held "general" "three" 3])
            :: c)%list.
Proof.
  apply (numbered_channels_come_first Samples.mixed
           (Examples.held "general" "one" 1) (Examples.held "2024" "two" 2)).
  - intros item [<-|[<-|[<-|[]]]]; reflexivity.
  - left; reflexivity.
  - right; left; reflexivity.
  - reflexivity.
  - reflexivity.
Defined.

(** X17. [sendBatchSummary] writes to neither table and makes at most one
    call, the direct message to the user; the message counts as delivered
    only when that call does not fail, and a failed call makes the
    summary reject. *)
Theorem summary_only_sends_one_message (env : Focus.Env) (userId : string)
    (items : list Focus.HeldItem) (w : Focus.World) :
  exists r w',
    Focus.sendBatchSummary env userId items w = (r, w')
    /\ Focus.focus_sessions w' = Focus.focus_sessions w
    /\ Focus.held_items w' = Focus.held_items w
    /\ ((Focus.trace w' = Focus.trace w /\
         Focus.delivered w' = Focus.delivered w /\
         exists e, r = Value.Throw (Value.TypeError e))
        \/ exists text,
             Focus.trace w' = (Focus.trace w ++ [Focus.SendDM userId text])%list
             /\ if Focus.fails env (List.length (Focus.trace w))
                then Focus.delivered w' = Focus.delivered w /\
                     r = Value.Throw (Value.Rejected "Error sending DM")
                else Focus.delivered w' =
                       (Focus.delivered w ++ [(userId, text)])%list /\
                     r = Value.Normal tt).
Proof.
  unfold Focus.sendBatchSummary.
  destruct items as [|item rest] eqn:Ei.
  - rewrite sendDM_eq. do 2 eexists. split; [reflexivity|].
    cbn [Focus.focus_sessions Focus.held_items Focus.trace Focus.delivered].
    repeat split. right. eexists. split; [reflexivity|].
    destruct (Focus.fails env _); split; reflexivity.
  - rewrite <- Ei.
    destruct (Focus.group_loop [] items) as [g|e] eqn:Eg.
    + rewrite sendDM_eq. do 2 eexists. split; [reflexivity|].
      cbn [Focus.focus_sessions Focus.held_items Focus.trace Focus.delivered].
      repeat split. right. eexists. split; [reflexivity|].
      destruct (Focus.fails env _); split; reflexivity.
    + do 2 eexists. split; [reflexivity|]. repeat split. left.
      repeat split.
      destruct (existsb (fun i => Order.inherited (Focus.channel_key i)) items)
        eqn:F.
      * apply existsb_exists in F.
        rewrite (group_loop_throws items []) in Eg;
          [inversion Eg; eauto | intros k [] | exact F].
      * rewrite group_loop_groups in Eg; [discriminate|].
        intros i Hi.
        destruct (Order.inherited (Focus.channel_key i)) eqn:G; [|reflexivity].
        assert (existsb (fun i => Order.inherited (Focus.channel_key i)) items
                = true) by (apply existsb_exists; eauto).
        congruence.
Qed.

(** ** The commands *)

Section MoreCommandFacts.
Import Value Focus Command Surface Signing.

Variable env : Env.

Lemma handleFocusOff_eq (userId : string) (w : World) :
  handleFocusOff env userId w =
    match found env userId w with
    | None =>
        (Normal (Build_Response "ephemeral" no_session_off_text),
         queried env userId w)
    | Some _ =>
        match endFocusSession env userId (queried env userId w) with
        | (Normal heldItems, w1) =>
            (Normal (Build_Response "ephemeral" (ended_text (len heldItems))),
             snd (sendBatchSummary env userId heldItems w1))
        | (Throw e, w1) => (Throw e, w1)
        end
    end.
Proof.
  unfold handleFocusOff, mbind at 1.
  rewrite getActiveFocusSession_eq. unfold found, queried.
  destruct (if fails env (S (List.length (trace w))) then None
            else visible userId _ (focus_sessions w)) as [s|]; [|reflexivity].
  unfold mbind at 1.
  destruct (endFocusSession env userId _) as [[items|e] w1]; [|reflexivity].
  cbv [mbind detached ephemeral ret].
  destruct (sendBatchSummary env userId items w1) as [r w2]. reflexivity.
Qed.

Lemma endFocusSession_normal (userId : string) (w : World) :
  exists items w', endFocusSession env userId w = (Normal items, w').
Proof.
  rewrite endFocusSession_eq.
  destruct (if fails env _ then None else visible userId _ (focus_sessions w));
    eauto.
Qed.

Lemma handleFocusStatus_eq (userId : string) (w : World) :
  handleFocusStatus env userId w =
    match found env userId w with
    | None =>
        (Normal (Build_Response "ephemeral" no_session_status_text),
         queried env userId w)
    | Some session =>
        (Normal (Build_Response "ephemeral"
                   (status_text
                      (ends_at session - clock env (List.length (trace w) + 2))
                      (toLocaleTimeString env (ends_at session)))),
         Build_World (focus_sessions w) (held_items w) (delivered w)
           (trace (queried env userId w) ++ [Now]))
    end.
Proof.
  unfold handleFocusStatus, mbind at 1.
  rewrite getActiveFocusSession_eq. unfold found, queried.
  destruct (if fails env (S (List.length (trace w))) then None
            else visible userId _ (focus_sessions w)) as [s|]; [|reflexivity].
  cbv [mbind Date_now perform ret ephemeral].
  cbn [trace focus_sessions held_items delivered].
  rewrite length_app. reflexivity.
Qed.

(** [startFocusSession] ends normally; its last call is the insert of a
    row that runs for the duration given, and what it returns goes by the
    outcome of that call. *)
Lemma startFocusSession_outcome (userId : string) (durationMs : Z) (w : World) :
  let now := clock env (List.length (trace w)) in
  exists r w' before,
    startFocusSession env userId durationMs w = (Normal r, w')
    /\ trace w' =
         (trace w ++ before ++ [InsertSession userId now (now + durationMs)])%list
    /\ (fails env (List.length (trace w ++ before)) = true -> r = None)
    /\ (fails env (List.length (trace w ++ before)) = false ->
        exists session,
          r = Some session /\ In session (focus_sessions w')
          /\ user_id session = userId /\ started_at session = now
          /\ ends_at session = now + durationMs /\ is_active session = true).
Proof.
  intros now.
  pose proof (startFocusSession_eq env userId durationMs w) as E.
  cbv zeta in E. rewrite endFocusSession_eq in E.
  cbn [trace focus_sessions held_items delivered] in E.
  rewrite length_snoc in E. fold now in E.
  set (now' := clock env (S (List.length (trace w)))) in *.
  destruct (if fails env _ then None else visible userId _ (focus_sessions w))
    as [s|]; cbn [trace focus_sessions held_items delivered] in E.
  - exists (if fails env
                 (List.length
                    (trace w ++ [Now; Now; SelectActive userId now';
                                 UpdateInactive (id s); SelectHeld (id s)]))
            then None
            else Some (Build_FocusSession
                         (fresh_id env
                            (List.length
                               (trace w ++ [Now; Now; SelectActive userId now';
                                            UpdateInactive (id s);
                                            SelectHeld (id s)])))
                         userId now (now + durationMs) true
                         (db_now env
                            (List.length
                               (trace w ++ [Now; Now; SelectActive userId now';
                                            UpdateInactive (id s);
                                            SelectHeld (id s)]))))).
    rewrite <- !app_assoc in E. cbn [app] in E.
    destruct (fails env _) eqn:F; rewrite E; clear E; eexists;
      exists [Now; Now; SelectActive userId now';
              UpdateInactive (id s); SelectHeld (id s)];
      (split; [reflexivity|]); cbn [trace focus_sessions];
      rewrite <- ?app_assoc; (split; [reflexivity|]);
      (split; [intros F'; congruence|]); intros F';
      first [ congruence
            | eexists; split; [reflexivity|];
              cbn [user_id started_at ends_at is_active];
              auto using in_or_app, in_eq ].
  - exists (if fails env
                 (List.length (trace w ++ [Now; Now; SelectActive userId now']))
            then None
            else Some (Build_FocusSession
                         (fresh_id env
                            (List.length
                               (trace w ++ [Now; Now; SelectActive userId now'])))
                         userId now (now + durationMs) true
                         (db_now env
                            (List.length
                               (trace w ++ [Now; Now; SelectActive userId now']))))).
    rewrite <- !app_assoc in E. cbn [app] in E.
    destruct (fails env _) eqn:F; rewrite E; clear E; eexists;
      exists [Now; Now; SelectActive userId now'];
      (split; [reflexivity|]); cbn [trace focus_sessions];
      rewrite <- ?app_assoc; (split; [reflexivity|]);
      (split; [intros F'; congruence|]); intros F';
      first [ congruence
            | eexists; split; [reflexivity|];
              cbn [user_id started_at ends_at is_active];
              auto using in_or_app, in_eq ].
Qed.

Lemma found_none_of_ended (userId : string) (w : World) :
  (forall s, In s (focus_sessions w) -> user_id s = userId ->
     is_active s = true ->
     ends_at s <= clock env (List.length (trace w))) ->
  found env userId w = None.
Proof.
  intros H. unfold found. destruct (fails env _); [reflexivity|].
  apply visible_none. intros s Hs.
  destruct (active_for userId _ s) eqn:F; [|reflexivity].
  apply active_for_iff in F as (Hu & Ha & He).
  specialize (H s Hs Hu Ha). lia.
Qed.

End MoreCommandFacts.

(** X19. A duration argument that parses to more than nothing and to at
    most 8 hours (8 hours itself included) is accepted: with no session
    active and an end time that is a valid date, the insert is made for
    exactly that duration; when it fails the reply is the text of the
    failed start, and otherwise the new row runs for that duration and
    the reply is the activation text for it. *)
Theorem accepted_duration_starts_session (env : Focus.Env)
    (userId userName d : string) (ms : Z) (w : Focus.World) :
  let t := Focus.clock env (List.length (Focus.trace w) + 2) in
  Js.nonempty d = true ->
  Duration.parseDuration d = Some ms ->
  0 < ms <= 8 * 60 * 60 * 1000 ->
  Command.found env userId w = None ->
  Focus.valid_date (t + ms) = true ->
  exists resp w' before,
    Command.handleFocusOn env userId userName (Some d) w =
      (Value.Normal resp, w')
    /\ Focus.trace w' =
         (Focus.trace w ++ before ++ [Focus.InsertSession userId t (t + ms)])%list
    /\ Command.text resp =
         (if Focus.fails env (List.length (Focus.trace w ++ before))
          then Command.start_failed_text
          else Command.activated_text ms
                 (Focus.toLocaleTimeString env (t + ms)))
    /\ (Focus.fails env (List.length (Focus.trace w ++ before)) = false ->
        exists session,
          In session (Focus.focus_sessions w')
          /\ Focus.user_id session = userId
          /\ Focus.started_at session = t
          /\ Focus.ends_at session = t + ms
          /\ Focus.is_active session = true).
Proof.
  intros t Hd Hp Hms Hnone _.
  rewrite handleFocusOn_eq, Hnone. cbv zeta.
  rewrite (or_default_given _ Hd), Hp.
  assert (E0 : (ms =? 0) = false) by (apply Z.eqb_neq; lia).
  assert (E1 : (ms >? Command.maxDuration) = false).
  { unfold Command.maxDuration. destruct (Z.gtb_spec ms (8 * 60 * 60 * 1000));
      [lia | reflexivity]. }
  rewrite E0, E1.
  destruct (startFocusSession_outcome env userId ms
              (Command.queried env userId w))
    as (r & w' & before & E & Ht & Hfail & Hok).
  rewrite E.
  assert (Et : Focus.clock env
                 (List.length (Focus.trace (Command.queried env userId w))) = t).
  { unfold t, Command.queried. cbn [Focus.trace]. now rewrite length_app. }
  rewrite Et in *.
  assert (Ek : List.length (Focus.trace (Command.queried env userId w) ++ before)
               = List.length
                   (Focus.trace w ++
                    [Focus.Now;
                     Focus.SelectActive userId
                       (Focus.clock env (List.length (Focus.trace w)))]
                    ++ before)).
  { unfold Command.queried. cbn [Focus.trace]. now rewrite <- app_assoc. }
  rewrite Ek in *.
  exists (Command.Build_Response "ephemeral"
            match r with
            | Some session =>
                Command.activated_text ms
                  (Focus.toLocaleTimeString env (Focus.ends_at session))
            | None => Command.start_failed_text
            end),
    w',
    ([Focus.Now;
      Focus.SelectActive userId
        (Focus.clock env (List.length (Focus.trace w)))] ++ before)%list.
  split; [destruct r; reflexivity|]. split; [|split].
  - rewrite Ht. unfold Command.queried. cbn [Focus.trace].
    rewrite <- !app_assoc. reflexivity.
  - cbn [Command.text]. destruct (Focus.fails env _) eqn:F.
    + now rewrite (Hfail eq_refl).
    + destruct (Hok eq_refl) as (session & -> & _ & _ & _ & -> & _).
      reflexivity.
  - intros F. destruct (Hok F) as (session & _ & Hin & Hu & Hst & Hen & Ha).
    exists session. auto.
Qed.

Lemma accepted_duration_starts_session_witness :
  exists resp w' before,
    Command.handleFocusOn Examples.calm "U1" "ann" (Some "8H") Examples.idle =
      (Value.Normal resp, w')
    /\ Focus.trace w' =
         ([] ++ before ++ [Focus.InsertSession "U1" 1000 (1000 + 28800000)])%list
    /\ Command.text resp =
         (if Focus.fails Examples.calm (List.length ([] ++ before))
          then Command.start_failed_text
          else Command.activated_text 28800000
                 (Focus.toLocaleTimeString Examples.calm (1000 + 28800000)))
    /\ (Focus.fails Examples.calm (List.length ([] ++ before)) = false ->
        exists session,
          In session (Focus.focus_sessions w')
          /\ Focus.user_id session = "U1"
          /\ Focus.started_at session = 1000
          /\ Focus.ends_at session = 1000 + 28800000
          /\ Focus.is_active session = true).
Proof.
  apply (accepted_duration_starts_session Examples.calm "U1" "ann" "8H"
           28800000 Examples.idle); try reflexivity. lia.
Defined.

(** X20. A duration argument that parses to zero (0h, 0m, 00h0m) is
    answered as an invalid format, and nothing is written. *)
Theorem zero_duration_is_invalid (env : Focus.Env) (userId userName d : string)
    (w : Focus.World) :
  Js.nonempty d = true ->
  Duration.parseDuration d = Some 0 ->
  Command.found env userId w = None ->
  Command.handleFocusOn env userId userName (Some d) w =
    (Value.Normal
       (Command.Build_Response "ephemeral" (Command.invalid_format_text d)),
     Command.queried env userId w).
Proof.
  intros Hd Hp Hnone. rewrite handleFocusOn_eq, Hnone. cbv zeta.
  rewrite (or_default_given _ Hd), Hp. reflexivity.
Qed.

Lemma zero_duration_is_invalid_witness :
  Command.handleFocusOn Examples.calm "U1" "ann" (Some "0h0m") Examples.idle =
    (Value.Normal
       (Command.Build_Response "ephemeral"
          (Command.invalid_format_text "0h0m")),
     Command.queried Examples.calm "U1" Examples.idle).
Proof.
  apply (zero_duration_is_invalid Examples.calm "U1" "ann" "0h0m"
           Examples.idle); reflexivity.
Defined.

(** X21. The [off] command.  When every row of the user is inactive or
    has ended by the time of the query, the reply is that there is no
    active session and nothing is written, held items of an ended session
    included.  When a session is found, the reply counts the items that
    [endFocusSession] returned, whatever becomes of the summary (sent,
    rejected, or stopped by an error). *)
Theorem off_replies_with_the_count (env : Focus.Env) (userId : string)
    (w : Focus.World) :
  ((forall s, In s (Focus.focus_sessions w) -> Focus.user_id s = userId ->
      Focus.is_active s = true ->
      Focus.ends_at s <= Focus.clock env (List.length (Focus.trace w))) ->
   Surface.handleFocusOff env userId w =
     (Value.Normal
        (Command.Build_Response "ephemeral" Surface.no_session_off_text),
      Command.queried env userId w))
  /\ (forall s, Command.found env userId w = Some s ->
      exists heldItems w1,
        Focus.endFocusSession env userId (Command.queried env userId w) =
          (Value.Normal heldItems, w1)
        /\ Surface.handleFocusOff env userId w =
             (Value.Normal
                (Command.Build_Response "ephemeral"
                   (Surface.ended_text (Focus.len heldItems))),
              snd (Focus.sendBatchSummary env userId heldItems w1))).
Proof.
  split.
  - intros H. rewrite handleFocusOff_eq, (found_none_of_ended _ _ _ H).
    reflexivity.
  - intros s Hs. rewrite handleFocusOff_eq, Hs.
    destruct (endFocusSession_normal env userId (Command.queried env userId w))
      as (items & w1 & E).
    rewrite E. eauto.
Qed.

Lemma off_replies_with_the_count_witness :
  Surface.handleFocusOff Examples.calm "U1" Samples.lapsed =
    (Value.Normal
       (Command.Build_Response "ephemeral" Surface.no_session_off_text),
     Command.queried Examples.calm "U1" Samples.lapsed)
  /\ exists heldItems w1,
       Focus.endFocusSession Examples.calm "U1"
         (Command.queried Examples.calm "U1" Examples.busy) =
         (Value.Normal heldItems, w1)
       /\ Surface.handleFocusOff Examples.calm "U1" Examples.busy =
            (Value.Normal
               (Command.Build_Response "ephemeral"
                  (Surface.ended_text (Focus.len heldItems))),
             snd (Focus.sendBatchSummary Examples.calm "U1" heldItems w1)).
Proof.
  split.
  - apply (proj1 (off_replies_with_the_count Examples.calm "U1" Samples.lapsed)).
    intros s [<-|[]] _ _. simpl. lia.
  - apply (proj2 (off_replies_with_the_count Examples.calm "U1" Examples.busy)
             Examples.deep_work).
    reflexivity.
Defined.

(** X22. The [status] command reads only: both tables and the delivered
    messages are as before; with a session found the reply gives the time
    left at the second reading of the clock and the end time, and with
    none it says so. *)
Theorem status_only_reads (env : Focus.Env) (userId : string)
    (w : Focus.World) :
  exists resp w',
    Surface.handleFocusStatus env userId w = (Value.Normal resp, w')
    /\ Focus.focus_sessions w' = Focus.focus_sessions w
    /\ Focus.held_items w' = Focus.held_items w
    /\ Focus.delivered w' = Focus.delivered w
    /\ Command.text resp =
         match Command.found env userId w with
         | Some s =>
             Surface.status_text
               (Focus.ends_at s -
                Focus.clock env (List.length (Focus.trace w) + 2))
               (Focus.toLocaleTimeString env (Focus.ends_at s))
         | None => Surface.no_session_status_text
         end.
Proof.
  rewrite handleFocusStatus_eq.
  destruct (Command.found env userId w) as [s|];
    do 2 eexists; (split; [reflexivity|]); repeat split.
Qed.

(** ** The request *)

Section RequestFacts.
Import Js Value Focus Command Surface Signing.

Variable env : Env.
Variable platform : Platform.

Lemma verifySlackRequest_eq (signature timestamp body : string) (w : World) :
  verifySlackRequest env platform signature timestamp body w =
    ((if stale (clock env (List.length (trace w))) timestamp then Normal false
      else if negb (String.length (expected platform timestamp body)
                    =? String.length signature)%nat
           then Throw (Error "Input buffers must have the same byte length")
           else Normal (String.eqb (expected platform timestamp body) signature)),
     ticked w).
Proof.
  cbv [verifySlackRequest mbind Date_now perform ret throw].
  unfold stale, expected, ticked.
  destruct (match parseInt_noradix timestamp with
            | Some t => _
            | None => false
            end); [reflexivity|].
  destruct (negb _); reflexivity.
Qed.

Lemma POST_eq (request : Request) (w : World) :
  POST env platform request w =
    match verifySlackRequest env platform (signature_of request)
            (timestamp_of request) (body request) w with
    | (Throw e, w1) => (Throw e, w1)
    | (Normal false, w1) =>
        (Normal {| status := 401; payload := Failure "Invalid signature" |}, w1)
    | (Normal true, w1) =>
        if match form_get platform (body request) "command" with
           | Some c => String.eqb c "/focus"
           | None => false
           end
        then answered (dispatch env (text_of platform request)
                         (user_of platform request) (name_of platform request)
                         w1)
        else (Normal {| status := 400; payload := Failure "Unknown command" |},
              w1)
    end.
Proof.
  unfold POST, mbind at 1.
  fold (signature_of request) (timestamp_of request).
  destruct (verifySlackRequest env platform _ _ _ w) as [[[|]|e] w1];
    try reflexivity.
  cbn [negb]. fold (text_of platform request) (user_of platform request)
    (name_of platform request).
  destruct (match form_get platform (body request) "command" with
            | Some c => String.eqb c "/focus"
            | None => false
            end); [|reflexivity].
  cbn [negb]. unfold answered.
  destruct (dispatch env _ _ _ w1) as [[r|e] w2]; reflexivity.
Qed.

Lemma verify_genuine (request : Request) (w : World) :
  genuine env platform request w ->
  verifySlackRequest env platform (signature_of request)
    (timestamp_of request) (body request) w = (Normal true, ticked w).
Proof.
  intros [Hs He]. rewrite verifySlackRequest_eq, Hs, He.
  now rewrite Nat.eqb_refl, String.eqb_refl.
Qed.

(** A word that parses as a duration is none of the subcommands. *)
Lemma duration_is_no_subcommand (sub : string) (ms : Z) :
  Duration.parseDuration sub = Some ms ->
  String.eqb (toLowerCase sub) "on" = false
  /\ String.eqb (toLowerCase sub) "off" = false
  /\ String.eqb (toLowerCase sub) "status" = false
  /\ String.eqb (toLowerCase sub) EmptyString = false
  /\ String.eqb (toLowerCase sub) "help" = false.
Proof.
  unfold Duration.parseDuration. intros H.
  repeat split;
    match goal with
    | |- String.eqb ?a ?b = false =>
        destruct (String.eqb a b) eqn:E; [|reflexivity];
        apply String.eqb_eq in E; rewrite E in H; discriminate H
    end.
Qed.

Lemma digit_in_ten (c : ascii) :
  digit_in 10 c = if is_digit c then Some (digit_val c) else None.
Proof.
  unfold digit_in, is_digit, digit_val.
  pose proof (nat_ascii_bounded c) as B.
  destruct (Nat.leb_spec 48 (nat_of_ascii c)) as [E1|E1];
    destruct (Nat.leb_spec (nat_of_ascii c) 57) as [E2|E2]; cbn [andb].
  - replace (48 <=? Z.of_nat (nat_of_ascii c)) with true
      by (symmetry; apply Z.leb_le; lia).
    replace (Z.of_nat (nat_of_ascii c) <=? 57) with true
      by (symmetry; apply Z.leb_le; lia).
    cbn [andb].
    replace (Z.of_nat (nat_of_ascii c) - 48 <? 10) with true
      by (symmetry; apply Z.ltb_lt; lia).
    reflexivity.
  - replace (Z.of_nat (nat_of_ascii c) <=? 57) with false
      by (symmetry; apply Z.leb_gt; lia).
    rewrite andb_false_r.
    destruct ((97 <=? Z.of_nat (nat_of_ascii c))
              && (Z.of_nat (nat_of_ascii c) <=? 122)) eqn:E3.
    + apply andb_true_iff in E3 as [E3 _]. apply Z.leb_le in E3.
      replace (Z.of_nat (nat_of_ascii c) - 87 <? 10) with false
        by (symmetry; apply Z.ltb_ge; lia).
      reflexivity.
    + destruct ((65 <=? Z.of_nat (nat_of_ascii c))
                && (Z.of_nat (nat_of_ascii c) <=? 90)) eqn:E4; [|reflexivity].
      apply andb_true_iff in E4 as [E4 _]. apply Z.leb_le in E4.
      replace (Z.of_nat (nat_of_ascii c) - 55 <? 10) with false
        by (symmetry; apply Z.ltb_ge; lia).
      reflexivity.
  - replace (48 <=? Z.of_nat (nat_of_ascii c)) with false
      by (symmetry; apply Z.leb_gt; lia).
    cbn [andb].
    replace (97 <=? Z.of_nat (nat_of_ascii c)) with false
      by (symmetry; apply Z.leb_gt; lia).
    replace (65 <=? Z.of_nat (nat_of_ascii c)) with false
      by (symmetry; apply Z.leb_gt; lia).
    reflexivity.
  - lia.
Qed.

Lemma digits_prefix_digits (s : string) (acc : Z) :
  all_digits s = true ->
  digits_prefix 10 (Some acc) s = Some (parseInt_from acc s).
Proof.
  revert acc; induction s as [|c s IH]; intros acc H; [reflexivity|].
  unfold all_digits in H; simpl in H. apply andb_true_iff in H as [Hc Hs].
  cbn [digits_prefix parseInt_from]. rewrite digit_in_ten, Hc.
  now apply IH.
Qed.

(** No white-space character begins with a digit. *)
Lemma after_space_digit (c : ascii) (r : string) :
  is_digit c = true -> after_space (String c r) = None.
Proof.
  intros H. destruct c as [[] [] [] [] [] [] [] []]; cbv in H;
    try discriminate H; reflexivity.
Qed.

(** On a text of decimal digits, [parseInt] without a radix reads the
    decimal number. *)
Lemma parseInt_noradix_digits (s : string) :
  Duration.is_integer s = true -> parseInt_noradix s = Some (parseInt s).
Proof.
  intros H. destruct (is_integer_inv _ H) as (Hall & c & r & ->).
  assert (Hc : is_digit c = true).
  { unfold all_digits in Hall. simpl in Hall.
    now apply andb_true_iff in Hall as [Hc _]. }
  unfold parseInt_noradix.
  assert (Ht : trim_start (String c r) = String c r).
  { unfold trim_start. cbn [String.length trim_start_within].
    now rewrite after_space_digit. }
  rewrite Ht.
  assert (Hm : Ascii.eqb c "-" = false)
    by (apply Ascii.eqb_neq; intros ->; discriminate Hc).
  assert (Hpl : Ascii.eqb c "+" = false)
    by (apply Ascii.eqb_neq; intros ->; discriminate Hc).
  rewrite Hm, Hpl.
  assert (Hx : match String c r with
               | String c0 (String x r0) =>
                   if Ascii.eqb c0 "0" && (Ascii.eqb x "x" || Ascii.eqb x "X")
                   then (16, r0) else (10, String c r)
               | _ => (10, String c r)
               end = (10, String c r)).
  { destruct r as [|x r0]; [reflexivity|].
    assert (Hxd : is_digit x = true).
    { unfold all_digits in Hall. simpl in Hall.
      apply andb_true_iff in Hall as [_ Hall].
      now apply andb_true_iff in Hall as [Hx _]. }
    assert (E1 : Ascii.eqb x "x" = false)
      by (apply Ascii.eqb_neq; intros ->; discriminate Hxd).
    assert (E2 : Ascii.eqb x "X" = false)
      by (apply Ascii.eqb_neq; intros ->; discriminate Hxd).
    now rewrite E1, E2, andb_false_r. }
  rewrite Hx.
  cbn [digits_prefix]. rewrite digit_in_ten, Hc.
  unfold all_digits in Hall. simpl in Hall.
  apply andb_true_iff in Hall as [_ Hall].
  rewrite digits_prefix_digits by exact Hall.
  unfold parseInt, decimal. cbn [parseInt_from].
  now rewrite Z.mul_1_l.
Qed.

End RequestFacts.

(** X23. [verifySlackRequest] reads the clock once and touches nothing
    else.  A stale time stamp gives false.  Otherwise it gives true
    exactly for the expected signature, false for any other signature of
    the same length, and it throws, rather than giving false, for a
    signature of another length. *)
Theorem signature_check (env : Focus.Env) (platform : Surface.Platform)
    (signature timestamp body : string) (w : Focus.World) :
  let now := Focus.clock env (List.length (Focus.trace w)) in
  let wanted := Signing.expected platform timestamp body in
  exists r,
    Surface.verifySlackRequest env platform signature timestamp body w =
      (r, Signing.ticked w)
    /\ (Signing.stale now timestamp = true -> r = Value.Normal false)
    /\ (Signing.stale now timestamp = false ->
        (r = Value.Normal true <-> signature = wanted)
        /\ (String.length signature = String.length wanted ->
            signature <> wanted -> r = Value.Normal false)
        /\ (String.length signature <> String.length wanted ->
            r = Value.Throw
                  (Value.Error "Input buffers must have the same byte length"))).
Proof.
  intros now wanted. rewrite verifySlackRequest_eq. fold now wanted.
  eexists. split; [reflexivity|]. split.
  - now intros ->.
  - intros ->.
    destruct (Nat.eqb_spec (String.length wanted) (String.length signature))
      as [El|El]; cbn [negb].
    + destruct (String.eqb_spec wanted signature) as [Es|Es];
        repeat split; intros; try reflexivity; try discriminate;
        try congruence.
    + repeat split; intros; try reflexivity; try discriminate;
        try congruence.
Qed.

Lemma signature_check_witness :
  exists r,
    Surface.verifySlackRequest Examples.calm Samples.desk "v0=00f" "1" "off"
      Examples.idle = (r, Signing.ticked Examples.idle)
    /\ (false = true -> r = Value.Normal false)
    /\ (false = false ->
        (r = Value.Normal true <-> "v0=00f" = "v0=00ff")
        /\ (6%nat = 7%nat -> "v0=00f" <> "v0=00ff" -> r = Value.Normal false)
        /\ (6%nat <> 7%nat ->
            r = Value.Throw
                  (Value.Error "Input buffers must have the same byte length"))).
Proof.
  exact (signature_check Examples.calm Samples.desk "v0=00f" "1" "off"
           Examples.idle).
Defined.

(** X24. The replay window of [verifySlackRequest].  With the expected
    signature, a time stamp of decimal digits is accepted exactly when it
    lies within 300 seconds of the clock, before or after; and a time
    stamp that does not read as a number, the empty text of an absent
    header among them, is accepted whatever the clock shows: no replay
    check is made for it. *)
Theorem replay_window (env : Focus.Env) (platform : Surface.Platform)
    (timestamp body : string) (w : Focus.World) :
  let now := Focus.clock env (List.length (Focus.trace w)) in
  (Duration.is_integer timestamp = true ->
   Surface.verifySlackRequest env platform
     (Signing.expected platform timestamp body) timestamp body w =
     (Value.Normal (Z.abs (now / 1000 - Js.parseInt timestamp) <=? 300),
      Signing.ticked w))
  /\ (Surface.parseInt_noradix timestamp = None ->
      Surface.verifySlackRequest env platform
        (Signing.expected platform timestamp body) timestamp body w =
        (Value.Normal true, Signing.ticked w))
  /\ Surface.verifySlackRequest env platform
       (Signing.expected platform EmptyString body) EmptyString body w =
       (Value.Normal true, Signing.ticked w).
Proof.
  intros now. split; [|split].
  - intros H. rewrite verifySlackRequest_eq. unfold Signing.stale.
    rewrite parseInt_noradix_digits by exact H. fold now.
    rewrite Z.gtb_ltb, Z.leb_antisym.
    destruct (300 <? Z.abs (now / 1000 - Js.parseInt timestamp));
      [reflexivity|].
    now rewrite Nat.eqb_refl, String.eqb_refl.
  - intros H. rewrite verifySlackRequest_eq. unfold Signing.stale. rewrite H.
    now rewrite Nat.eqb_refl, String.eqb_refl.
  - rewrite verifySlackRequest_eq.
    change (Signing.stale (Focus.clock env (List.length (Focus.trace w)))
              EmptyString) with false.
    now rewrite Nat.eqb_refl, String.eqb_refl.
Qed.

Lemma replay_window_witness :
  Surface.verifySlackRequest Examples.calm Samples.desk "v0=00ff" "301" "off"
    Examples.idle = (Value.Normal true, Signing.ticked Examples.idle)
  /\ Surface.verifySlackRequest Examples.calm Samples.desk "v0=00ff" "302" "off"
       Examples.idle = (Value.Normal false, Signing.ticked Examples.idle)
  /\ Surface.verifySlackRequest Examples.calm Samples.desk "v0=00ff" "soon"
       "off" Examples.idle = (Value.Normal true, Signing.ticked Examples.idle).
Proof.
  split; [|split].
  - apply (proj1 (replay_window Examples.calm Samples.desk "301" "off"
                    Examples.idle)). reflexivity.
  - apply (proj1 (replay_window Examples.calm Samples.desk "302" "off"
                    Examples.idle)). reflexivity.
  - apply (proj1 (proj2 (replay_window Examples.calm Samples.desk "soon" "off"
                           Examples.idle))). reflexivity.
Defined.

(** X25. A request whose signature has another length than the expected
    one, a request without the signature header among them, makes [POST]
    throw when its time stamp is not stale: no 401 is answered, and no
    call but the reading of the clock is made. *)
Theorem unsigned_request_throws (env : Focus.Env) (platform : Surface.Platform)
    (request : Surface.Request) (w : Focus.World) :
  Signing.stale (Focus.clock env (List.length (Focus.trace w)))
    (Signing.timestamp_of request) = false ->
  (Surface.x_slack_signature request = None \/
   String.length (Signing.signature_of request) <>
     String.length (Signing.expected platform (Signing.timestamp_of request)
                      (Surface.body request))) ->
  Surface.POST env platform request w =
    (Value.Throw (Value.Error "Input buffers must have the same byte length"),
     Signing.ticked w).
Proof.
  intros Hs Hl. rewrite POST_eq, verifySlackRequest_eq, Hs.
  assert (El : (String.length
                  (Signing.expected platform (Signing.timestamp_of request)
                     (Surface.body request))
                =? String.length (Signing.signature_of request))%nat = false).
  { apply Nat.eqb_neq. destruct Hl as [Hn|Hl]; [|congruence].
    unfold Signing.signature_of. rewrite Hn. discriminate. }
  now rewrite El.
Qed.

Lemma unsigned_request_throws_witness :
  Surface.POST Examples.calm Samples.desk (Samples.unsigned "off")
    Examples.busy =
    (Value.Throw (Value.Error "Input buffers must have the same byte length"),
     Signing.ticked Examples.busy).
Proof.
  apply (unsigned_request_throws Examples.calm Samples.desk
           (Samples.unsigned "off") Examples.busy);
    [reflexivity | left; reflexivity].
Defined.

(** X26. [POST] answers 401 to a stale request and to a wrong signature
    of the expected length, 400 to a genuine request for another command,
    and the help text to a genuine request whose first word is no
    subcommand and no duration above zero; in all four cases nothing but
    the clock is read. *)
Theorem refusals_touch_nothing (env : Focus.Env) (platform : Surface.Platform)
    (request : Surface.Request) (w : Focus.World) :
  let now := Focus.clock env (List.length (Focus.trace w)) in
  let wanted :=
    Signing.expected platform (Signing.timestamp_of request)
      (Surface.body request) in
  ((Signing.stale now (Signing.timestamp_of request) = true \/
    (String.length (Signing.signature_of request) = String.length wanted /\
     Signing.signature_of request <> wanted)) ->
   Surface.POST env platform request w =
     (Value.Normal (Surface.Build_HttpResponse 401
                      (Surface.Failure "Invalid signature")),
      Signing.ticked w))
  /\ (Signing.genuine env platform request w ->
      Surface.form_get platform (Surface.body request) "command" <>
        Some "/focus" ->
      Surface.POST env platform request w =
        (Value.Normal (Surface.Build_HttpResponse 400
                         (Surface.Failure "Unknown command")),
         Signing.ticked w))
  /\ (forall subcommand args,
        Signing.genuine env platform request w ->
        Surface.form_get platform (Surface.body request) "command" =
          Some "/focus" ->
        Surface.split_spaces (Signing.text_of platform request) =
          subcommand :: args ->
        ~ In (Js.toLowerCase subcommand) ["on"; "off"; "status"] ->
        Command.falsy (Duration.parseDuration subcommand) = true ->
        Surface.POST env platform request w =
          (Value.Normal
             (Surface.Build_HttpResponse 200
                (Surface.Reply
                   (Command.Build_Response "ephemeral" Surface.help_text))),
           Signing.ticked w)).
Proof.
  intros now wanted. split; [|split].
  - intros H. rewrite POST_eq, verifySlackRequest_eq. fold now wanted.
    destruct H as [-> | [El Hne]]; [reflexivity|].
    destruct (Signing.stale now _); [reflexivity|].
    rewrite El, Nat.eqb_refl. cbn [negb].
    destruct (String.eqb_spec wanted (Signing.signature_of request));
      [congruence | reflexivity].
  - intros Hg Hc. rewrite POST_eq, (verify_genuine _ _ _ _ Hg).
    destruct (Surface.form_get platform (Surface.body request) "command")
      as [c|]; [|reflexivity].
    destruct (String.eqb_spec c "/focus"); [congruence | reflexivity].
  - intros sub args Hg Hc Hsplit Hword Hfalsy.
    rewrite POST_eq, (verify_genuine _ _ _ _ Hg), Hc. cbn [String.eqb].
    change (String.eqb "/focus" "/focus") with true. cbv iota.
    unfold Surface.dispatch. rewrite Hsplit.
    assert (E1 : String.eqb (Js.toLowerCase sub) "on" = false).
    { apply String.eqb_neq. intros E. apply Hword. rewrite E. now left. }
    assert (E2 : String.eqb (Js.toLowerCase sub) "off" = false).
    { apply String.eqb_neq. intros E. apply Hword. rewrite E. right; now left. }
    assert (E3 : String.eqb (Js.toLowerCase sub) "status" = false).
    { apply String.eqb_neq. intros E. apply Hword. rewrite E.
      right; right; now left. }
    rewrite E1, E2, E3, Hfalsy. cbn [negb].
    destruct (String.eqb (Js.toLowerCase sub) EmptyString
              || String.eqb (Js.toLowerCase sub) "help"); reflexivity.
Qed.

Lemma refusals_touch_nothing_witness :
  Surface.POST Examples.calm Samples.desk (Samples.signed "0h now")
    Examples.busy =
    (Value.Normal
       (Surface.Build_HttpResponse 200
          (Surface.Reply
             (Command.Build_Response "ephemeral" Surface.help_text))),
     Signing.ticked Examples.busy).
Proof.
  apply (proj2 (proj2 (refusals_touch_nothing Examples.calm Samples.desk
                         (Samples.signed "0h now") Examples.busy))
           "0h" ["now"]).
  - split; reflexivity.
  - reflexivity.
  - reflexivity.
  - simpl. intros [H|[H|[H|[]]]]; discriminate H.
  - reflexivity.
Defined.

(** X27. A genuine request for the command whose first word parses as a
    duration above zero is handled as the [on] command with that word as
    the duration, the words after it dropped; and a first word on, in any
    case of letters, is handled as the [on] command with the second word,
    if there is one. *)
Theorem bare_duration_is_on (env : Focus.Env) (platform : Surface.Platform)
    (request : Surface.Request) (w : Focus.World)
    (subcommand : string) (args : list string) :
  Signing.genuine env platform request w ->
  Surface.form_get platform (Surface.body request) "command" =
    Some "/focus" ->
  Surface.split_spaces (Signing.text_of platform request) =
    subcommand :: args ->
  ((exists ms, Duration.parseDuration subcommand = Some ms /\ ms <> 0) ->
   Surface.POST env platform request w =
     Signing.answered
       (Command.handleFocusOn env (Signing.user_of platform request)
          (Signing.name_of platform request) (Some subcommand)
          (Signing.ticked w)))
  /\ (Js.toLowerCase subcommand = "on" ->
      Surface.POST env platform request w =
        Signing.answered
          (Command.handleFocusOn env (Signing.user_of platform request)
             (Signing.name_of platform request) (hd_error args)
             (Signing.ticked w))).
Proof.
  intros Hg Hc Hsplit.
  rewrite POST_eq, (verify_genuine _ _ _ _ Hg), Hc.
  change (String.eqb "/focus" "/focus") with true. cbv iota.
  unfold Surface.dispatch. rewrite Hsplit. split.
  - intros (ms & Hp & Hms).
    destruct (duration_is_no_subcommand _ _ Hp) as (E1 & E2 & E3 & E4 & E5).
    rewrite E1, E2, E3, E4, E5, Hp. cbn [orb Command.falsy].
    apply Z.eqb_neq in Hms. now rewrite Hms.
  - intros ->. reflexivity.
Qed.

Lemma bare_duration_is_on_witness :
  Surface.POST Examples.calm Samples.desk (Samples.signed " 90M later ")
    Examples.idle =
    Signing.answered
      (Command.handleFocusOn Examples.calm "U1" "ann" (Some "90M")
         (Signing.ticked Examples.idle)).
Proof.
  apply (proj1 (bare_duration_is_on Examples.calm Samples.desk
                  (Samples.signed " 90M later ") Examples.idle
                  "90M" ["later"]
                  (conj eq_refl eq_refl) eq_refl eq_refl)).
  exists 5400000. split; [reflexivity | discriminate].
Defined.

Lemma scalar_answer_falls_back_witness :
  Classifier.classifyMessage Samples.scalar_reply "lunch?" "general" "ann" =
    Value.Normal
      (Classifier.result "medium"
         "Default classification (AI classification failed)" false).
Proof.
  apply (scalar_answer_falls_back Samples.scalar_reply "lunch?" "general" "ann"
           Samples.text_block [] (Value.VStr "urgent"));
    (reflexivity || exact I).
Defined.

Lemma answer_without_urgency_is_returned_witness :
  exists r,
    Classifier.classifyMessage Samples.list_reply "lunch?" "general" "ann" =
      Value.Normal r
    /\ Value.get r "urgency" = Value.Normal Value.VUndefined
    /\ Value.get r "shouldInterrupt" = Value.Normal (Value.VBool false).
Proof.
  apply (answer_without_urgency_is_returned Samples.list_reply "lunch?"
           "general" "ann" Samples.text_block []
           (Value.VArr [Value.VStr "urgent"] [])); try reflexivity.
  left. exists [Value.VStr "urgent"]. reflexivity.
Defined.
